(** * telegram-job: the task manager's request handlers

    A shallow embedding of [my_webapp/database.py] (the three enumerations and
    the [users] and [tasks] tables) and of [my_webapp/main.py] (the identity
    verifier [validate_telegram_data], the HTTP handlers [auth_user],
    [update_user_role], [get_tasks], [create_task], [update_task] and the bot
    handler [cmd_start]), followed by the properties of the role directory and
    of the task lifecycle rules.

    Conventions.
    - A Python [str] is the list of its code points ([pystr]); [bytes] is a
      list of octets.
    - A handler is a computation in the monad [M]: it threads the ORM session
      (the rows as the session sees them, the committed rows, the
      notifications handed to the event loop) and either returns or raises.
    - [urllib.parse.parse_qsl], [hmac]/[hashlib.sha256] and [json.loads] are
      library code: they are the operations of the class [PyLib].
    - The announcements and [get_users] touch neither a task nor a user row
      and are left out. *)

From Stdlib Require Import ZArith NArith List Bool String Ascii Lia Permutation.
Import ListNotations.
Open Scope Z_scope.

(* ------------------------------------------------------------------ *)
(** * Python strings and bytes *)

Definition pystr := list N.
Definition pybytes := list N.

(** An ASCII literal as a Python string. *)
Definition str (s : string) : pystr :=
  map N_of_ascii (list_ascii_of_string s).

Definition pystr_eqb (a b : pystr) : bool :=
  if list_eq_dec N.eq_dec a b then true else false.

(** [str.isspace] on one code point (the Unicode white space of CPython). *)
Definition py_isspace (c : N) : bool :=
  (((9 <=? c) && (c <=? 13)) || ((28 <=? c) && (c <=? 32))
   || (c =? 133) || (c =? 160) || (c =? 5760)
   || ((8192 <=? c) && (c <=? 8202))
   || (c =? 8232) || (c =? 8233) || (c =? 8239) || (c =? 8287)
   || (c =? 12288))%N.

Fixpoint lstrip (s : pystr) : pystr :=
  match s with
  | c :: s' => if py_isspace c then lstrip s' else s
  | [] => []
  end.

(** [s.strip()] *)
Definition strip (s : pystr) : pystr := rev (lstrip (rev (lstrip s))).

(** [sep.join(parts)] *)
Fixpoint join (sep : pystr) (parts : list pystr) : pystr :=
  match parts with
  | [] => []
  | [p] => p
  | p :: ps => p ++ sep ++ join sep ps
  end.

(** Comparison of two strings, code point by code point, as [<] on [str]. *)
Fixpoint pystr_compare (a b : pystr) : comparison :=
  match a, b with
  | [], [] => Eq
  | [], _ :: _ => Lt
  | _ :: _, [] => Gt
  | x :: a', y :: b' =>
      match N.compare x y with
      | Eq => pystr_compare a' b'
      | c => c
      end
  end.

(** [<=] on the tuples [(k, v)] that [sorted(parsed_data.items())] compares. *)
Definition item_leb (p q : pystr * pystr) : bool :=
  match pystr_compare (fst p) (fst q) with
  | Lt => true
  | Gt => false
  | Eq => match pystr_compare (snd p) (snd q) with Gt => false | _ => true end
  end.

Fixpoint insert_sorted {A : Type} (leb : A -> A -> bool) (x : A) (l : list A) : list A :=
  match l with
  | [] => [x]
  | y :: l' => if leb x y then x :: l else y :: insert_sorted leb x l'
  end.

(** A stable sort: [sorted] of Python, and [ORDER BY] below. *)
Definition sorted {A : Type} (leb : A -> A -> bool) (l : list A) : list A :=
  fold_right (fun x acc => insert_sorted leb x acc) [] l.

(** [s.encode()]: UTF-8; a surrogate raises [UnicodeEncodeError]. *)
Definition utf8_of_codepoint (c : N) : option pybytes :=
  (if c <? 128 then Some [c]
   else if c <? 2048 then Some [192 + c / 64; 128 + c mod 64]
   else if c <? 65536 then
     if (55296 <=? c) && (c <=? 57343) then None
     else Some [224 + c / 4096; 128 + (c / 64) mod 64; 128 + c mod 64]
   else if c <? 1114112 then
     Some [240 + c / 262144; 128 + (c / 4096) mod 64;
           128 + (c / 64) mod 64; 128 + c mod 64]
   else None)%N.

Fixpoint utf8 (s : pystr) : option pybytes :=
  match s with
  | [] => Some []
  | c :: s' =>
      match utf8_of_codepoint c, utf8 s' with
      | Some b, Some bs => Some (b ++ bs)
      | _, _ => None
      end
  end.

Definition hexchar (d : N) : N := (if d <? 10 then 48 + d else 87 + d)%N.

(** [digest.hex()], lower case. *)
Definition hex (b : pybytes) : pystr :=
  flat_map (fun x => [hexchar (x / 16); hexchar (x mod 16)])%N b.

(* ------------------------------------------------------------------ *)
(** * database.py: enumerations and rows *)

Inductive UserRole := OWNER | ADMIN | WORKER.
Inductive TaskStatus := TODO | IN_PROGRESS | DONE | DISPUTED.

Definition UserRole_eqb (a b : UserRole) : bool :=
  match a, b with
  | OWNER, OWNER | ADMIN, ADMIN | WORKER, WORKER => true
  | _, _ => false
  end.

Definition TaskStatus_eqb (a b : TaskStatus) : bool :=
  match a, b with
  | TODO, TODO | IN_PROGRESS, IN_PROGRESS | DONE, DONE | DISPUTED, DISPUTED => true
  | _, _ => false
  end.

(** A row of [users].  [full_name] and [role] are nullable columns, but every
    write of the program gives them a value. *)
Module User.
Record t := mk {
    id : Z;
    telegram_id : Z;
    full_name : pystr;
    role : UserRole
  }.
Definition set_full_name (v : pystr) (u : t) : t :=
    mk (id u) (telegram_id u) v (role u).
Definition set_role (v : UserRole) (u : t) : t :=
    mk (id u) (telegram_id u) (full_name u) v.
End User.

(** A row of [tasks], as the Python object holds it: [title] is [NOT NULL]
    in the table (see [commit]) but the attribute can be assigned [None];
    [status], [description], [dispute_reason] and [deadline] are nullable.
    A [datetime] is a point on a line, here an integer. *)
Module Task.
Record t := mk {
    id : Z;
    title : option pystr;
    description : option pystr;
    status : option TaskStatus;
    dispute_reason : option pystr;
    is_locked : bool;
    creator_id : Z;
    assignee_id : Z;
    deadline : option Z;
    created_at : Z
  }.
Definition set_title v (x : t) : t :=
    mk (id x) v (description x) (status x) (dispute_reason x) (is_locked x)
       (creator_id x) (assignee_id x) (deadline x) (created_at x).
Definition set_description v (x : t) : t :=
    mk (id x) (title x) v (status x) (dispute_reason x) (is_locked x)
       (creator_id x) (assignee_id x) (deadline x) (created_at x).
Definition set_status v (x : t) : t :=
    mk (id x) (title x) (description x) v (dispute_reason x) (is_locked x)
       (creator_id x) (assignee_id x) (deadline x) (created_at x).
Definition set_dispute_reason v (x : t) : t :=
    mk (id x) (title x) (description x) (status x) v (is_locked x)
       (creator_id x) (assignee_id x) (deadline x) (created_at x).
Definition set_is_locked v (x : t) : t :=
    mk (id x) (title x) (description x) (status x) (dispute_reason x) v
       (creator_id x) (assignee_id x) (deadline x) (created_at x).
Definition set_deadline v (x : t) : t :=
    mk (id x) (title x) (description x) (status x) (dispute_reason x) (is_locked x)
       (creator_id x) (assignee_id x) v (created_at x).
End Task.

(** The two tables the handlers below read and write. *)
Record DB := mkDB { users : list User.t; tasks : list Task.t }.

Definition empty_db : DB := mkDB [] [].

(* ------------------------------------------------------------------ *)
(** * Exceptions, results and the session monad *)

Inductive PyExn :=
| HTTPException (status_code : Z) (detail : option pystr)
| KeyError
| ValueError
| UnicodeEncodeError
| JSONDecodeError
| AttributeError
| MultipleResultsFound
| IntegrityError.

Inductive result (A : Type) :=
| Ok (a : A)
| Raise (e : PyExn).
Arguments Ok {A} a.
Arguments Raise {A} e.

Definition bindR {A B : Type} (r : result A) (k : A -> result B) : result B :=
  match r with
  | Ok a => k a
  | Raise e => Raise e
  end.

(** The texts handed to [send_notify], by the f-string that builds them, with
    the values it interpolates. *)
Inductive NotifyText :=
| NewTaskText (title : pystr)
| DisputedText (title : option pystr) (reason : option pystr)
| ResolvedText (title : option pystr) (status : TaskStatus)
| DoneText (title : option pystr).

Record Session := mkSession {
  committed : DB;
  pending : DB;
  outbox : list (Z * NotifyText)
}.

Definition M (A : Type) : Type := Session -> result A * Session.

Definition ret {A : Type} (a : A) : M A := fun s => (Ok a, s).
Definition raise {A : Type} (e : PyExn) : M A := fun s => (Raise e, s).
Definition bind {A B : Type} (m : M A) (k : A -> M B) : M B :=
  fun s => match m s with
           | (Ok a, s') => k a s'
           | (Raise e, s') => (Raise e, s')
           end.
Definition lift {A : Type} (r : result A) : M A := fun s => (r, s).

Declare Scope py_scope.
Delimit Scope py_scope with py.
Notation "x <- c ;; k" := (bind c (fun x => k))
  (at level 61, c at next level, right associativity) : py_scope.
Notation "c ;; k" := (bind c (fun _ => k))
  (at level 61, right associativity) : py_scope.
Notation "x <~ c ;; k" := (bindR c (fun x => k))
  (at level 61, c at next level, right associativity) : py_scope.
Open Scope py_scope.

(** [result.scalar_one_or_none()] *)
Definition scalar_one_or_none {A : Type} (rows : list A) : result (option A) :=
  match rows with
  | [] => Ok None
  | [r] => Ok (Some r)
  | _ :: _ :: _ => Raise MultipleResultsFound
  end.

(** [db.execute(select(User).where(p))]: the rows in table order.  The keys
    are compared as integers.  (The program binds the value compared with as
    an SQLite [INTEGER]: one outside the signed 64-bit range raises
    [OverflowError] before a row is read.  The keys of stored rows are in
    that range; where a caller chooses the key, the statements below about a
    row that is not stored take the range as a hypothesis, [int64].) *)
Definition select_users (p : User.t -> bool) : M (list User.t) :=
  fun s => (Ok (filter p (users (pending s))), s).

Definition select_tasks (p : Task.t -> bool) : M (list Task.t) :=
  fun s => (Ok (filter p (tasks (pending s))), s).

(** The integer primary key SQLite gives a new row: one more than the largest. *)
Definition next_id (ids : list Z) : Z := 1 + fold_right Z.max 0 ids.

(** [db.add(User(...))]; the key is the one the row gets when it is flushed.
    (As for the look-ups, the values of the integer columns are taken in the
    signed 64-bit range, outside of which the [INSERT] raises
    [OverflowError].) *)
Definition add_user (tg_id : Z) (name : pystr) (r : UserRole) : M User.t :=
  fun s =>
    let db := pending s in
    let u := User.mk (next_id (map User.id (users db))) tg_id name r in
    (Ok u, mkSession (committed s) (mkDB (users db ++ [u]) (tasks db)) (outbox s)).

Definition add_task (mk_task : Z -> Task.t) : M Task.t :=
  fun s =>
    let db := pending s in
    let t := mk_task (next_id (map Task.id (tasks db))) in
    (Ok t, mkSession (committed s) (mkDB (users db) (tasks db ++ [t])) (outbox s)).

(** An attribute assignment on a loaded row: the session's row with that
    primary key now holds the new values. *)
Definition replace_user (u : User.t) (rows : list User.t) : list User.t :=
  map (fun x => if User.id x =? User.id u then u else x) rows.

Definition replace_task (t : Task.t) (rows : list Task.t) : list Task.t :=
  map (fun x => if Task.id x =? Task.id t then t else x) rows.

Definition store_user (u : User.t) : M unit :=
  fun s =>
    let db := pending s in
    (Ok tt, mkSession (committed s)
              (mkDB (replace_user u (users db)) (tasks db)) (outbox s)).

Definition store_task (t : Task.t) : M unit :=
  fun s =>
    let db := pending s in
    (Ok tt, mkSession (committed s)
              (mkDB (users db) (replace_task t (tasks db))) (outbox s)).

Definition title_not_null (t : Task.t) : bool :=
  match Task.title t with Some _ => true | None => false end.

(** [db.commit()]: the flush fails on a [NULL] title ([nullable=False]) and the
    transaction is rolled back; otherwise the session's rows are the stored ones.
    (The rows already stored have a title, so the test is on the rows the
    request assigned to.) *)
Definition commit : M unit :=
  fun s =>
    if forallb title_not_null (tasks (pending s))
    then (Ok tt, mkSession (pending s) (pending s) (outbox s))
    else (Raise IntegrityError, mkSession (committed s) (committed s) (outbox s)).

(** [asyncio.create_task(send_notify(tg_id, text))] *)
Definition create_task_send_notify (tg_id : Z) (text : NotifyText) : M unit :=
  fun s => (Ok tt, mkSession (committed s) (pending s) (outbox s ++ [(tg_id, text)])).

(** One request: a fresh session on the stored rows; what is stored afterwards
    is what was committed. *)
Definition run {A : Type} (h : M A) (db : DB) : result A * DB * list (Z * NotifyText) :=
  let '(r, s) := h (mkSession db db []) in (r, committed s, outbox s).

Definition outcome {A : Type} (h : M A) (db : DB) : result A := fst (fst (run h db)).
Definition stored {A : Type} (h : M A) (db : DB) : DB := snd (fst (run h db)).
Definition notified {A : Type} (h : M A) (db : DB) : list (Z * NotifyText) := snd (run h db).


(* ------------------------------------------------------------------ *)
(** * main.py: request models *)

(** A field of a pydantic model whose every field is [Optional] with default
    [None]: left out of the request body, or given ([null] included).
    [dict(exclude_unset=True)] keeps the given ones. *)
Inductive field (A : Type) :=
| Unset
| Given (v : option A).
Arguments Unset {A}.
Arguments Given {A} v.

(** Reading the attribute, [task_data.status]. *)
Definition attr {A : Type} (f : field A) : option A :=
  match f with
  | Unset => None
  | Given v => v
  end.

Module TaskUpdate.
Record t := mk {
    status : field TaskStatus;
    title : field pystr;
    description : field pystr;
    deadline : field Z;
    dispute_reason : field pystr
  }.
End TaskUpdate.

Module TaskCreate.
Record t := mk {
    title : pystr;
    description : option pystr;
    assignee_id : Z;
    deadline : option Z
  }.
End TaskCreate.

(** The identity claim: the object under ['user'] of the signed data, as the
    platform issues it (an integer [id], names that are strings when present). *)
Module TgUser.
Record t := mk {
    id : Z;
    first_name : option pystr;
    last_name : option pystr
  }.
End TgUser.

(** [message.from_user] of the bot library, with its [full_name] property. *)
Module FromUser.
Record t := mk {
    id : Z;
    full_name : pystr
  }.
End FromUser.

(** An entry of the list [get_tasks] returns. *)
Module TaskView.
Record t := mk {
    id : Z;
    title : option pystr;
    description : option pystr;
    status : option TaskStatus;
    deadline : option Z;
    assignee_name : pystr;
    is_mine : bool;
    is_locked : bool;
    dispute_reason : option pystr
  }.
End TaskView.

(** One item of [task_data.dict(exclude_unset=True)]. *)
Inductive TaskItem :=
| item_status (v : option TaskStatus)
| item_title (v : option pystr)
| item_description (v : option pystr)
| item_deadline (v : option Z)
| item_dispute_reason (v : option pystr).

Definition items_of {A : Type} (mk : option A -> TaskItem) (f : field A) : list TaskItem :=
  match f with
  | Unset => []
  | Given v => [mk v]
  end.

(** The items in the order of the model's fields. *)
Definition dict_exclude_unset (d : TaskUpdate.t) : list TaskItem :=
  items_of item_status (TaskUpdate.status d)
  ++ items_of item_title (TaskUpdate.title d)
  ++ items_of item_description (TaskUpdate.description d)
  ++ items_of item_deadline (TaskUpdate.deadline d)
  ++ items_of item_dispute_reason (TaskUpdate.dispute_reason d).

(** [if k != 'dispute_reason': setattr(task, k, v)] *)
Definition setattr_unless_dispute_reason (t : Task.t) (kv : TaskItem) : Task.t :=
  match kv with
  | item_status v => Task.set_status v t
  | item_title v => Task.set_title v t
  | item_description v => Task.set_description v t
  | item_deadline v => Task.set_deadline v t
  | item_dispute_reason _ => t
  end.

(* ------------------------------------------------------------------ *)
(** * A [dict] with string keys and values, in insertion order *)

Definition pydict := list (pystr * pystr).

Fixpoint dict_set (d : pydict) (k v : pystr) : pydict :=
  match d with
  | [] => [(k, v)]
  | (k', v') :: d' =>
      if pystr_eqb k' k then (k', v) :: d' else (k', v') :: dict_set d' k v
  end.

(** [dict(pairs)]: a later pair with the same key replaces the value. *)
Definition dict_of_pairs (pairs : list (pystr * pystr)) : pydict :=
  fold_left (fun d kv => dict_set d (fst kv) (snd kv)) pairs [].

Fixpoint dict_get (d : pydict) (k : pystr) : option pystr :=
  match d with
  | [] => None
  | (k', v) :: d' => if pystr_eqb k' k then Some v else dict_get d' k
  end.

(** [d[k]] *)
Definition dict_getitem (d : pydict) (k : pystr) : result pystr :=
  match dict_get d k with
  | Some v => Ok v
  | None => Raise KeyError
  end.

(** [d.pop(k)]: the value, and the dictionary without the key. *)
Definition dict_pop (d : pydict) (k : pystr) : result (pystr * pydict) :=
  match dict_get d k with
  | Some v => Ok (v, filter (fun kv => negb (pystr_eqb (fst kv) k)) d)
  | None => Raise KeyError
  end.

(** The one-character string of a line feed. *)
Definition newline : pystr := [10%N].

Definition encode (s : pystr) : result pybytes :=
  match utf8 s with
  | Some b => Ok b
  | None => Raise UnicodeEncodeError
  end.

(* ------------------------------------------------------------------ *)
(** * The library and the configuration *)

(** [parse_qsl] (of a header that may be missing), [hmac.new(key, msg,
    hashlib.sha256).digest()] and [json.loads] on the ['user'] field. *)
Class PyLib := {
  parse_qsl : option pystr -> result (list (pystr * pystr));
  hmac_sha256 : pybytes -> pybytes -> pybytes;
  json_loads : pystr -> result TgUser.t
}.

(** The failures of the handlers, by the names of the error taxonomy. *)
Definition AuthenticationFailure : PyExn :=
  HTTPException 403 (Some (str "Auth failed")).
Definition Forbidden : PyExn := HTTPException 403 None.
Definition OnlyOwner : PyExn := HTTPException 403 (Some (str "Only Owner")).
Definition NotFound : PyExn := HTTPException 404 None.
Definition InvalidState : PyExn := HTTPException 400 None.

(** The environment variables read at start-up. *)
Class Config := {
  BOT_TOKEN : pystr;
  OWNER_ID : Z;
  BASE_URL : option pystr
}.

Section Handlers.
Context {L : PyLib} {C : Config}.

(** ["\n".join(f"{k}={v}" for k, v in sorted(parsed_data.items()))] *)
Definition check_string (parsed_data : pydict) : pystr :=
  join newline
       (map (fun kv => fst kv ++ str "=" ++ snd kv) (sorted item_leb parsed_data)).

(** The body of the [try] of [validate_telegram_data]. *)
Definition validate_try (init_data : option pystr) (bot_token : pystr) : result TgUser.t :=
  pairs <~ parse_qsl init_data ;;
  let parsed_data := dict_of_pairs pairs in
  popped <~ dict_pop parsed_data (str "hash") ;;
  let hash_val := fst popped in
  let parsed_data := snd popped in
  let data_check_string := check_string parsed_data in
  token_bytes <~ encode bot_token ;;
  let secret_key := hmac_sha256 (str "WebAppData") token_bytes in
  check_bytes <~ encode data_check_string ;;
  if negb (pystr_eqb (hex (hmac_sha256 secret_key check_bytes)) hash_val)
  then Raise ValueError
  else
    user <~ dict_getitem parsed_data (str "user") ;;
    json_loads user.

(** [except: raise HTTPException(403, "Auth failed")] around that body. *)
Definition validate_telegram_data (init_data : option pystr) (bot_token : pystr)
  : result TgUser.t :=
  match validate_try init_data bot_token with
  | Ok tg_user => Ok tg_user
  | Raise _ => Raise (HTTPException 403 (Some (str "Auth failed")))
  end.

Definition get_or_empty (o : option pystr) : pystr :=
  match o with
  | Some s => s
  | None => []
  end.

(** [f"{tg_user.get('first_name','')} {tg_user.get('last_name','')}".strip()] *)
Definition full_name_of (tg_user : TgUser.t) : pystr :=
  strip (get_or_empty (TgUser.first_name tg_user) ++ str " "
         ++ get_or_empty (TgUser.last_name tg_user)).

(** [POST /api/auth]; the value is the row whose four columns the reply carries. *)
Definition auth_user (initData : pystr) : M User.t :=
  tg_user <- lift (validate_telegram_data (Some initData) BOT_TOKEN) ;;
  let tg_id := TgUser.id tg_user in
  let full_name := full_name_of tg_user in
  rows <- select_users (fun u => User.telegram_id u =? tg_id) ;;
  user <- lift (scalar_one_or_none rows) ;;
  user <- match user with
          | None =>
              let role := if tg_id =? OWNER_ID then OWNER else WORKER in
              add_user tg_id full_name role
          | Some user =>
              let user := User.set_full_name full_name user in
              let user := if tg_id =? OWNER_ID then User.set_role OWNER user else user in
              store_user user ;; ret user
          end ;;
  commit ;;
  ret user.

(** [PATCH /api/users/{user_id}/role] *)
Definition update_user_role (user_id : Z) (role_data : UserRole)
  (init_data : option pystr) : M pystr :=
  tg_user <- lift (validate_telegram_data init_data BOT_TOKEN) ;;
  if negb (TgUser.id tg_user =? OWNER_ID)
  then raise (HTTPException 403 (Some (str "Only Owner")))
  else
    rows <- select_users (fun u => User.id u =? user_id) ;;
    user <- lift (scalar_one_or_none rows) ;;
    match user with
    | None => raise (HTTPException 400 None)
    | Some user =>
        if User.telegram_id user =? OWNER_ID
        then raise (HTTPException 400 None)
        else
          store_user (User.set_role role_data user) ;;
          commit ;;
          ret (str "ok")
    end.

(** [ORDER BY deadline ASC]: SQLite puts [NULL] first.  Rows with the same
    deadline are kept in table order here; SQL promises no order among them,
    and nothing below depends on it. *)
Definition deadline_leb (a b : Task.t) : bool :=
  match Task.deadline a, Task.deadline b with
  | None, _ => true
  | Some _, None => false
  | Some x, Some y => x <=? y
  end.

Definition opt_pystr_eqb (a : option pystr) (b : pystr) : bool :=
  match a with
  | Some s => pystr_eqb s b
  | None => false
  end.

(** The body of the loop of [get_tasks] for one task. *)
Definition task_entry (user : User.t) (t : Task.t) : M TaskView.t :=
  rows <- select_users (fun u => User.id u =? Task.assignee_id t) ;;
  assignee <- lift (scalar_one_or_none rows) ;;
  ret (TaskView.mk (Task.id t) (Task.title t) (Task.description t) (Task.status t)
         (Task.deadline t)
         (match assignee with
          | Some a => User.full_name a
          | None => str "Unknown"
          end)
         (Task.assignee_id t =? User.id user)
         (Task.is_locked t)
         (if negb (UserRole_eqb (User.role user) WORKER)
             || (Task.assignee_id t =? User.id user)
          then Task.dispute_reason t else None)).

Fixpoint task_entries (user : User.t) (ts : list Task.t) : M (list TaskView.t) :=
  match ts with
  | [] => ret []
  | t :: ts' =>
      e <- task_entry user t ;;
      es <- task_entries user ts' ;;
      ret (e :: es)
  end.

(** [GET /api/tasks], with the value of the query parameter [filter]. *)
Definition get_tasks (init_data : option pystr) (filter_param : option pystr)
  : M (list TaskView.t) :=
  tg_user <- lift (validate_telegram_data init_data BOT_TOKEN) ;;
  rows <- select_users (fun u => User.telegram_id u =? TgUser.id tg_user) ;;
  user <- lift (scalar_one_or_none rows) ;;
  match user with
  | None => raise AttributeError
  | Some user =>
      found <- (if UserRole_eqb (User.role user) WORKER
                   || opt_pystr_eqb filter_param (str "mine")
                then select_tasks (fun t => Task.assignee_id t =? User.id user)
                else select_tasks (fun _ => true)) ;;
      task_entries user (sorted deadline_leb found)
  end.

(** [POST /api/tasks]; [now] is the reading of [datetime.utcnow] for [created_at]. *)
Definition create_task (task_data : TaskCreate.t) (init_data : option pystr) (now : Z)
  : M pystr :=
  tg_user <- lift (validate_telegram_data init_data BOT_TOKEN) ;;
  rows <- select_users (fun u => User.telegram_id u =? TgUser.id tg_user) ;;
  creator <- lift (scalar_one_or_none rows) ;;
  match creator with
  | None => raise AttributeError
  | Some creator =>
      if negb (UserRole_eqb (User.role creator) ADMIN
               || UserRole_eqb (User.role creator) OWNER)
      then raise (HTTPException 403 None)
      else
        add_task (fun new_id =>
          Task.mk new_id (Some (TaskCreate.title task_data))
            (TaskCreate.description task_data) (Some TODO) None false
            (User.id creator) (TaskCreate.assignee_id task_data)
            (TaskCreate.deadline task_data) now) ;;
        commit ;;
        rows <- select_users (fun u => User.id u =? TaskCreate.assignee_id task_data) ;;
        assignee <- lift (scalar_one_or_none rows) ;;
        match assignee with
        | Some a =>
            create_task_send_notify (User.telegram_id a)
              (NewTaskText (TaskCreate.title task_data))
        | None => ret tt
        end ;;
        ret (str "ok")
  end.

Definition opt_status_eqb (a : option TaskStatus) (b : TaskStatus) : bool :=
  match a with
  | Some s => TaskStatus_eqb s b
  | None => false
  end.

(** [if x: f(x)] on an optional row. *)
Definition when_some {A : Type} (o : option A) (f : A -> M unit) : M unit :=
  match o with
  | Some a => f a
  | None => ret tt
  end.

(** The rules of [update_task] (the [if]/[elif]/[else] on the requested and
    the current status), on the rows the handler has loaded. *)
Definition apply_rules (user : User.t) (task : Task.t) (creator assignee : option User.t)
  (task_data : TaskUpdate.t) : M unit :=
  let is_owner := UserRole_eqb (User.role user) OWNER in
  if opt_status_eqb (attr (TaskUpdate.status task_data)) DISPUTED then
    if negb (Task.assignee_id task =? User.id user)
    then raise (HTTPException 403 None)
    else if Task.is_locked task
    then raise (HTTPException 400 None)
    else
      let task :=
        Task.set_dispute_reason (attr (TaskUpdate.dispute_reason task_data))
          (Task.set_status (Some DISPUTED) task) in
      store_task task ;;
      when_some creator (fun c =>
        create_task_send_notify (User.telegram_id c)
          (DisputedText (Task.title task)
             (attr (TaskUpdate.dispute_reason task_data))))
  else
    match opt_status_eqb (Task.status task) DISPUTED,
          attr (TaskUpdate.status task_data) with
    | true, Some new_status =>
        if negb is_owner
        then raise (HTTPException 403 None)
        else
          let task :=
            Task.set_dispute_reason None
              (Task.set_status (Some new_status) task) in
          let task :=
            if negb (TaskStatus_eqb new_status DONE)
            then Task.set_is_locked true task else task in
          store_task task ;;
          when_some assignee (fun a =>
            create_task_send_notify (User.telegram_id a)
              (ResolvedText (Task.title task) new_status))
    | _, _ =>
        if UserRole_eqb (User.role user) WORKER then
          if negb (Task.assignee_id task =? User.id user)
          then raise (HTTPException 403 None)
          else
            match attr (TaskUpdate.status task_data) with
            | Some new_status =>
                let task := Task.set_status (Some new_status) task in
                store_task task ;;
                if TaskStatus_eqb new_status DONE
                then when_some creator (fun c =>
                       create_task_send_notify (User.telegram_id c)
                         (DoneText (Task.title task)))
                else ret tt
            | None => ret tt
            end
        else
          store_task (fold_left setattr_unless_dispute_reason
                        (dict_exclude_unset task_data) task)
    end.

(** [PATCH /api/tasks/{task_id}] *)
Definition update_task (task_id : Z) (task_data : TaskUpdate.t)
  (init_data : option pystr) : M pystr :=
  tg_user <- lift (validate_telegram_data init_data BOT_TOKEN) ;;
  rows <- select_users (fun u => User.telegram_id u =? TgUser.id tg_user) ;;
  user <- lift (scalar_one_or_none rows) ;;
  rows <- select_tasks (fun t => Task.id t =? task_id) ;;
  task <- lift (scalar_one_or_none rows) ;;
  match task with
  | None => raise (HTTPException 404 None)
  | Some task =>
      rows <- select_users (fun u => User.id u =? Task.creator_id task) ;;
      creator <- lift (scalar_one_or_none rows) ;;
      rows <- select_users (fun u => User.id u =? Task.assignee_id task) ;;
      assignee <- lift (scalar_one_or_none rows) ;;
      match user with
      | None => raise AttributeError
      | Some user =>
          apply_rules user task creator assignee task_data ;;
          commit ;;
          ret (str "updated")
      end
  end.

(** The [/start] command: the text of the reply and the address its button opens. *)
Definition cmd_start (from_user : FromUser.t) : M (pystr * option pystr) :=
  rows <- select_users (fun u => User.telegram_id u =? FromUser.id from_user) ;;
  found <- lift (scalar_one_or_none rows) ;;
  match found with
  | None =>
      let role := if FromUser.id from_user =? OWNER_ID then OWNER else WORKER in
      add_user (FromUser.id from_user) (FromUser.full_name from_user) role ;;
      commit
  | Some _ => ret tt
  end ;;
  ret (str "Task Manager:", BASE_URL).

End Handlers.

(* ------------------------------------------------------------------ *)
(** * The constraints of the schema *)

Fixpoint distinct (l : list Z) : bool :=
  match l with
  | [] => true
  | x :: l' => negb (existsb (Z.eqb x) l') && distinct l'
  end.

(** Primary keys, the unique index on [telegram_id], and [NOT NULL] titles. *)
Definition wf_db (db : DB) : bool :=
  distinct (map User.id (users db))
  && distinct (map User.telegram_id (users db))
  && distinct (map Task.id (tasks db))
  && forallb title_not_null (tasks db).

(** The three look-ups the handlers make, on the stored rows. *)
Definition user_by_telegram_id (db : DB) (tg_id : Z) : result (option User.t) :=
  scalar_one_or_none (filter (fun u => User.telegram_id u =? tg_id) (users db)).

Definition user_by_id (db : DB) (user_id : Z) : result (option User.t) :=
  scalar_one_or_none (filter (fun u => User.id u =? user_id) (users db)).

Definition task_by_id (db : DB) (task_id : Z) : result (option Task.t) :=
  scalar_one_or_none (filter (fun t => Task.id t =? task_id) (tasks db)).


(** The entry [task_entry] returns, as a function of the rows of [users]. *)
Definition entry_of (rows : list User.t) (user : User.t) (t : Task.t) : TaskView.t :=
  TaskView.mk (Task.id t) (Task.title t) (Task.description t) (Task.status t)
    (Task.deadline t)
    (match find (fun u => User.id u =? Task.assignee_id t) rows with
     | Some a => User.full_name a
     | None => str "Unknown"
     end)
    (Task.assignee_id t =? User.id user)
    (Task.is_locked t)
    (if negb (UserRole_eqb (User.role user) WORKER)
        || (Task.assignee_id t =? User.id user)
     then Task.dispute_reason t else None).

(* ------------------------------------------------------------------ *)
(** * The requests that reach the two tables, and the stored states they lead to *)

Inductive Request :=
| POST_auth (initData : pystr)
| PATCH_user_role (user_id : Z) (role_data : UserRole) (init_data : option pystr)
| GET_tasks (init_data : option pystr) (filter_param : option pystr)
| POST_tasks (task_data : TaskCreate.t) (init_data : option pystr) (now : Z)
| PATCH_task (task_id : Z) (task_data : TaskUpdate.t) (init_data : option pystr)
| BOT_start (from_user : FromUser.t).

Section Requests.
Context {L : PyLib} {C : Config}.

(** What is stored after one request. *)
Definition step (db : DB) (r : Request) : DB :=
  match r with
  | POST_auth i => stored (auth_user i) db
  | PATCH_user_role u r i => stored (update_user_role u r i) db
  | GET_tasks i f => stored (get_tasks i f) db
  | POST_tasks d i now => stored (create_task d i now) db
  | PATCH_task t d i => stored (update_task t d i) db
  | BOT_start u => stored (cmd_start u) db
  end.

(** The states reached from the empty tables ([create_all] at start-up) by
    requests that satisfy [allowed]. *)
Inductive reachable_by (allowed : Request -> bool) : DB -> Prop :=
| reachable_start : reachable_by allowed empty_db
| reachable_step (db : DB) (r : Request) :
    reachable_by allowed db -> allowed r = true -> reachable_by allowed (step db r).

Definition reachable : DB -> Prop := reachable_by (fun _ => true).

End Requests.

(** A [PATCH] of a task whose body gives [status] as [null]. *)
Definition gives_null_status (r : Request) : bool :=
  match r with
  | PATCH_task _ d _ =>
      match TaskUpdate.status d with
      | Given None => true
      | _ => false
      end
  | _ => false
  end.

(** A row whose dispute reason, when it has one, goes with the status disputed. *)
Definition reason_implies_disputed (t : Task.t) : Prop :=
  Task.dispute_reason t <> None -> Task.status t = Some DISPUTED.

Definition tasks_inv (db : DB) : Prop :=
  forall t, In t (tasks db) -> reason_implies_disputed t.

(** The requests of a run, one after the other. *)
Definition steps {L : PyLib} {C : Config} (db : DB) (rs : list Request) : DB :=
  fold_left step rs db.

(* ------------------------------------------------------------------ *)
(** * A reference library, to evaluate the handlers on concrete requests

    Signed data is read as [name=value] fields separated by [&], blank values
    dropped and nothing decoded; the MAC is the one-octet digest [00] whatever
    the key and the message; the ['user'] field is [id], [id,first] or
    [id,first,last] with a decimal [id]. *)

Fixpoint split_on (c : N) (s : pystr) : list pystr :=
  match s with
  | [] => [[]]
  | x :: s' =>
      if (x =? c)%N then [] :: split_on c s'
      else match split_on c s' with
           | p :: ps => (x :: p) :: ps
           | [] => [[x]]
           end
  end.

Definition ref_field (s : pystr) : list (pystr * pystr) :=
  match split_on 61 s with
  | name :: v :: vs =>
      match join (str "=") (v :: vs) with
      | [] => []
      | value => [(name, value)]
      end
  | _ => []
  end.

Definition ref_parse_qsl (qs : option pystr) : result (list (pystr * pystr)) :=
  match qs with
  | None => Ok []
  | Some s => Ok (flat_map ref_field (split_on 38 s))
  end.

Fixpoint ref_digits (acc : Z) (s : pystr) : option Z :=
  match s with
  | [] => Some acc
  | c :: s' =>
      if ((48 <=? c) && (c <=? 57))%N
      then ref_digits (10 * acc + Z.of_N (c - 48)) s'
      else None
  end.

Definition ref_json_loads (s : pystr) : result TgUser.t :=
  match split_on 44 s with
  | (d :: ds) :: rest =>
      match ref_digits 0 (d :: ds) with
      | Some n =>
          match rest with
          | [] => Ok (TgUser.mk n None None)
          | [f] => Ok (TgUser.mk n (Some f) None)
          | [f; l] => Ok (TgUser.mk n (Some f) (Some l))
          | _ => Raise JSONDecodeError
          end
      | None => Raise JSONDecodeError
      end
  | _ => Raise JSONDecodeError
  end.

Definition ref_lib : PyLib :=
  {| parse_qsl := ref_parse_qsl;
     hmac_sha256 := fun _ _ => [0%N];
     json_loads := ref_json_loads |}.

(** A configuration whose owner identity is 1. *)
Definition ref_config : Config :=
  {| BOT_TOKEN := str "123:abc";
     OWNER_ID := 1;
     BASE_URL := Some (str "https://tasks.example") |}.

(** Data signed for the identity [user] under the reference library. *)
Definition signed_data (user : string) : pystr :=
  str "user=" ++ str user ++ str "&hash=00".

(** The same, as the header [X-Telegram-Init-Data]. *)
Definition signed (user : string) : option pystr := Some (signed_data user).

(** Rows for the examples: the owner (identity 1), a worker (identity 7),
    an administrator (8) and a second worker (9); one task, created by the
    owner and assigned to the first worker. *)
Definition ex_users : list User.t :=
  [ User.mk 1 1 (str "Olga") OWNER;
    User.mk 2 7 (str "Ann Lee") WORKER;
    User.mk 3 8 (str "Bob") ADMIN;
    User.mk 4 9 (str "Cy") WORKER ].

Definition ex_task_of (assignee : Z) (status : TaskStatus) (reason : option pystr)
  (locked : bool) : Task.t :=
  Task.mk 1 (Some (str "T1")) (Some []) (Some status) reason locked 1 assignee None 0.

Definition ex_task : TaskStatus -> option pystr -> bool -> Task.t := ex_task_of 2.

Definition ex_db (status : TaskStatus) (reason : option pystr) (locked : bool) : DB :=
  mkDB ex_users [ex_task status reason locked].

(** A request body that gives only [status]. *)
Definition only_status (s : TaskStatus) : TaskUpdate.t :=
  TaskUpdate.mk (Given (Some s)) Unset Unset Unset Unset.

(** The owner's row after a demotion (a role column edited by hand). *)
Definition demoted_db : DB := mkDB [User.mk 1 1 (str "Old Name") WORKER] [].

(** The owner absent, and a second user who was given the owner role. *)
Definition promoted_db : DB :=
  mkDB [ User.mk 1 1 (str "Olga") OWNER;
         User.mk 2 7 (str "Ann Lee") OWNER;
         User.mk 3 8 (str "Bob") ADMIN;
         User.mk 4 9 (str "Cy") WORKER ] [].

Definition ownerless_db : DB :=
  mkDB [ User.mk 1 7 (str "Ann Lee") WORKER ] [].

(** Three tasks, two of them assigned to the worker of identity 7. *)
Definition three_tasks_db : DB :=
  mkDB ex_users
    [ Task.mk 1 (Some (str "T1")) (Some []) (Some TODO) None false 1 2 (Some 30) 0;
      Task.mk 2 (Some (str "T2")) (Some []) (Some TODO) None false 1 4 (Some 10) 0;
      Task.mk 3 (Some (str "T3")) (Some []) (Some DONE) None false 3 2 (Some 20) 0 ].

(** The requests that lead from the empty tables to [ex_db TODO None false]. *)
Definition ex_history : list Request :=
  [ POST_auth (signed_data "1,Olga");
    POST_auth (signed_data "7,Ann,Lee");
    BOT_start (FromUser.mk 8 (str "Bob"));
    PATCH_user_role 3 ADMIN (signed "1");
    POST_auth (signed_data "9,Cy");
    POST_tasks (TaskCreate.mk (str "T1") (Some []) 2 None) (signed "1") 0 ].

From Stdlib Require Import Sorted.

(* ------------------------------------------------------------------ *)
(** * The rest of the handlers' behaviour: auxiliary definitions *)

(** The integers SQLite stores and binds: the signed 64-bit range.  A
    parameter outside of it makes the driver raise [OverflowError]. *)
Definition int64 (z : Z) : bool :=
  (- 2 ^ 63 <=? z) && (z <? 2 ^ 63).

(** The value an attribute has after the loop over
    [task_data.dict(exclude_unset=True)]: the given one, or the old one. *)
Definition supplied {A : Type} (f : field A) (old : option A) : option A :=
  match f with
  | Unset => old
  | Given v => v
  end.

(** The changes [update_task] makes to a stored task, one constructor for
    each branch of [apply_rules] that assigns to the row. *)
Inductive task_transition : Task.t -> Task.t -> Prop :=
| tr_raise (t : Task.t) (reason : option pystr) :
    Task.is_locked t = false ->
    task_transition t
      (Task.set_dispute_reason reason (Task.set_status (Some DISPUTED) t))
| tr_resolve (t : Task.t) (new_status : TaskStatus) :
    Task.status t = Some DISPUTED ->
    new_status <> DISPUTED ->
    task_transition t
      (if negb (TaskStatus_eqb new_status DONE)
       then Task.set_is_locked true
              (Task.set_dispute_reason None (Task.set_status (Some new_status) t))
       else Task.set_dispute_reason None (Task.set_status (Some new_status) t))
| tr_worker (t : Task.t) (new_status : TaskStatus) :
    new_status <> DISPUTED ->
    Task.status t <> Some DISPUTED ->
    task_transition t (Task.set_status (Some new_status) t)
| tr_privileged (t : Task.t) (task_data : TaskUpdate.t) :
    attr (TaskUpdate.status task_data) <> Some DISPUTED ->
    (Task.status t = Some DISPUTED -> attr (TaskUpdate.status task_data) = None) ->
    task_transition t
      (fold_left setattr_unless_dispute_reason (dict_exclude_unset task_data) t).

(** The changes a request makes to a stored user: the sign-in of [auth_user]
    and the assignment of [update_user_role]. *)
Inductive user_transition {L : PyLib} {C : Config} : Request -> User.t -> User.t -> Prop :=
| ut_sign_in (initData : pystr) (tg_user : TgUser.t) (u : User.t) :
    validate_telegram_data (Some initData) BOT_TOKEN = Ok tg_user ->
    User.telegram_id u = TgUser.id tg_user ->
    user_transition (POST_auth initData) u
      (User.mk (User.id u) (User.telegram_id u) (full_name_of tg_user)
         (if User.telegram_id u =? OWNER_ID then OWNER else User.role u))
| ut_set_role (user_id : Z) (role_data : UserRole) (init_data : option pystr)
    (tg_user : TgUser.t) (u : User.t) :
    validate_telegram_data init_data BOT_TOKEN = Ok tg_user ->
    TgUser.id tg_user = OWNER_ID ->
    User.id u = user_id ->
    User.telegram_id u <> OWNER_ID ->
    user_transition (PATCH_user_role user_id role_data init_data) u
      (User.set_role role_data u).

(** The history of the examples, followed by a dispute of the assignee and
    the owner's ruling that the task is in progress: the task is locked. *)
Definition ex_history_locked : list Request :=
  ex_history
  ++ [ PATCH_task 1
         (TaskUpdate.mk (Given (Some DISPUTED)) Unset Unset Unset
            (Given (Some (str "blocked"))))
         (signed "7");
       PATCH_task 1 (only_status IN_PROGRESS) (signed "1") ].

(** The comparison of the tuples [(k, v)]: by [k], then by [v]. *)
Definition item_compare (p q : pystr * pystr) : comparison :=
  match pystr_compare (fst p) (fst q) with
  | Eq => pystr_compare (snd p) (snd q)
  | c => c
  end.

(** [a <= b] for a three-way comparison. *)
Definition leb_of {A : Type} (cmp : A -> A -> comparison) (a b : A) : bool :=
  match cmp a b with
  | Gt => false
  | _ => true
  end.

(** The order of [ORDER BY deadline ASC] on the deadlines themselves. *)
Definition deadline_le (a b : option Z) : Prop :=
  match a, b with
  | None, _ => True
  | Some _, None => False
  | Some x, Some y => x <= y
  end.

(** The tasks [get_tasks] selects for a user and a [filter] parameter. *)
Definition listed_for (user : User.t) (filter_param : option pystr) (t : Task.t) : bool :=
  if UserRole_eqb (User.role user) WORKER || opt_pystr_eqb filter_param (str "mine")
  then Task.assignee_id t =? User.id user
  else true.

(* ------------------------------------------------------------------ *)
(** * Announcements *)

(** A row of [announcements]. *)
Module Announcement.
Record t := mk {
    id : Z;
    content : pystr;
    created_at : Z;
    author_name : pystr
  }.
End Announcement.

(** The stored rows with the third table beside the two of [DB]. *)
Record Store := mkStore { store_db : DB; announcements : list Announcement.t }.

(** The text of the broadcast, by the f-string that builds it. *)
Inductive BroadcastText :=
| AnnouncementText (content : pystr).

(** [broadcast_notify]: one [send_notify] task for each value of
    [select(User.telegram_id)].  The query names the indexed column only, and
    SQLite answers it from the unique index on [telegram_id]: the identities
    come in ascending order, not in table order. *)
Definition broadcast_notify (db : DB) (text : BroadcastText) : list (Z * BroadcastText) :=
  map (fun tg_id => (tg_id, text)) (sorted Z.leb (map User.telegram_id (users db))).

(** [ORDER BY created_at DESC] *)
Definition newer_first (a b : Announcement.t) : bool :=
  Announcement.created_at b <=? Announcement.created_at a.

(** [GET /api/announcements]: no signed data is read. *)
Definition get_announcements (st : Store) : list Announcement.t :=
  firstn 20 (sorted newer_first (announcements st)).

Section Announcements.
Context {L : PyLib} {C : Config}.

(** [POST /api/announcements]: the outcome, the rows stored afterwards and
    the notifications handed to the event loop; [now] is the reading of
    [datetime.utcnow] for [created_at]. *)
Definition create_announcement (content : pystr) (init_data : option pystr) (now : Z)
  (st : Store) : result pystr * Store * list (Z * BroadcastText) :=
  match validate_telegram_data init_data BOT_TOKEN with
  | Raise e => (Raise e, st, [])
  | Ok tg_user =>
      match user_by_telegram_id (store_db st) (TgUser.id tg_user) with
      | Raise e => (Raise e, st, [])
      | Ok None => (Raise AttributeError, st, [])
      | Ok (Some user) =>
          if negb (UserRole_eqb (User.role user) ADMIN
                   || UserRole_eqb (User.role user) OWNER)
          then (Raise (HTTPException 403 None), st, [])
          else
            let row :=
              Announcement.mk (next_id (map Announcement.id (announcements st)))
                content now (User.full_name user) in
            (Ok (str "ok"),
             mkStore (store_db st) (announcements st ++ [row]),
             broadcast_notify (store_db st) (AnnouncementText content))
      end
  end.

End Announcements.

(** Two users stored in an order that is not the order of their identities. *)
Definition unordered_db : DB :=
  mkDB [ User.mk 1 7 (str "Ann Lee") ADMIN; User.mk 2 1 (str "Olga") OWNER ] [].
(* ------------------------------------------------------------------ *)
(** * Decidable equalities *)

Lemma pystr_eqb_eq (a b : pystr) : pystr_eqb a b = true <-> a = b.
Proof.
  unfold pystr_eqb. destruct (list_eq_dec N.eq_dec a b); split; congruence.
Qed.

Lemma UserRole_eqb_eq (a b : UserRole) : UserRole_eqb a b = true <-> a = b.
Proof. destruct a, b; simpl; split; congruence. Qed.

Lemma TaskStatus_eqb_eq (a b : TaskStatus) : TaskStatus_eqb a b = true <-> a = b.
Proof. destruct a, b; simpl; split; congruence. Qed.

(* ------------------------------------------------------------------ *)
(** * Look-ups under unique keys *)

Section Keys.
Context {A : Type} (key : A -> Z).

Lemma distinct_NoDup (l : list Z) : distinct l = true <-> NoDup l.
Proof.
  induction l as [|x l IH]; simpl.
  - split; [constructor | reflexivity].
  - rewrite andb_true_iff, negb_true_iff, IH. split.
    + intros [Hx Hl]. constructor; [|exact Hl].
      intro Hin. assert (existsb (Z.eqb x) l = true) as E.
      { apply existsb_exists. exists x. split; [exact Hin | apply Z.eqb_refl]. }
      congruence.
    + intro H. inversion H as [|? ? Hx Hl]; subst. split; [|exact Hl].
      destruct (existsb (Z.eqb x) l) eqn:E; [|reflexivity].
      apply existsb_exists in E. destruct E as [y [Hy Exy]].
      apply Z.eqb_eq in Exy. subst y. contradiction.
Qed.

Lemma filter_key_absent (l : list A) (k : Z) :
  ~ In k (map key l) -> filter (fun x => key x =? k) l = [].
Proof.
  induction l as [|y l IH]; simpl; intro H; [reflexivity|].
  destruct (key y =? k) eqn:E.
  - apply Z.eqb_eq in E. exfalso. apply H. left. exact E.
  - apply IH. intro Hin. apply H. right. exact Hin.
Qed.

(** With distinct keys, a look-up by key finds at most one row. *)
Lemma filter_key_unique (l : list A) (k : Z) :
  distinct (map key l) = true ->
  filter (fun x => key x =? k) l
  = match find (fun x => key x =? k) l with Some x => [x] | None => [] end.
Proof.
  rewrite distinct_NoDup.
  induction l as [|y l IH]; simpl; intro H; [reflexivity|].
  inversion H as [|? ? Hy Hl]; subst.
  destruct (key y =? k) eqn:E.
  - apply Z.eqb_eq in E. subst k. rewrite filter_key_absent by exact Hy. reflexivity.
  - apply IH. exact Hl.
Qed.

Lemma scalar_by_key (l : list A) (k : Z) :
  distinct (map key l) = true ->
  scalar_one_or_none (filter (fun x => key x =? k) l)
  = Ok (find (fun x => key x =? k) l).
Proof.
  intro H. rewrite filter_key_unique by exact H.
  destruct (find _ l); reflexivity.
Qed.

Lemma scalar_some_inv (l : list A) (p : A -> bool) (x : A) :
  scalar_one_or_none (filter p l) = Ok (Some x) -> filter p l = [x].
Proof.
  destruct (filter p l) as [|y [|z r]]; simpl; intro H; try discriminate.
  congruence.
Qed.

Lemma scalar_none_inv (l : list A) (p : A -> bool) :
  scalar_one_or_none (filter p l) = Ok None -> filter p l = [].
Proof.
  destruct (filter p l) as [|y [|z r]]; simpl; intro H; try discriminate.
  reflexivity.
Qed.

Lemma filter_singleton_in (l : list A) (p : A -> bool) (x : A) :
  filter p l = [x] -> In x l /\ p x = true.
Proof.
  intro H. apply filter_In. rewrite H. left. reflexivity.
Qed.

End Keys.

Lemma wf_db_parts (db : DB) :
  wf_db db = true ->
  distinct (map User.id (users db)) = true
  /\ distinct (map User.telegram_id (users db)) = true
  /\ distinct (map Task.id (tasks db)) = true
  /\ forallb title_not_null (tasks db) = true.
Proof.
  unfold wf_db. rewrite !andb_true_iff. tauto.
Qed.

(* ------------------------------------------------------------------ *)
(** * The identity verifier *)

Lemma dict_get_filter_other (d : pydict) (k k' : pystr) :
  pystr_eqb k' k = false ->
  dict_get (filter (fun kv => negb (pystr_eqb (fst kv) k)) d) k' = dict_get d k'.
Proof.
  intro Hne. induction d as [|[a v] d IH]; simpl; [reflexivity|].
  destruct (pystr_eqb a k) eqn:Eak; simpl.
  - destruct (pystr_eqb a k') eqn:Eak'; [|exact IH].
    apply pystr_eqb_eq in Eak. apply pystr_eqb_eq in Eak'. subst.
    assert (pystr_eqb k' k' = true) as R by (apply pystr_eqb_eq; reflexivity).
    congruence.
  - rewrite IH. reflexivity.
Qed.

Section Verifier.
Context {L : PyLib}.

Lemma validate_cases (init_data : option pystr) (bot_token : pystr) :
  validate_telegram_data init_data bot_token
  = match validate_try init_data bot_token with
    | Ok tg_user => Ok tg_user
    | Raise _ => Raise AuthenticationFailure
    end.
Proof. reflexivity. Qed.

(** C8. The verifier either returns the identity claim embedded in the signed
    data (the decoded ['user'] field of the parsed data) or raises the one
    [HTTPException(403, "Auth failed")]: a parse error, a missing ['hash']
    field and a signature that differs from the computed one all give that
    same exception. *)
Theorem validate_telegram_data_two_outcomes (init_data : option pystr) (bot_token : pystr) :
  ((exists tg_user pairs user,
       validate_telegram_data init_data bot_token = Ok tg_user
       /\ parse_qsl init_data = Ok pairs
       /\ dict_get (dict_of_pairs pairs) (str "user") = Some user
       /\ json_loads user = Ok tg_user)
   \/ validate_telegram_data init_data bot_token = Raise AuthenticationFailure)
  /\ (forall e, parse_qsl init_data = Raise e ->
        validate_telegram_data init_data bot_token = Raise AuthenticationFailure)
  /\ (forall pairs, parse_qsl init_data = Ok pairs ->
        dict_get (dict_of_pairs pairs) (str "hash") = None ->
        validate_telegram_data init_data bot_token = Raise AuthenticationFailure)
  /\ (forall pairs hash_val parsed_data token_bytes check_bytes,
        parse_qsl init_data = Ok pairs ->
        dict_pop (dict_of_pairs pairs) (str "hash") = Ok (hash_val, parsed_data) ->
        encode bot_token = Ok token_bytes ->
        encode (check_string parsed_data) = Ok check_bytes ->
        hex (hmac_sha256 (hmac_sha256 (str "WebAppData") token_bytes) check_bytes)
          <> hash_val ->
        validate_telegram_data init_data bot_token = Raise AuthenticationFailure).
Proof.
  rewrite validate_cases. unfold validate_try.
  repeat split.
  - destruct (parse_qsl init_data) as [pairs|e] eqn:Hp; simpl; [|right; reflexivity].
    unfold dict_pop. destruct (dict_get (dict_of_pairs pairs) (str "hash")) as [h|] eqn:Hh;
      simpl; [|right; reflexivity].
    destruct (encode bot_token) as [tb|]; simpl; [|right; reflexivity].
    destruct (encode _) as [cb|]; simpl; [|right; reflexivity].
    destruct (pystr_eqb _ h); simpl; [|right; reflexivity].
    unfold dict_getitem. rewrite dict_get_filter_other by reflexivity.
    destruct (dict_get (dict_of_pairs pairs) (str "user")) as [u|] eqn:Hu;
      simpl; [|right; reflexivity].
    destruct (json_loads u) as [c|] eqn:Hj; [|right; reflexivity].
    left. exists c, pairs, u. repeat split; assumption.
  - intros e He. rewrite He. reflexivity.
  - intros pairs Hp Hh. rewrite Hp. simpl. unfold dict_pop. rewrite Hh. reflexivity.
  - intros pairs hv pd tb cb Hp Hpop Ht Hc Hne. rewrite Hp. simpl. rewrite Hpop. simpl.
    rewrite Ht. simpl. rewrite Hc. simpl.
    destruct (pystr_eqb _ hv) eqn:E; simpl; [|reflexivity].
    apply pystr_eqb_eq in E. contradiction.
Qed.

End Verifier.

(** The verifier on four inputs under the reference library: data that
    verifies, a signature that differs, no signature field, no header. *)
Example validate_telegram_data_examples :
  validate_telegram_data (L := ref_lib) (signed "7,Ann,Lee") (str "123:abc")
  = Ok (TgUser.mk 7 (Some (str "Ann")) (Some (str "Lee")))
  /\ validate_telegram_data (L := ref_lib) (Some (str "user=7,Ann,Lee&hash=0f"))
       (str "123:abc") = Raise AuthenticationFailure
  /\ validate_telegram_data (L := ref_lib) (Some (str "user=7,Ann,Lee"))
       (str "123:abc") = Raise AuthenticationFailure
  /\ validate_telegram_data (L := ref_lib) None (str "123:abc")
     = Raise AuthenticationFailure.
Proof. repeat split. Qed.

(* ------------------------------------------------------------------ *)
(** * Rows, replacement and the commit *)

Lemma replace_task_titles (t : Task.t) (rows : list Task.t) :
  forallb title_not_null rows = true ->
  title_not_null t = true ->
  forallb title_not_null (replace_task t rows) = true.
Proof.
  intros Hall Ht. unfold replace_task. rewrite forallb_forall in *.
  intros x Hx. apply in_map_iff in Hx. destruct Hx as [y [Hy Hin]].
  destruct (Task.id y =? Task.id t); subst x; [exact Ht | apply Hall; exact Hin].
Qed.

Lemma titles_of_row (t : Task.t) (p : Task.t -> bool) (rows : list Task.t) :
  forallb title_not_null rows = true ->
  filter p rows = [t] ->
  title_not_null t = true.
Proof.
  intros Hall Hf. apply filter_singleton_in in Hf. destruct Hf as [Hin _].
  rewrite forallb_forall in Hall. apply Hall. exact Hin.
Qed.

Lemma bind_lift_Ok {A B : Type} (a : A) (k : A -> M B) (s : Session) :
  bind (lift (Ok a)) k s = k a s.
Proof. reflexivity. Qed.

Lemma bind_lift_Raise {A B : Type} (e : PyExn) (k : A -> M B) (s : Session) :
  bind (lift (Raise e)) k s = (Raise e, s).
Proof. reflexivity. Qed.

(** Unfolding a handler run on a fresh session. *)
Ltac unfold_monad :=
  unfold outcome, stored, notified, run, bind, lift, ret, raise,
    select_users, select_tasks, store_task, store_user, commit,
    create_task_send_notify, when_some, add_user, add_task; simpl.

Section UpdateTask.
Context {L : PyLib} {C : Config}.

(** With the requester and the task loaded, [update_task] is its rules,
    then the commit. *)
Lemma update_task_loaded db task_id task_data init_data tg_user user task :
  wf_db db = true ->
  validate_telegram_data init_data BOT_TOKEN = Ok tg_user ->
  user_by_telegram_id db (TgUser.id tg_user) = Ok (Some user) ->
  task_by_id db task_id = Ok (Some task) ->
  run (update_task task_id task_data init_data) db
  = run (apply_rules user task
           (find (fun u => User.id u =? Task.creator_id task) (users db))
           (find (fun u => User.id u =? Task.assignee_id task) (users db))
           task_data ;;
         commit ;; ret (str "updated")) db.
Proof.
  intros Hwf Hv Hu Ht. apply wf_db_parts in Hwf. destruct Hwf as [Hid [_ _]].
  unfold user_by_telegram_id in Hu. unfold task_by_id in Ht.
  unfold run, update_task, bind at 1 2 3 4 5, lift, select_users, select_tasks.
  simpl. rewrite Hv, Hu, Ht.
  unfold bind at 1 2 3 4. simpl.
  rewrite !(scalar_by_key User.id) by exact Hid. reflexivity.
Qed.

Lemma commit_replaced db task task' (p : Task.t -> bool) out :
  wf_db db = true ->
  filter p (tasks db) = [task] ->
  Task.title task' = Task.title task ->
  commit (mkSession db (mkDB (users db) (replace_task task' (tasks db))) out)
  = (Ok tt, mkSession (mkDB (users db) (replace_task task' (tasks db)))
              (mkDB (users db) (replace_task task' (tasks db))) out).
Proof.
  intros Hwf Hf Ht. apply wf_db_parts in Hwf. destruct Hwf as [_ [_ [_ Htitles]]].
  unfold commit. cbn [pending tasks].
  rewrite replace_task_titles; [reflexivity | exact Htitles |].
  unfold title_not_null. rewrite Ht.
  exact (titles_of_row task p (tasks db) Htitles Hf).
Qed.

Lemma filter_replace_task task' k rows :
  filter (fun t => Task.id t =? k) (replace_task task' rows)
  = replace_task task' (filter (fun t => Task.id t =? k) rows).
Proof.
  unfold replace_task. induction rows as [|x rows IH]; simpl; [reflexivity|].
  destruct (Task.id x =? Task.id task') eqn:E.
  - assert ((Task.id task' =? k) = (Task.id x =? k)) as R.
    { apply Z.eqb_eq in E. rewrite E. reflexivity. }
    rewrite R. destruct (Task.id x =? k); simpl; rewrite ?E, IH; reflexivity.
  - destruct (Task.id x =? k); simpl; rewrite ?E, IH; reflexivity.
Qed.

Lemma task_by_id_replaced db task_id task task' :
  task_by_id db task_id = Ok (Some task) ->
  Task.id task' = Task.id task ->
  task_by_id (mkDB (users db) (replace_task task' (tasks db))) task_id = Ok (Some task').
Proof.
  unfold task_by_id. intros Ht Hid. apply scalar_some_inv in Ht.
  cbn [tasks]. rewrite filter_replace_task, Ht. unfold replace_task. simpl.
  rewrite Hid, Z.eqb_refl. reflexivity.
Qed.

Lemma replace_task_self task k rows :
  filter (fun t => Task.id t =? k) rows = [task] ->
  replace_task task rows = rows.
Proof.
  intro Hf. assert (Task.id task = k) as Hk.
  { apply filter_singleton_in in Hf. destruct Hf as [_ E]. apply Z.eqb_eq. exact E. }
  subst k. unfold replace_task.
  rewrite <- (map_id rows) at 2. apply map_ext_in. intros x Hx.
  destruct (Task.id x =? Task.id task) eqn:E; [|reflexivity].
  assert (In x (filter (fun t => Task.id t =? Task.id task) rows)) as Hin.
  { apply filter_In. split; assumption. }
  rewrite Hf in Hin. destruct Hin as [Hin|[]]. exact Hin.
Qed.

(** C1 (as amended). A request that resolves a dispute: the task is disputed,
    the requester holds the owner role, and the requested status is one other
    than disputed.  The request succeeds; the stored task has the requested
    status and no dispute reason; it is locked when the requested status is
    not done, and keeps its lock flag when it is done; nothing else changes. *)
Theorem resolve_dispute_effect db task_id task_data init_data tg_user user task new_status :
  wf_db db = true ->
  validate_telegram_data init_data BOT_TOKEN = Ok tg_user ->
  user_by_telegram_id db (TgUser.id tg_user) = Ok (Some user) ->
  task_by_id db task_id = Ok (Some task) ->
  Task.status task = Some DISPUTED ->
  User.role user = OWNER ->
  attr (TaskUpdate.status task_data) = Some new_status ->
  new_status <> DISPUTED ->
  let task' :=
    Task.mk (Task.id task) (Task.title task) (Task.description task)
      (Some new_status) None
      (if TaskStatus_eqb new_status DONE then Task.is_locked task else true)
      (Task.creator_id task) (Task.assignee_id task) (Task.deadline task)
      (Task.created_at task) in
  outcome (update_task task_id task_data init_data) db = Ok (str "updated")
  /\ stored (update_task task_id task_data init_data) db
     = mkDB (users db) (replace_task task' (tasks db))
  /\ task_by_id (stored (update_task task_id task_data init_data) db) task_id
     = Ok (Some task').
Proof.
  intros Hwf Hv Hu Ht Hst Hrole Hreq Hnd task'.
  assert (run (update_task task_id task_data init_data) db
          = (Ok (str "updated"), mkDB (users db) (replace_task task' (tasks db)),
             match find (fun u => User.id u =? Task.assignee_id task) (users db) with
             | Some a => [(User.telegram_id a, ResolvedText (Task.title task) new_status)]
             | None => []
             end)) as Hrun.
  { rewrite (update_task_loaded _ _ _ _ _ _ _ Hwf Hv Hu Ht).
    unfold apply_rules. rewrite Hreq, Hst, Hrole.
    assert (TaskStatus_eqb new_status DISPUTED = false) as E.
    { destruct new_status; try reflexivity. congruence. }
    cbn [opt_status_eqb]. rewrite E. cbn [TaskStatus_eqb UserRole_eqb negb].
    assert ((if negb (TaskStatus_eqb new_status DONE)
             then Task.set_is_locked true
                    (Task.set_dispute_reason None (Task.set_status (Some new_status) task))
             else Task.set_dispute_reason None (Task.set_status (Some new_status) task))
            = task') as Htask.
    { unfold task'. destruct (TaskStatus_eqb new_status DONE); reflexivity. }
    rewrite Htask.
    unfold run, bind at 1 2 3, store_task. cbn [pending committed outbox].
    unfold task_by_id in Ht. apply scalar_some_inv in Ht.
    destruct (find (fun u => User.id u =? Task.assignee_id task) (users db)) as [a|];
      unfold when_some, create_task_send_notify, ret, bind;
      cbn [pending committed outbox app];
      rewrite (commit_replaced db task task' _ _ Hwf Ht eq_refl); reflexivity. }
  unfold outcome, stored. rewrite Hrun. cbn [fst snd].
  repeat split. exact (task_by_id_replaced db task_id task task' Ht eq_refl).
Qed.

(** C2 (as amended). A request for the status disputed, against a stored
    task and by a requester who has a stored user row: when the requester is
    not the task's assignee it fails with [HTTPException(403)] (Forbidden),
    and when the requester is the assignee and the task is locked it fails
    with [HTTPException(400)] (InvalidState); in both cases what is stored is
    what was stored before. *)
Theorem raise_dispute_rejected db task_id task_data init_data tg_user user task :
  wf_db db = true ->
  validate_telegram_data init_data BOT_TOKEN = Ok tg_user ->
  user_by_telegram_id db (TgUser.id tg_user) = Ok (Some user) ->
  task_by_id db task_id = Ok (Some task) ->
  attr (TaskUpdate.status task_data) = Some DISPUTED ->
  (Task.assignee_id task <> User.id user ->
     outcome (update_task task_id task_data init_data) db = Raise Forbidden
     /\ stored (update_task task_id task_data init_data) db = db)
  /\ (Task.assignee_id task = User.id user ->
      Task.is_locked task = true ->
      outcome (update_task task_id task_data init_data) db = Raise InvalidState
      /\ stored (update_task task_id task_data init_data) db = db).
Proof.
  intros Hwf Hv Hu Ht Hreq.
  unfold outcome, stored.
  rewrite (update_task_loaded _ _ _ _ _ _ _ Hwf Hv Hu Ht).
  unfold apply_rules. rewrite Hreq. cbn [opt_status_eqb TaskStatus_eqb].
  split.
  - intro Hne. apply Z.eqb_neq in Hne. rewrite Hne. split; reflexivity.
  - intros He Hl. apply Z.eqb_eq in He. rewrite He, Hl. split; reflexivity.
Qed.

(** C3. A request by a worker who is the task's assignee, to which neither
    the rule for raising a dispute (the requested status is not disputed) nor
    the rule for resolving one (the task is not disputed, or no status is
    requested) applies: it succeeds whatever other fields the body gives, and
    the stored task differs from the one before in its status at most, which
    is the requested one when a status is requested. *)
Theorem worker_update_changes_status_only
  db task_id task_data init_data tg_user user task :
  wf_db db = true ->
  validate_telegram_data init_data BOT_TOKEN = Ok tg_user ->
  user_by_telegram_id db (TgUser.id tg_user) = Ok (Some user) ->
  task_by_id db task_id = Ok (Some task) ->
  User.role user = WORKER ->
  Task.assignee_id task = User.id user ->
  attr (TaskUpdate.status task_data) <> Some DISPUTED ->
  (Task.status task = Some DISPUTED -> attr (TaskUpdate.status task_data) = None) ->
  let task' :=
    Task.mk (Task.id task) (Task.title task) (Task.description task)
      (match attr (TaskUpdate.status task_data) with
       | Some new_status => Some new_status
       | None => Task.status task
       end)
      (Task.dispute_reason task) (Task.is_locked task)
      (Task.creator_id task) (Task.assignee_id task) (Task.deadline task)
      (Task.created_at task) in
  outcome (update_task task_id task_data init_data) db = Ok (str "updated")
  /\ stored (update_task task_id task_data init_data) db
     = mkDB (users db) (replace_task task' (tasks db))
  /\ task_by_id (stored (update_task task_id task_data init_data) db) task_id
     = Ok (Some task').
Proof.
  intros Hwf Hv Hu Ht Hrole Hmine Hr1 Hr2 task'.
  assert (fst (run (update_task task_id task_data init_data) db)
          = (Ok (str "updated"), mkDB (users db) (replace_task task' (tasks db))))
    as Hrun.
  { rewrite (update_task_loaded _ _ _ _ _ _ _ Hwf Hv Hu Ht).
    pose proof Ht as Hf. unfold task_by_id in Hf. apply scalar_some_inv in Hf.
    unfold apply_rules. rewrite Hrole. apply Z.eqb_eq in Hmine. rewrite Hmine.
    cbn [UserRole_eqb negb].
    destruct (attr (TaskUpdate.status task_data)) as [new_status|] eqn:Hreq.
    - assert (TaskStatus_eqb new_status DISPUTED = false) as E.
      { destruct new_status; try reflexivity. congruence. }
      assert (opt_status_eqb (Task.status task) DISPUTED = false) as E'.
      { destruct (Task.status task) as [[]|]; try reflexivity.
        specialize (Hr2 eq_refl). discriminate. }
      cbn [opt_status_eqb]. rewrite E, E'.
      change (Task.set_status (Some new_status) task) with task'.
      unfold run, bind at 1 2 3, store_task. cbn [pending committed outbox].
      destruct (TaskStatus_eqb new_status DONE);
        [destruct (find (fun u => User.id u =? Task.creator_id task) (users db))|];
        unfold when_some, create_task_send_notify, ret, bind;
        cbn [pending committed outbox app];
        rewrite (commit_replaced db task task' _ _ Hwf Hf eq_refl); reflexivity.
    - cbn [opt_status_eqb].
      assert (task' = task) as Hsame by (destruct task; reflexivity).
      rewrite Hsame, (replace_task_self task task_id (tasks db) Hf).
      apply wf_db_parts in Hwf. destruct Hwf as [_ [_ [_ Htitles]]].
      destruct (opt_status_eqb (Task.status task) DISPUTED);
        unfold run, bind, ret, commit; cbn [pending committed outbox];
        rewrite Htitles; destruct db; reflexivity. }
  unfold outcome, stored. rewrite Hrun. cbn [fst snd].
  repeat split. exact (task_by_id_replaced db task_id task task' Ht eq_refl).
Qed.

End UpdateTask.

Lemma resolve_dispute_effect_witness :
  outcome (update_task (L := ref_lib) (C := ref_config) 1 (only_status IN_PROGRESS)
             (signed "1"))
    (ex_db DISPUTED (Some (str "blocked")) false) = Ok (str "updated")
  /\ stored (update_task (L := ref_lib) (C := ref_config) 1 (only_status IN_PROGRESS)
               (signed "1"))
       (ex_db DISPUTED (Some (str "blocked")) false)
     = ex_db IN_PROGRESS None true
  /\ task_by_id
       (stored (update_task (L := ref_lib) (C := ref_config) 1
                  (only_status IN_PROGRESS) (signed "1"))
          (ex_db DISPUTED (Some (str "blocked")) false)) 1
     = Ok (Some (ex_task IN_PROGRESS None true)).
Proof.
  refine (resolve_dispute_effect (L := ref_lib) (C := ref_config)
            (ex_db DISPUTED (Some (str "blocked")) false) 1
            (only_status IN_PROGRESS) (signed "1")
            (TgUser.mk 1 None None) (User.mk 1 1 (str "Olga") OWNER)
            (ex_task DISPUTED (Some (str "blocked")) false) IN_PROGRESS
            eq_refl eq_refl eq_refl eq_refl eq_refl eq_refl eq_refl _).
  discriminate.
Defined.

(** C1 as stated fails when the requested status is disputed: the rule for
    raising a dispute comes first.  An owner who is not the assignee is
    refused and the reason stays; an owner who is the assignee succeeds, the
    reason becomes the one supplied and the task is not locked. *)
Lemma resolve_dispute_counterexample :
  user_by_telegram_id (ex_db DISPUTED (Some (str "blocked")) false) 1
  = Ok (Some (User.mk 1 1 (str "Olga") OWNER))
  /\ outcome (update_task (L := ref_lib) (C := ref_config) 1 (only_status DISPUTED)
                (signed "1"))
       (ex_db DISPUTED (Some (str "blocked")) false) = Raise Forbidden
  /\ stored (update_task (L := ref_lib) (C := ref_config) 1 (only_status DISPUTED)
               (signed "1"))
       (ex_db DISPUTED (Some (str "blocked")) false)
     = ex_db DISPUTED (Some (str "blocked")) false
  /\ outcome (update_task (L := ref_lib) (C := ref_config) 1
                (TaskUpdate.mk (Given (Some DISPUTED)) Unset Unset Unset
                   (Given (Some (str "again"))))
                (signed "1"))
       (mkDB ex_users [ex_task_of 1 DISPUTED (Some (str "blocked")) false])
     = Ok (str "updated")
  /\ stored (update_task (L := ref_lib) (C := ref_config) 1
               (TaskUpdate.mk (Given (Some DISPUTED)) Unset Unset Unset
                  (Given (Some (str "again"))))
               (signed "1"))
       (mkDB ex_users [ex_task_of 1 DISPUTED (Some (str "blocked")) false])
     = mkDB ex_users [ex_task_of 1 DISPUTED (Some (str "again")) false].
Proof. repeat split. Qed.

Lemma raise_dispute_rejected_witness :
  (outcome (update_task (L := ref_lib) (C := ref_config) 1 (only_status DISPUTED)
              (signed "9")) (ex_db TODO None false) = Raise Forbidden
   /\ stored (update_task (L := ref_lib) (C := ref_config) 1 (only_status DISPUTED)
                (signed "9")) (ex_db TODO None false) = ex_db TODO None false)
  /\ (outcome (update_task (L := ref_lib) (C := ref_config) 1 (only_status DISPUTED)
                 (signed "7")) (ex_db TODO None true) = Raise InvalidState
      /\ stored (update_task (L := ref_lib) (C := ref_config) 1 (only_status DISPUTED)
                   (signed "7")) (ex_db TODO None true) = ex_db TODO None true).
Proof.
  split.
  - refine (proj1 (raise_dispute_rejected (L := ref_lib) (C := ref_config)
                     (ex_db TODO None false) 1 (only_status DISPUTED) (signed "9")
                     (TgUser.mk 9 None None) (User.mk 4 9 (str "Cy") WORKER)
                     (ex_task TODO None false)
                     eq_refl eq_refl eq_refl eq_refl eq_refl) _).
    discriminate.
  - exact (proj2 (raise_dispute_rejected (L := ref_lib) (C := ref_config)
                    (ex_db TODO None true) 1 (only_status DISPUTED) (signed "7")
                    (TgUser.mk 7 None None) (User.mk 2 7 (str "Ann Lee") WORKER)
                    (ex_task TODO None true)
                    eq_refl eq_refl eq_refl eq_refl eq_refl) eq_refl eq_refl).
Defined.

(** C2 as stated fails for verified data whose identity has no user row:
    the requester is not the task's assignee, and the request ends in
    [AttributeError] at [user.role], not in [HTTPException(403)]. *)
Lemma raise_dispute_counterexample :
  user_by_telegram_id (ex_db TODO None false) 5 = Ok None
  /\ task_by_id (ex_db TODO None false) 1 = Ok (Some (ex_task TODO None false))
  /\ outcome (update_task (L := ref_lib) (C := ref_config) 1 (only_status DISPUTED)
                (signed "5")) (ex_db TODO None false) = Raise AttributeError
  /\ outcome (update_task (L := ref_lib) (C := ref_config) 1 (only_status DISPUTED)
                (signed "5")) (ex_db TODO None false) <> Raise Forbidden.
Proof. repeat split. discriminate. Qed.

Lemma worker_update_changes_status_only_witness :
  outcome (update_task (L := ref_lib) (C := ref_config) 1
             (TaskUpdate.mk (Given (Some DONE)) (Given (Some (str "mine now")))
                (Given None) (Given (Some 5)) (Given (Some (str "because"))))
             (signed "7"))
    (ex_db IN_PROGRESS None false) = Ok (str "updated")
  /\ stored (update_task (L := ref_lib) (C := ref_config) 1
               (TaskUpdate.mk (Given (Some DONE)) (Given (Some (str "mine now")))
                  (Given None) (Given (Some 5)) (Given (Some (str "because"))))
               (signed "7"))
       (ex_db IN_PROGRESS None false)
     = ex_db DONE None false
  /\ task_by_id
       (stored (update_task (L := ref_lib) (C := ref_config) 1
                  (TaskUpdate.mk (Given (Some DONE)) (Given (Some (str "mine now")))
                     (Given None) (Given (Some 5)) (Given (Some (str "because"))))
                  (signed "7"))
          (ex_db IN_PROGRESS None false)) 1
     = Ok (Some (ex_task DONE None false)).
Proof.
  refine (worker_update_changes_status_only (L := ref_lib) (C := ref_config)
            (ex_db IN_PROGRESS None false) 1
            (TaskUpdate.mk (Given (Some DONE)) (Given (Some (str "mine now")))
               (Given None) (Given (Some 5)) (Given (Some (str "because"))))
            (signed "7")
            (TgUser.mk 7 None None) (User.mk 2 7 (str "Ann Lee") WORKER)
            (ex_task IN_PROGRESS None false)
            eq_refl eq_refl eq_refl eq_refl eq_refl eq_refl _ _);
    discriminate.
Defined.

(* ------------------------------------------------------------------ *)
(** * The role directory *)

Lemma key_inj_in {A : Type} (key : A -> Z) (l : list A) (x y : A) :
  distinct (map key l) = true -> In x l -> In y l -> key x = key y -> x = y.
Proof.
  rewrite distinct_NoDup.
  induction l as [|z l IH]; simpl; intros Hnd Hx Hy Hk; [contradiction|].
  inversion Hnd as [|? ? Hz Hl]; subst.
  destruct Hx as [Hx|Hx], Hy as [Hy|Hy]; subst.
  - reflexivity.
  - exfalso. apply Hz. rewrite Hk. apply in_map. exact Hy.
  - exfalso. apply Hz. rewrite <- Hk. apply in_map. exact Hx.
  - apply IH; assumption.
Qed.

(** Replacing a loaded row by one with the same two keys commutes with a
    look-up by [telegram_id]. *)
Lemma filter_replace_user (u u' : User.t) (k : Z) (rows : list User.t) :
  distinct (map User.id rows) = true ->
  In u rows ->
  User.id u' = User.id u ->
  User.telegram_id u' = User.telegram_id u ->
  filter (fun x => User.telegram_id x =? k) (replace_user u' rows)
  = replace_user u' (filter (fun x => User.telegram_id x =? k) rows).
Proof.
  intros Hd Hu Hid Htg. unfold replace_user.
  assert (forall x, In x rows -> User.id x = User.id u' -> x = u) as Hsame.
  { intros x Hx Hk. apply (key_inj_in User.id rows); congruence. }
  revert Hsame. clear Hd Hu. induction rows as [|x rows IH]; simpl; intro Hsame;
    [reflexivity|].
  assert (forall y, In y rows -> User.id y = User.id u' -> y = u) as Hrest.
  { intros y Hy. apply Hsame. right. exact Hy. }
  destruct (User.id x =? User.id u') eqn:E.
  - assert (x = u) as Hx. { apply Hsame; [left; reflexivity | apply Z.eqb_eq; exact E]. }
    rewrite Htg. subst x.
    destruct (User.telegram_id u =? k); simpl; rewrite ?E, (IH Hrest); reflexivity.
  - destruct (User.telegram_id x =? k); simpl; rewrite ?E, (IH Hrest); reflexivity.
Qed.

Section RoleDirectory.
Context {L : PyLib} {C : Config}.

(** The run of [auth_user] on a verified identity whose row is absent. *)
Lemma auth_user_new db initData tg_user :
  wf_db db = true ->
  validate_telegram_data (Some initData) BOT_TOKEN = Ok tg_user ->
  find (fun u => User.telegram_id u =? TgUser.id tg_user) (users db) = None ->
  let user :=
    User.mk (next_id (map User.id (users db))) (TgUser.id tg_user)
      (full_name_of tg_user)
      (if TgUser.id tg_user =? OWNER_ID then OWNER else WORKER) in
  run (auth_user initData) db = (Ok user, mkDB (users db ++ [user]) (tasks db), []).
Proof.
  intros Hwf Hv Hfind user. apply wf_db_parts in Hwf.
  destruct Hwf as [_ [Htg [_ Htitles]]].
  unfold run, auth_user, bind at 1 2 3, lift, select_users. simpl.
  rewrite Hv. rewrite (scalar_by_key User.telegram_id) by exact Htg. rewrite Hfind.
  unfold bind, add_user, commit, ret. simpl. rewrite Htitles. reflexivity.
Qed.

(** The run of [auth_user] on a verified identity whose row is present. *)
Lemma auth_user_returning db initData tg_user user0 :
  wf_db db = true ->
  validate_telegram_data (Some initData) BOT_TOKEN = Ok tg_user ->
  find (fun u => User.telegram_id u =? TgUser.id tg_user) (users db) = Some user0 ->
  let user :=
    User.mk (User.id user0) (User.telegram_id user0) (full_name_of tg_user)
      (if TgUser.id tg_user =? OWNER_ID then OWNER else User.role user0) in
  run (auth_user initData) db
  = (Ok user, mkDB (replace_user user (users db)) (tasks db), []).
Proof.
  intros Hwf Hv Hfind user. apply wf_db_parts in Hwf.
  destruct Hwf as [_ [Htg [_ Htitles]]].
  unfold run, auth_user, bind at 1 2 3, lift, select_users. simpl.
  rewrite Hv. rewrite (scalar_by_key User.telegram_id) by exact Htg. rewrite Hfind.
  assert ((if TgUser.id tg_user =? OWNER_ID
           then User.set_role OWNER (User.set_full_name (full_name_of tg_user) user0)
           else User.set_full_name (full_name_of tg_user) user0) = user) as Hu.
  { unfold user. destruct (TgUser.id tg_user =? OWNER_ID); reflexivity. }
  rewrite Hu.
  unfold bind, store_user, commit, ret. simpl. rewrite Htitles. reflexivity.
Qed.

(** C4. [auth_user] on verified data whose identity is the configured owner:
    the row it returns, which is the stored row of that identity afterwards,
    has the role owner and the display name computed from the claim, whether
    or not a row existed and whatever role it had. *)
Theorem auth_user_forces_owner db initData tg_user :
  wf_db db = true ->
  validate_telegram_data (Some initData) BOT_TOKEN = Ok tg_user ->
  TgUser.id tg_user = OWNER_ID ->
  exists user,
    outcome (auth_user initData) db = Ok user
    /\ User.telegram_id user = OWNER_ID
    /\ User.role user = OWNER
    /\ User.full_name user = full_name_of tg_user
    /\ user_by_telegram_id (stored (auth_user initData) db) OWNER_ID = Ok (Some user).
Proof.
  intros Hwf Hv Hown.
  pose proof (wf_db_parts db Hwf) as [Hid [Htg _]].
  destruct (find (fun u => User.telegram_id u =? TgUser.id tg_user) (users db))
    as [user0|] eqn:Hfind.
  - pose proof (auth_user_returning db initData tg_user user0 Hwf Hv Hfind) as Hrun.
    cbv zeta in Hrun. unfold outcome, stored. rewrite Hrun. cbn [fst snd].
    apply find_some in Hfind. destruct Hfind as [Hin Hk]. apply Z.eqb_eq in Hk.
    rewrite Hown in *. rewrite Z.eqb_refl.
    eexists. split; [reflexivity|]. cbn [User.telegram_id User.role User.full_name].
    repeat split; [exact Hk|].
    unfold user_by_telegram_id. cbn [users].
    rewrite (filter_replace_user user0) by (try assumption; reflexivity).
    rewrite filter_key_unique by exact Htg.
    assert (find (fun x => User.telegram_id x =? OWNER_ID) (users db) = Some user0) as F.
    { destruct (find (fun x => User.telegram_id x =? OWNER_ID) (users db)) as [y|] eqn:Fy.
      - apply find_some in Fy. destruct Fy as [Hy Ey]. apply Z.eqb_eq in Ey.
        f_equal. apply (key_inj_in User.telegram_id (users db)); congruence.
      - exfalso. apply (find_none _ _ Fy) in Hin. rewrite Hk, Z.eqb_refl in Hin.
        discriminate. }
    rewrite F. unfold replace_user. simpl. rewrite Z.eqb_refl. reflexivity.
  - pose proof (auth_user_new db initData tg_user Hwf Hv Hfind) as Hrun.
    cbv zeta in Hrun. unfold outcome, stored. rewrite Hrun. cbn [fst snd].
    rewrite Hown in *. rewrite Z.eqb_refl.
    eexists. split; [reflexivity|]. cbn [User.telegram_id User.role User.full_name].
    repeat split.
    unfold user_by_telegram_id. cbn [users]. rewrite filter_app.
    rewrite filter_key_unique by exact Htg. rewrite Hfind. simpl.
    rewrite Z.eqb_refl. reflexivity.
Qed.

(** The run of [cmd_start] for an identity whose row is absent. *)
Lemma cmd_start_new db from_user :
  wf_db db = true ->
  find (fun u => User.telegram_id u =? FromUser.id from_user) (users db) = None ->
  stored (cmd_start from_user) db
  = mkDB (users db
          ++ [User.mk (next_id (map User.id (users db))) (FromUser.id from_user)
                (FromUser.full_name from_user)
                (if FromUser.id from_user =? OWNER_ID then OWNER else WORKER)])
         (tasks db).
Proof.
  intros Hwf Hfind. apply wf_db_parts in Hwf. destruct Hwf as [_ [Htg [_ Htitles]]].
  unfold stored, run, cmd_start, bind at 1 2 3, lift, select_users. simpl.
  rewrite (scalar_by_key User.telegram_id) by exact Htg. rewrite Hfind.
  unfold bind, add_user, commit, ret. simpl. rewrite Htitles. reflexivity.
Qed.

(** C9 (as amended). The start command creates the row of an identity that
    has none, by the rule [auth_user] creates it with: the role is owner for
    the configured owner identity and worker otherwise, and when the display
    name the bot library gives is the one [auth_user] computes from the claim,
    the two leave the same rows stored.  For an identity that has a row the
    start command stores nothing: the name and the role stay as they were. *)
Theorem cmd_start_resolves_new_identities_only db from_user :
  wf_db db = true ->
  (user_by_telegram_id db (FromUser.id from_user) = Ok None ->
     stored (cmd_start from_user) db
     = mkDB (users db
             ++ [User.mk (next_id (map User.id (users db))) (FromUser.id from_user)
                   (FromUser.full_name from_user)
                   (if FromUser.id from_user =? OWNER_ID then OWNER else WORKER)])
            (tasks db)
     /\ forall initData tg_user,
          validate_telegram_data (Some initData) BOT_TOKEN = Ok tg_user ->
          TgUser.id tg_user = FromUser.id from_user ->
          full_name_of tg_user = FromUser.full_name from_user ->
          stored (auth_user initData) db = stored (cmd_start from_user) db)
  /\ (forall user,
        user_by_telegram_id db (FromUser.id from_user) = Ok (Some user) ->
        stored (cmd_start from_user) db = db).
Proof.
  intro Hwf. pose proof (wf_db_parts db Hwf) as [_ [Htg _]].
  unfold user_by_telegram_id.
  rewrite (scalar_by_key User.telegram_id) by exact Htg.
  split.
  - intro Hnone. assert (find (fun u => User.telegram_id u =? FromUser.id from_user)
                           (users db) = None) as Hfind by congruence.
    split; [exact (cmd_start_new db from_user Hwf Hfind)|].
    intros initData tg_user Hv Hid Hname.
    rewrite (cmd_start_new db from_user Hwf Hfind).
    rewrite <- Hid in Hfind.
    pose proof (auth_user_new db initData tg_user Hwf Hv Hfind) as Hrun.
    cbv zeta in Hrun. unfold stored. rewrite Hrun. cbn [fst snd].
    rewrite Hid, Hname. reflexivity.
  - intros user Hsome.
    unfold stored, run, cmd_start, bind at 1 2 3, lift, select_users. simpl.
    rewrite (scalar_by_key User.telegram_id) by exact Htg.
    destruct (find _ (users db)); [reflexivity | discriminate].
Qed.

End RoleDirectory.

Lemma auth_user_forces_owner_witness :
  exists user,
    outcome (auth_user (L := ref_lib) (C := ref_config) (signed_data "1,Olga,Ray"))
      demoted_db = Ok user
    /\ User.telegram_id user = 1
    /\ User.role user = OWNER
    /\ User.full_name user = str "Olga Ray"
    /\ user_by_telegram_id
         (stored (auth_user (L := ref_lib) (C := ref_config) (signed_data "1,Olga,Ray"))
            demoted_db) 1 = Ok (Some user).
Proof.
  exact (auth_user_forces_owner (L := ref_lib) (C := ref_config) demoted_db
           (signed_data "1,Olga,Ray")
           (TgUser.mk 1 (Some (str "Olga")) (Some (str "Ray")))
           eq_refl eq_refl eq_refl).
Defined.

Lemma cmd_start_resolves_new_identities_only_witness :
  (stored (cmd_start (C := ref_config) (FromUser.mk 5 (str "Eve Fox")))
     (ex_db TODO None false)
   = mkDB (ex_users ++ [User.mk 5 5 (str "Eve Fox") WORKER]) [ex_task TODO None false]
   /\ stored (auth_user (L := ref_lib) (C := ref_config) (signed_data "5,Eve,Fox"))
        (ex_db TODO None false)
      = stored (cmd_start (C := ref_config) (FromUser.mk 5 (str "Eve Fox")))
          (ex_db TODO None false))
  /\ stored (cmd_start (C := ref_config) (FromUser.mk 7 (str "Anna Lee")))
       (ex_db TODO None false)
     = ex_db TODO None false.
Proof.
  split.
  - pose proof (proj1 (cmd_start_resolves_new_identities_only
                         (L := ref_lib) (C := ref_config)
                         (ex_db TODO None false) (FromUser.mk 5 (str "Eve Fox")) eq_refl)
                  eq_refl) as [Hnew Hsame].
    split; [exact Hnew|].
    exact (Hsame (signed_data "5,Eve,Fox")
             (TgUser.mk 5 (Some (str "Eve")) (Some (str "Fox")))
             eq_refl eq_refl eq_refl).
  - exact (proj2 (cmd_start_resolves_new_identities_only
                    (L := ref_lib) (C := ref_config)
                    (ex_db TODO None false) (FromUser.mk 7 (str "Anna Lee")) eq_refl)
             (User.mk 2 7 (str "Ann Lee") WORKER) eq_refl).
Defined.

(** C9 as stated fails for an identity that has a row: [auth_user] refreshes
    the name and forces the owner's role, the start command stores nothing. *)
Lemma cmd_start_counterexample :
  stored (auth_user (L := ref_lib) (C := ref_config) (signed_data "7,Anna,Lee"))
    (ex_db TODO None false)
  = mkDB [ User.mk 1 1 (str "Olga") OWNER;
           User.mk 2 7 (str "Anna Lee") WORKER;
           User.mk 3 8 (str "Bob") ADMIN;
           User.mk 4 9 (str "Cy") WORKER ] [ex_task TODO None false]
  /\ stored (cmd_start (C := ref_config) (FromUser.mk 7 (str "Anna Lee")))
       (ex_db TODO None false)
     = ex_db TODO None false
  /\ stored (auth_user (L := ref_lib) (C := ref_config) (signed_data "1,Olga,Ray"))
       demoted_db
     = mkDB [User.mk 1 1 (str "Olga Ray") OWNER] []
  /\ stored (cmd_start (C := ref_config) (FromUser.mk 1 (str "Olga Ray")))
       demoted_db
     = demoted_db
  /\ stored (auth_user (L := ref_lib) (C := ref_config) (signed_data "7,Anna,Lee"))
       (ex_db TODO None false)
     <> stored (cmd_start (C := ref_config)
                  (FromUser.mk 7 (str "Anna Lee")))
          (ex_db TODO None false).
Proof. repeat split. discriminate. Qed.

Section RoleChange.
Context {L : PyLib} {C : Config}.

(** C6 (as amended). The gate of [update_user_role] is the identity of the
    verified data: a request whose identity is not the configured owner
    identity fails with [HTTPException(403, "Only Owner")] and stores nothing,
    whatever role the acting user's row has; a request whose identity is the
    configured owner identity never fails with a 403, and on a target that
    exists and is not the owner's row it succeeds and stores the new role. *)
Theorem update_user_role_gate db user_id role_data init_data tg_user :
  validate_telegram_data init_data BOT_TOKEN = Ok tg_user ->
  (TgUser.id tg_user <> OWNER_ID ->
     outcome (update_user_role user_id role_data init_data) db = Raise OnlyOwner
     /\ stored (update_user_role user_id role_data init_data) db = db)
  /\ (TgUser.id tg_user = OWNER_ID ->
      (forall detail,
         outcome (update_user_role user_id role_data init_data) db
         <> Raise (HTTPException 403 detail))
      /\ (forall target,
            wf_db db = true ->
            user_by_id db user_id = Ok (Some target) ->
            User.telegram_id target <> OWNER_ID ->
            outcome (update_user_role user_id role_data init_data) db = Ok (str "ok")
            /\ stored (update_user_role user_id role_data init_data) db
               = mkDB (replace_user (User.set_role role_data target) (users db))
                      (tasks db))).
Proof.
  intro Hv.
  assert (run (update_user_role user_id role_data init_data) db
          = run (if negb (TgUser.id tg_user =? OWNER_ID)
                 then raise OnlyOwner
                 else
                   rows <- select_users (fun u => User.id u =? user_id) ;;
                   user <- lift (scalar_one_or_none rows) ;;
                   match user with
                   | None => raise (HTTPException 400 None)
                   | Some user =>
                       if User.telegram_id user =? OWNER_ID
                       then raise (HTTPException 400 None)
                       else
                         store_user (User.set_role role_data user) ;;
                         commit ;;
                         ret (str "ok")
                   end) db) as Hrun.
  { unfold run, update_user_role. rewrite Hv, bind_lift_Ok. reflexivity. }
  unfold outcome, stored. rewrite Hrun. clear Hrun. split.
  - intro Hne. apply Z.eqb_neq in Hne. rewrite Hne. split; reflexivity.
  - intro He. apply Z.eqb_eq in He. rewrite He. cbn [negb]. split.
    + intro detail. unfold run, bind, select_users, lift. simpl.
      destruct (scalar_one_or_none _) as [[target|]|e] eqn:Hs; simpl.
      * destruct (User.telegram_id target =? OWNER_ID); unfold raise; simpl;
          [discriminate|].
        unfold store_user, commit, ret. simpl.
        destruct (forallb title_not_null (tasks db)); simpl; discriminate.
      * discriminate.
      * destruct (filter _ (users db)) as [|a [|b r]]; simpl in Hs;
          try discriminate.
        injection Hs as <-. discriminate.
    + intros target Hwf Ht Hnot. unfold user_by_id in Ht.
      apply wf_db_parts in Hwf. destruct Hwf as [_ [_ [_ Htitles]]].
      unfold run, bind, select_users, lift. simpl. rewrite Ht.
      apply Z.eqb_neq in Hnot. rewrite Hnot.
      unfold store_user, commit, ret. simpl. rewrite Htitles. split; reflexivity.
Qed.

End RoleChange.

Lemma update_user_role_gate_witness :
  (outcome (update_user_role (L := ref_lib) (C := ref_config) 4 ADMIN (signed "8"))
     (ex_db TODO None false) = Raise OnlyOwner
   /\ stored (update_user_role (L := ref_lib) (C := ref_config) 4 ADMIN (signed "8"))
        (ex_db TODO None false) = ex_db TODO None false)
  /\ (outcome (update_user_role (L := ref_lib) (C := ref_config) 4 ADMIN (signed "1"))
        (ex_db TODO None false) = Ok (str "ok")
      /\ stored (update_user_role (L := ref_lib) (C := ref_config) 4 ADMIN (signed "1"))
           (ex_db TODO None false)
         = mkDB [ User.mk 1 1 (str "Olga") OWNER;
                  User.mk 2 7 (str "Ann Lee") WORKER;
                  User.mk 3 8 (str "Bob") ADMIN;
                  User.mk 4 9 (str "Cy") ADMIN ] [ex_task TODO None false]).
Proof.
  split.
  - refine (proj1 (update_user_role_gate (L := ref_lib) (C := ref_config)
                     (ex_db TODO None false) 4 ADMIN (signed "8")
                     (TgUser.mk 8 None None) eq_refl) _).
    discriminate.
  - refine (proj2 (proj2 (update_user_role_gate (L := ref_lib) (C := ref_config)
                            (ex_db TODO None false) 4 ADMIN (signed "1")
                            (TgUser.mk 1 None None) eq_refl) eq_refl)
              (User.mk 4 9 (str "Cy") WORKER) eq_refl eq_refl _).
    discriminate.
Defined.

(** C6 as stated fails in both directions.  A user who was given the owner
    role (here by the owner, in the request that leads to [promoted_db]) is
    refused; and the configured owner identity is let through with no row,
    hence no role, of its own. *)
Lemma update_user_role_counterexample :
  stored (update_user_role (L := ref_lib) (C := ref_config) 2 OWNER (signed "1"))
    (mkDB ex_users []) = promoted_db
  /\ user_by_telegram_id promoted_db 7 = Ok (Some (User.mk 2 7 (str "Ann Lee") OWNER))
  /\ outcome (update_user_role (L := ref_lib) (C := ref_config) 4 ADMIN (signed "7"))
       promoted_db = Raise OnlyOwner
  /\ user_by_telegram_id ownerless_db 1 = Ok None
  /\ outcome (update_user_role (L := ref_lib) (C := ref_config) 1 ADMIN (signed "1"))
       ownerless_db = Ok (str "ok").
Proof. repeat split. Qed.

(* ------------------------------------------------------------------ *)
(** * The task listing *)

Lemma insert_sorted_perm {A : Type} (leb : A -> A -> bool) (x : A) (l : list A) :
  Permutation (insert_sorted leb x l) (x :: l).
Proof.
  induction l as [|y l IH]; simpl; [apply Permutation_refl|].
  destruct (leb x y); [apply Permutation_refl|].
  apply Permutation_trans with (y :: x :: l); [|apply perm_swap].
  apply perm_skip. exact IH.
Qed.

Lemma sorted_perm {A : Type} (leb : A -> A -> bool) (l : list A) :
  Permutation (sorted leb l) l.
Proof.
  induction l as [|x l IH]; simpl; [apply perm_nil|].
  apply Permutation_trans with (x :: sorted leb l);
    [apply insert_sorted_perm | apply perm_skip; exact IH].
Qed.

(** With distinct user keys, the loop of [get_tasks] raises nothing and
    leaves the session as it was. *)
Lemma task_entries_run (user : User.t) (ts : list Task.t) (s : Session) :
  distinct (map User.id (users (pending s))) = true ->
  task_entries user ts s = (Ok (map (entry_of (users (pending s)) user) ts), s).
Proof.
  intro Hd. induction ts as [|t ts IH]; [reflexivity|].
  cbn [task_entries map]. unfold bind at 1. unfold task_entry.
  unfold bind at 1 2, select_users, lift, ret.
  rewrite (scalar_by_key User.id) by exact Hd.
  unfold bind. rewrite IH. reflexivity.
Qed.

Section Listing.
Context {L : PyLib} {C : Config}.

(** C7. The listing for a worker: whatever the [filter] parameter, the
    request succeeds with one entry for each task assigned to that user and
    none for any other task, and every entry has [is_mine] true. *)
Theorem get_tasks_worker_sees_own db init_data filter_param tg_user user :
  wf_db db = true ->
  validate_telegram_data init_data BOT_TOKEN = Ok tg_user ->
  user_by_telegram_id db (TgUser.id tg_user) = Ok (Some user) ->
  User.role user = WORKER ->
  exists entries,
    outcome (get_tasks init_data filter_param) db = Ok entries
    /\ entries
       = map (entry_of (users db) user)
           (sorted deadline_leb
              (filter (fun t => Task.assignee_id t =? User.id user) (tasks db)))
    /\ Permutation (map TaskView.id entries)
         (map Task.id
            (filter (fun t => Task.assignee_id t =? User.id user) (tasks db)))
    /\ (forall t, In t (tasks db) ->
          (Task.assignee_id t = User.id user
           <-> In (Task.id t) (map TaskView.id entries)))
    /\ Forall (fun e => TaskView.is_mine e = true) entries.
Proof.
  intros Hwf Hv Hu Hrole. pose proof (wf_db_parts db Hwf) as [Hid [_ [Htid _]]].
  unfold user_by_telegram_id in Hu.
  set (mine := filter (fun t => Task.assignee_id t =? User.id user) (tasks db)).
  exists (map (entry_of (users db) user) (sorted deadline_leb mine)).
  assert (Permutation
            (map TaskView.id (map (entry_of (users db) user) (sorted deadline_leb mine)))
            (map Task.id mine)) as Hperm.
  { rewrite map_map. cbn [entry_of TaskView.id].
    apply Permutation_map. apply sorted_perm. }
  split; [|split; [reflexivity | split; [exact Hperm | split]]].
  - unfold outcome, run, get_tasks. rewrite Hv, bind_lift_Ok.
    unfold bind at 1 2, select_users, lift. cbn [pending]. rewrite Hu, Hrole.
    cbn [UserRole_eqb orb]. unfold bind, select_tasks. cbn [pending].
    rewrite task_entries_run by exact Hid. reflexivity.
  - intros t Hin. split.
    + intro Hmine. apply (Permutation_in _ (Permutation_sym Hperm)).
      apply in_map. apply filter_In. split; [exact Hin | apply Z.eqb_eq; exact Hmine].
    + intro Hi. apply (Permutation_in _ Hperm) in Hi.
      apply in_map_iff in Hi. destruct Hi as [t' [Hk Hin']].
      apply filter_In in Hin'. destruct Hin' as [Hin' Hmine].
      assert (t' = t) as ->.
      { apply (key_inj_in Task.id (tasks db)); assumption. }
      apply Z.eqb_eq. exact Hmine.
  - apply Forall_forall. intros e He. apply in_map_iff in He.
    destruct He as [t [<- Hin]].
    apply (Permutation_in _ (sorted_perm deadline_leb mine)) in Hin.
    apply filter_In in Hin. destruct Hin as [_ Hmine]. exact Hmine.
Qed.

(** C10. The listing for verified data whose identity has no row: the
    look-up gives [None], the read of [user.role] raises [AttributeError],
    which is none of the handlers' [HTTPException]s; with the row present
    (and the keys of the schema distinct) the listing returns. *)
Theorem get_tasks_needs_stored_user db init_data filter_param tg_user :
  validate_telegram_data init_data BOT_TOKEN = Ok tg_user ->
  (user_by_telegram_id db (TgUser.id tg_user) = Ok None ->
     outcome (get_tasks init_data filter_param) db = Raise AttributeError
     /\ (forall code detail,
           outcome (get_tasks init_data filter_param) db
           <> Raise (HTTPException code detail))
     /\ stored (get_tasks init_data filter_param) db = db)
  /\ (forall user,
        wf_db db = true ->
        user_by_telegram_id db (TgUser.id tg_user) = Ok (Some user) ->
        exists entries, outcome (get_tasks init_data filter_param) db = Ok entries).
Proof.
  intro Hv. unfold user_by_telegram_id. split.
  - intro Hu.
    assert (run (get_tasks init_data filter_param) db = (Raise AttributeError, db, []))
      as Hrun.
    { unfold run, get_tasks. rewrite Hv, bind_lift_Ok.
      unfold bind, select_users, lift. cbn [pending]. rewrite Hu. reflexivity. }
    unfold outcome, stored. rewrite Hrun. cbn [fst snd].
    repeat split. intros code detail. discriminate.
  - intros user Hwf Hu. pose proof (wf_db_parts db Hwf) as [Hid _].
    unfold outcome, run, get_tasks. rewrite Hv, bind_lift_Ok.
    unfold bind at 1 2, select_users, lift. cbn [pending]. rewrite Hu.
    destruct (UserRole_eqb (User.role user) WORKER
              || opt_pystr_eqb filter_param (str "mine"));
      unfold bind, select_tasks; cbn [pending];
      rewrite task_entries_run by exact Hid; eexists; reflexivity.
Qed.

(** The same absent row in [update_task]: the task is looked up first, so a
    request for a task that does not exist fails with [HTTPException(404)],
    and one for a stored task raises [AttributeError] at [user.role]. *)
Remark update_task_needs_stored_user db task_id task_data init_data tg_user :
  wf_db db = true ->
  validate_telegram_data init_data BOT_TOKEN = Ok tg_user ->
  user_by_telegram_id db (TgUser.id tg_user) = Ok None ->
  (task_by_id db task_id = Ok None ->
     outcome (update_task task_id task_data init_data) db = Raise NotFound)
  /\ (forall task,
        task_by_id db task_id = Ok (Some task) ->
        outcome (update_task task_id task_data init_data) db = Raise AttributeError).
Proof.
  intros Hwf Hv Hu. pose proof (wf_db_parts db Hwf) as [Hid _].
  unfold user_by_telegram_id in Hu. unfold task_by_id.
  split; [intro Ht | intros task Ht];
    unfold outcome, run, update_task; rewrite Hv, bind_lift_Ok;
    unfold bind at 1 2 3 4, select_users, select_tasks, lift; cbn [pending];
    rewrite Hu, Ht; [reflexivity|].
  unfold bind, select_users, lift. cbn [pending].
  rewrite !(scalar_by_key User.id) by exact Hid. reflexivity.
Qed.

End Listing.

Lemma get_tasks_worker_sees_own_witness :
  exists entries,
    outcome (get_tasks (L := ref_lib) (C := ref_config) (signed "7") None)
      three_tasks_db = Ok entries
    /\ entries
       = map (entry_of ex_users (User.mk 2 7 (str "Ann Lee") WORKER))
           (sorted deadline_leb
              (filter (fun t => Task.assignee_id t =? 2) (tasks three_tasks_db)))
    /\ Permutation (map TaskView.id entries)
         (map Task.id (filter (fun t => Task.assignee_id t =? 2) (tasks three_tasks_db)))
    /\ (forall t, In t (tasks three_tasks_db) ->
          (Task.assignee_id t = 2 <-> In (Task.id t) (map TaskView.id entries)))
    /\ Forall (fun e => TaskView.is_mine e = true) entries.
Proof.
  exact (get_tasks_worker_sees_own (L := ref_lib) (C := ref_config) three_tasks_db
           (signed "7") None (TgUser.mk 7 None None)
           (User.mk 2 7 (str "Ann Lee") WORKER) eq_refl eq_refl eq_refl eq_refl).
Defined.

Lemma get_tasks_needs_stored_user_witness :
  (outcome (get_tasks (L := ref_lib) (C := ref_config) (signed "5") None)
     three_tasks_db = Raise AttributeError
   /\ (forall code detail,
         outcome (get_tasks (L := ref_lib) (C := ref_config) (signed "5") None)
           three_tasks_db <> Raise (HTTPException code detail))
   /\ stored (get_tasks (L := ref_lib) (C := ref_config) (signed "5") None)
        three_tasks_db = three_tasks_db)
  /\ exists entries,
       outcome (get_tasks (L := ref_lib) (C := ref_config) (signed "8") None)
         three_tasks_db = Ok entries.
Proof.
  split.
  - exact (proj1 (get_tasks_needs_stored_user (L := ref_lib) (C := ref_config)
                    three_tasks_db (signed "5") None (TgUser.mk 5 None None) eq_refl)
             eq_refl).
  - exact (proj2 (get_tasks_needs_stored_user (L := ref_lib) (C := ref_config)
                    three_tasks_db (signed "8") None (TgUser.mk 8 None None) eq_refl)
             (User.mk 3 8 (str "Bob") ADMIN) eq_refl eq_refl).
Defined.

(** The listing of the example, evaluated: the worker's two tasks, by deadline. *)
Example get_tasks_worker_example :
  outcome (get_tasks (L := ref_lib) (C := ref_config) (signed "7") None) three_tasks_db
  = Ok [ TaskView.mk 3 (Some (str "T3")) (Some []) (Some DONE) (Some 20)
           (str "Ann Lee") true false None;
         TaskView.mk 1 (Some (str "T1")) (Some []) (Some TODO) (Some 30)
           (str "Ann Lee") true false None ].
Proof. reflexivity. Qed.

(* ------------------------------------------------------------------ *)
(** * Stored states: the dispute reason *)

Lemma fold_items_dispute_reason (items : list TaskItem) (t : Task.t) :
  Task.dispute_reason (fold_left setattr_unless_dispute_reason items t)
  = Task.dispute_reason t.
Proof.
  revert t. induction items as [|kv items IH]; intro t; simpl; [reflexivity|].
  rewrite IH. destruct kv; reflexivity.
Qed.

Lemma fold_items_status (d : TaskUpdate.t) (t : Task.t) :
  Task.status (fold_left setattr_unless_dispute_reason (dict_exclude_unset d) t)
  = match TaskUpdate.status d with
    | Unset => Task.status t
    | Given v => v
    end.
Proof.
  destruct d as [[|s] [|ti] [|de] [|dl] [|dr]]; reflexivity.
Qed.

Lemma replace_task_inv (t' : Task.t) (rows : list Task.t) :
  (forall t, In t rows -> reason_implies_disputed t) ->
  reason_implies_disputed t' ->
  forall t, In t (replace_task t' rows) -> reason_implies_disputed t.
Proof.
  intros Hall Ht' t Hin. unfold replace_task in Hin. apply in_map_iff in Hin.
  destruct Hin as [x [Hx Hin]].
  destruct (Task.id x =? Task.id t'); subst t; [exact Ht' | apply Hall; exact Hin].
Qed.

(** What the rules of [update_task] do to the session: nothing is committed,
    the users stay, and the tasks stay or one row is replaced. *)
Lemma apply_rules_effect user task creator assignee task_data s :
  reason_implies_disputed task ->
  TaskUpdate.status task_data <> Given None ->
  committed (snd (apply_rules user task creator assignee task_data s)) = committed s
  /\ (tasks (pending (snd (apply_rules user task creator assignee task_data s)))
      = tasks (pending s)
      \/ exists task',
           reason_implies_disputed task'
           /\ tasks (pending (snd (apply_rules user task creator assignee task_data s)))
              = replace_task task' (tasks (pending s))).
Proof.
  intros Hgood Hnn. unfold apply_rules.
  destruct (opt_status_eqb (attr (TaskUpdate.status task_data)) DISPUTED) eqn:Hr1.
  - destruct (negb (Task.assignee_id task =? User.id user)); [split; [|left]; reflexivity|].
    destruct (Task.is_locked task); [split; [|left]; reflexivity|].
    split; [destruct creator; reflexivity|]. right. eexists. split.
    2:{ destruct creator; reflexivity. }
    intros _. reflexivity.
  - destruct (opt_status_eqb (Task.status task) DISPUTED) eqn:Hcur;
      destruct (attr (TaskUpdate.status task_data)) as [new_status|] eqn:Hreq.
    + destruct (negb (UserRole_eqb (User.role user) OWNER));
        [split; [|left]; reflexivity|].
      split; [destruct assignee; reflexivity|]. right. eexists. split.
      2:{ destruct assignee; reflexivity. }
      intro Hreason. exfalso. apply Hreason.
      destruct (negb (TaskStatus_eqb new_status DONE)); reflexivity.
    + destruct (UserRole_eqb (User.role user) WORKER).
      * destruct (negb (Task.assignee_id task =? User.id user));
          split; try reflexivity; left; reflexivity.
      * split; [reflexivity|]. right. eexists. split; [|reflexivity].
        unfold reason_implies_disputed.
        rewrite fold_items_dispute_reason, fold_items_status.
        destruct (TaskUpdate.status task_data) as [|[v|]]; try discriminate;
          [exact Hgood | congruence].
    + assert (Task.dispute_reason task = None) as Hnone.
      { destruct (Task.dispute_reason task) eqn:E; [|reflexivity].
        rewrite Hgood in Hcur by congruence. discriminate. }
      destruct (UserRole_eqb (User.role user) WORKER).
      * destruct (negb (Task.assignee_id task =? User.id user));
          [split; [|left]; reflexivity|].
        split; [destruct (TaskStatus_eqb new_status DONE); [destruct creator|];
                reflexivity|].
        right. eexists. split.
        2:{ destruct (TaskStatus_eqb new_status DONE); [destruct creator|];
            reflexivity. }
        intro Hreason. exfalso. apply Hreason. exact Hnone.
      * split; [reflexivity|]. right. eexists. split; [|reflexivity].
        intro Hreason. exfalso. apply Hreason.
        rewrite fold_items_dispute_reason. exact Hnone.
    + destruct (UserRole_eqb (User.role user) WORKER).
      * destruct (negb (Task.assignee_id task =? User.id user));
          split; try reflexivity; left; reflexivity.
      * split; [reflexivity|]. right. eexists. split; [|reflexivity].
        unfold reason_implies_disputed.
        rewrite fold_items_dispute_reason, fold_items_status.
        destruct (TaskUpdate.status task_data) as [|[v|]]; try discriminate;
          [exact Hgood | congruence].
Qed.

Lemma task_entries_session (user : User.t) (ts : list Task.t) (s : Session) :
  snd (task_entries user ts s) = s.
Proof.
  induction ts as [|t ts IH]; [reflexivity|].
  cbn [task_entries]. unfold bind at 1. unfold task_entry.
  unfold bind at 1 2, select_users, lift, ret.
  destruct (scalar_one_or_none _) as [a|e]; [|reflexivity].
  unfold bind. specialize IH. destruct (task_entries user ts s) as [[es|e] s'];
    simpl in IH; subst s'; reflexivity.
Qed.

(** Destructs the tests and look-ups a handler run branches on. *)
Ltac branch :=
  repeat match goal with
         | |- context [match ?x with _ => _ end] =>
             match type of x with
             | result _ => destruct x as [?|?] eqn:?
             | option _ => destruct x as [?|] eqn:?
             | bool => destruct x eqn:?
             end; cbn [fst snd committed pending outbox users tasks]
         end.

Section StoredTasks.
Context {L : PyLib} {C : Config}.

Lemma auth_user_tasks db initData :
  tasks (stored (auth_user initData) db) = tasks db.
Proof.
  unfold stored, run, auth_user.
  destruct (validate_telegram_data (Some initData) BOT_TOKEN) as [tg_user|e];
    [rewrite bind_lift_Ok | reflexivity].
  unfold bind, select_users, lift, add_user, store_user, commit, ret.
  cbn [fst snd committed pending outbox users tasks].
  branch; reflexivity.
Qed.

Lemma update_user_role_tasks db user_id role_data init_data :
  tasks (stored (update_user_role user_id role_data init_data) db) = tasks db.
Proof.
  unfold stored, run, update_user_role.
  destruct (validate_telegram_data init_data BOT_TOKEN) as [tg_user|e];
    [rewrite bind_lift_Ok | reflexivity].
  unfold bind, select_users, lift, store_user, commit, ret, raise.
  cbn [fst snd committed pending outbox users tasks].
  branch; reflexivity.
Qed.

Lemma cmd_start_tasks db from_user :
  tasks (stored (cmd_start from_user) db) = tasks db.
Proof.
  unfold stored, run, cmd_start.
  unfold bind, select_users, lift, add_user, commit, ret.
  cbn [fst snd committed pending outbox users tasks].
  branch; reflexivity.
Qed.

Lemma get_tasks_stored db init_data filter_param :
  stored (get_tasks init_data filter_param) db = db.
Proof.
  unfold stored, run, get_tasks.
  destruct (validate_telegram_data init_data BOT_TOKEN) as [tg_user|e];
    [rewrite bind_lift_Ok | reflexivity].
  unfold bind at 1 2, select_users, lift.
  destruct (scalar_one_or_none _) as [[user|]|e]; try reflexivity.
  destruct (UserRole_eqb (User.role user) WORKER
            || opt_pystr_eqb filter_param (str "mine"));
    unfold bind, select_tasks;
    match goal with
    | |- context [task_entries ?u ?ts ?s] =>
        pose proof (task_entries_session u ts s) as Hs;
        destruct (task_entries u ts s) as [r s']; simpl in Hs; subst s'
    end; reflexivity.
Qed.

Lemma create_task_stored_cases db task_data init_data now (P : DB -> Prop) :
  P db ->
  (forall t, Task.dispute_reason t = None -> P (mkDB (users db) (tasks db ++ [t]))) ->
  P (stored (create_task task_data init_data now) db).
Proof.
  intros Hsame Hnew. unfold stored, run, create_task.
  destruct (validate_telegram_data init_data BOT_TOKEN) as [tg_user|e];
    [rewrite bind_lift_Ok | exact Hsame].
  unfold bind at 1 2, select_users, lift. cbn [pending].
  destruct (scalar_one_or_none (filter _ (users db))) as [[creator|]|e];
    try exact Hsame.
  destruct (negb _); [exact Hsame|].
  unfold bind at 1 2, add_task, commit.
  cbn [fst snd committed pending outbox users tasks].
  destruct (forallb title_not_null _); [|exact Hsame].
  unfold bind, select_users, lift, create_task_send_notify, ret.
  cbn [fst snd committed pending outbox users tasks].
  branch; apply Hnew; reflexivity.
Qed.

Lemma update_task_inv db task_id task_data init_data :
  tasks_inv db ->
  TaskUpdate.status task_data <> Given None ->
  tasks_inv (stored (update_task task_id task_data init_data) db).
Proof.
  intros Hinv Hnn. unfold stored, run, update_task.
  destruct (validate_telegram_data init_data BOT_TOKEN) as [tg_user|e];
    [rewrite bind_lift_Ok | exact Hinv].
  unfold bind at 1 2 3 4, select_users, select_tasks, lift.
  cbn [pending].
  destruct (scalar_one_or_none (filter _ (users db))) as [user|e]; [|exact Hinv].
  destruct (scalar_one_or_none (filter _ (tasks db))) as [[task|]|e] eqn:Ht;
    try exact Hinv.
  unfold bind at 1 2 3 4, select_users, lift. cbn [pending].
  destruct (scalar_one_or_none
              (filter (fun u => User.id u =? Task.creator_id task) (users db)))
    as [creator|e]; [|exact Hinv].
  destruct (scalar_one_or_none
              (filter (fun u => User.id u =? Task.assignee_id task) (users db)))
    as [assignee|e]; [|exact Hinv].
  destruct user as [user|]; [|exact Hinv].
  assert (reason_implies_disputed task) as Hgood.
  { apply scalar_some_inv in Ht. apply filter_singleton_in in Ht.
    apply Hinv. exact (proj1 Ht). }
  pose proof (apply_rules_effect user task creator assignee task_data
                (mkSession db db []) Hgood Hnn) as [Hc Hp].
  unfold bind at 1.
  destruct (apply_rules user task creator assignee task_data (mkSession db db []))
    as [[u|e] s']; cbn [snd committed pending] in Hc, Hp;
    [|cbn [fst snd]; rewrite Hc; exact Hinv].
  unfold bind, commit, ret.
  destruct (forallb title_not_null (tasks (pending s')));
    cbn [fst snd committed]; [|rewrite Hc; exact Hinv].
  intros t Hin. destruct Hp as [Hp|[task' [Hgood' Hp]]]; rewrite Hp in Hin.
  - apply Hinv. exact Hin.
  - exact (replace_task_inv task' (tasks db) Hinv Hgood' t Hin).
Qed.

(** C5 (as amended). In every stored state reached from the empty tables by
    requests none of which gives [status] as [null], a task that has a
    dispute reason has the status disputed. *)
Theorem dispute_reason_implies_disputed db :
  reachable_by (fun r => negb (gives_null_status r)) db ->
  forall t, In t (tasks db) ->
    Task.dispute_reason t <> None -> Task.status t = Some DISPUTED.
Proof.
  intro Hreach. change (tasks_inv db).
  induction Hreach as [|db r Hreach IH Hallowed]; [intros t []|].
  destruct r as [i|u ro i|i f|d i now|tid d i|fu]; cbn [step].
  - unfold tasks_inv. rewrite auth_user_tasks. exact IH.
  - unfold tasks_inv. rewrite update_user_role_tasks. exact IH.
  - rewrite get_tasks_stored. exact IH.
  - apply create_task_stored_cases; [exact IH|].
    intros t0 Hnone t Hin. cbn [tasks] in Hin.
    apply in_app_or in Hin. destruct Hin as [Hin|[<-|[]]].
    + apply IH. exact Hin.
    + intro Hreason. congruence.
  - apply update_task_inv; [exact IH|].
    cbn [gives_null_status] in Hallowed.
    destruct (TaskUpdate.status d) as [|[v|]]; discriminate.
  - unfold tasks_inv. rewrite cmd_start_tasks. exact IH.
Qed.

End StoredTasks.

Lemma reachable_by_steps {L : PyLib} {C : Config} (allowed : Request -> bool)
  (rs : list Request) (db : DB) :
  reachable_by allowed db ->
  forallb allowed rs = true ->
  reachable_by allowed (steps db rs).
Proof.
  revert db. induction rs as [|r rs IH]; intros db Hdb Hall; [exact Hdb|].
  simpl in Hall. apply andb_true_iff in Hall. destruct Hall as [Hr Hrs].
  unfold steps. simpl. apply IH; [|exact Hrs].
  apply reachable_step; assumption.
Qed.

Lemma dispute_reason_implies_disputed_witness :
  Task.status (ex_task DISPUTED (Some (str "blocked")) false) = Some DISPUTED.
Proof.
  apply (dispute_reason_implies_disputed (L := ref_lib) (C := ref_config)
           (ex_db DISPUTED (Some (str "blocked")) false)).
  - change (ex_db DISPUTED (Some (str "blocked")) false)
      with (steps (L := ref_lib) (C := ref_config) empty_db
              (ex_history
               ++ [PATCH_task 1
                     (TaskUpdate.mk (Given (Some DISPUTED)) Unset Unset Unset
                        (Given (Some (str "blocked"))))
                     (signed "7")])).
    apply reachable_by_steps; [apply reachable_start | reflexivity].
  - left. reflexivity.
  - discriminate.
Defined.

(** C5 as stated fails: a dispute raised with no reason in the body leaves a
    stored task that is disputed and has no dispute reason. *)
Lemma dispute_without_reason_counterexample :
  reachable_by (L := ref_lib) (C := ref_config)
    (fun r => negb (gives_null_status r)) (ex_db DISPUTED None false)
  /\ tasks (ex_db DISPUTED None false) = [ex_task DISPUTED None false]
  /\ Task.status (ex_task DISPUTED None false) = Some DISPUTED
  /\ Task.dispute_reason (ex_task DISPUTED None false) = None.
Proof.
  split; [|repeat split].
  change (ex_db DISPUTED None false)
    with (steps (L := ref_lib) (C := ref_config) empty_db
            (ex_history ++ [PATCH_task 1 (only_status DISPUTED) (signed "7")])).
  apply reachable_by_steps; [apply reachable_start | reflexivity].
Qed.

(** Why the requests of C5 (as amended) give no [null] status: an
    administrator's body [{"status": null}] is none of the first two rules,
    so the status column of a disputed task is emptied and its reason stays;
    a later body with a status is then an ordinary update. *)
Example null_status_keeps_reason :
  steps (L := ref_lib) (C := ref_config) (ex_db DISPUTED (Some (str "blocked")) false)
    [ PATCH_task 1 (TaskUpdate.mk (Given None) Unset Unset Unset Unset) (signed "8");
      PATCH_task 1 (only_status TODO) (signed "8") ]
  = ex_db TODO (Some (str "blocked")) false.
Proof. reflexivity. Qed.

(* ------------------------------------------------------------------ *)
(** * Stored states: the constraints of the schema *)

Lemma fold_max_upper (l : list Z) (x : Z) : In x l -> x <= fold_right Z.max 0 l.
Proof.
  induction l as [|y l IH]; simpl; [contradiction|].
  intros [->|Hin]; [lia|]. specialize (IH Hin). lia.
Qed.

Lemma next_id_fresh (l : list Z) : ~ In (next_id l) l.
Proof.
  intro Hin. apply fold_max_upper in Hin. unfold next_id in Hin. lia.
Qed.

Lemma distinct_snoc (l : list Z) (n : Z) :
  distinct l = true -> ~ In n l -> distinct (l ++ [n]) = true.
Proof.
  rewrite !distinct_NoDup. intros Hl Hn.
  induction l as [|x l IH]; simpl.
  - constructor; [intros []|constructor].
  - inversion Hl as [|? ? Hx Hl']; subst. constructor.
    + intro Hin. apply in_app_or in Hin. destruct Hin as [Hin|[->|[]]];
        [contradiction|]. apply Hn. left. reflexivity.
    + apply IH; [exact Hl'|]. intro Hin. apply Hn. right. exact Hin.
Qed.

Lemma find_none_key {A : Type} (key : A -> Z) (l : list A) (k : Z) :
  find (fun x => key x =? k) l = None -> ~ In k (map key l).
Proof.
  intros Hfind Hin. apply in_map_iff in Hin. destruct Hin as [x [Hk Hx]].
  apply (find_none _ _ Hfind) in Hx. simpl in Hx. rewrite Hk, Z.eqb_refl in Hx.
  discriminate.
Qed.

Lemma map_id_replace_user (u' : User.t) (rows : list User.t) :
  map User.id (replace_user u' rows) = map User.id rows.
Proof.
  unfold replace_user. rewrite map_map. apply map_ext. intro x.
  destruct (User.id x =? User.id u') eqn:E; [|reflexivity].
  apply Z.eqb_eq in E. symmetry. exact E.
Qed.

Lemma map_id_replace_task (t' : Task.t) (rows : list Task.t) :
  map Task.id (replace_task t' rows) = map Task.id rows.
Proof.
  unfold replace_task. rewrite map_map. apply map_ext. intro x.
  destruct (Task.id x =? Task.id t') eqn:E; [|reflexivity].
  apply Z.eqb_eq in E. symmetry. exact E.
Qed.

(** Replacing the row found under a key by one with the same identity
    leaves the column of identities as it was. *)
Lemma map_telegram_id_replace_user (u u' : User.t) (rows : list User.t) :
  distinct (map User.id rows) = true ->
  In u rows ->
  User.id u' = User.id u ->
  User.telegram_id u' = User.telegram_id u ->
  map User.telegram_id (replace_user u' rows) = map User.telegram_id rows.
Proof.
  intros Hd Hu Hid Htg. unfold replace_user. rewrite map_map.
  apply map_ext_in. intros x Hx.
  destruct (User.id x =? User.id u') eqn:E; [|reflexivity].
  apply Z.eqb_eq in E.
  assert (x = u) as -> by (apply (key_inj_in User.id rows); congruence).
  exact Htg.
Qed.

Lemma wf_db_intro (db : DB) :
  distinct (map User.id (users db)) = true ->
  distinct (map User.telegram_id (users db)) = true ->
  distinct (map Task.id (tasks db)) = true ->
  forallb title_not_null (tasks db) = true ->
  wf_db db = true.
Proof.
  intros H1 H2 H3 H4. unfold wf_db. rewrite H1, H2, H3, H4. reflexivity.
Qed.

Lemma wf_add_user db tg_id name r :
  wf_db db = true ->
  find (fun u => User.telegram_id u =? tg_id) (users db) = None ->
  wf_db (mkDB (users db ++ [User.mk (next_id (map User.id (users db))) tg_id name r])
           (tasks db)) = true.
Proof.
  intros Hwf Hfind. apply wf_db_parts in Hwf. destruct Hwf as [H1 [H2 [H3 H4]]].
  apply wf_db_intro; cbn [users tasks]; try assumption.
  - rewrite map_app. apply distinct_snoc; [exact H1 | apply next_id_fresh].
  - rewrite map_app. apply distinct_snoc; [exact H2|].
    exact (find_none_key User.telegram_id (users db) tg_id Hfind).
Qed.

Lemma wf_replace_user db (u u' : User.t) :
  wf_db db = true ->
  In u (users db) ->
  User.id u' = User.id u ->
  User.telegram_id u' = User.telegram_id u ->
  wf_db (mkDB (replace_user u' (users db)) (tasks db)) = true.
Proof.
  intros Hwf Hu Hid Htg. apply wf_db_parts in Hwf. destruct Hwf as [H1 [H2 [H3 H4]]].
  apply wf_db_intro; cbn [users tasks]; try assumption.
  - rewrite map_id_replace_user. exact H1.
  - rewrite (map_telegram_id_replace_user u) by assumption. exact H2.
Qed.

(** The rules of [update_task] leave the users as they are and replace at
    most one row of the tasks, by a row with its primary key. *)
Lemma apply_rules_shape user task creator assignee task_data s :
  committed (snd (apply_rules user task creator assignee task_data s)) = committed s
  /\ users (pending (snd (apply_rules user task creator assignee task_data s)))
     = users (pending s)
  /\ (tasks (pending (snd (apply_rules user task creator assignee task_data s)))
      = tasks (pending s)
      \/ exists task',
           tasks (pending (snd (apply_rules user task creator assignee task_data s)))
           = replace_task task' (tasks (pending s))).
Proof.
  unfold apply_rules, bind, raise, ret, store_task, when_some, create_task_send_notify.
  branch; cbn [fst snd committed pending outbox users tasks];
    (split; [reflexivity | split; [reflexivity|]]);
    first [left; reflexivity | right; eexists; reflexivity].
Qed.

Section StoredConstraints.
Context {L : PyLib} {C : Config}.

Lemma auth_user_wf db initData :
  wf_db db = true -> wf_db (stored (auth_user initData) db) = true.
Proof.
  intro Hwf.
  destruct (validate_telegram_data (Some initData) BOT_TOKEN) as [tg_user|e] eqn:Hv.
  - destruct (find (fun u => User.telegram_id u =? TgUser.id tg_user) (users db))
      as [user0|] eqn:Hfind.
    + pose proof (auth_user_returning db initData tg_user user0 Hwf Hv Hfind) as Hrun.
      cbv zeta in Hrun. unfold stored. rewrite Hrun. cbn [fst snd].
      apply find_some in Hfind.
      apply (wf_replace_user db user0); try reflexivity; [exact Hwf | exact (proj1 Hfind)].
    + pose proof (auth_user_new db initData tg_user Hwf Hv Hfind) as Hrun.
      cbv zeta in Hrun. unfold stored. rewrite Hrun. cbn [fst snd].
      apply wf_add_user; assumption.
  - unfold stored, run, auth_user. rewrite Hv. exact Hwf.
Qed.

Lemma cmd_start_wf db from_user :
  wf_db db = true -> wf_db (stored (cmd_start from_user) db) = true.
Proof.
  intro Hwf. pose proof (wf_db_parts db Hwf) as [_ [Htg _]].
  destruct (find (fun u => User.telegram_id u =? FromUser.id from_user) (users db))
    as [user0|] eqn:Hfind.
  - replace (stored (cmd_start from_user) db) with db; [exact Hwf|].
    unfold stored, run, cmd_start, bind at 1 2 3, lift, select_users. simpl.
    rewrite (scalar_by_key User.telegram_id) by exact Htg. rewrite Hfind. reflexivity.
  - rewrite (cmd_start_new db from_user Hwf Hfind). apply wf_add_user; assumption.
Qed.

Lemma update_user_role_wf db user_id role_data init_data :
  wf_db db = true ->
  wf_db (stored (update_user_role user_id role_data init_data) db) = true.
Proof.
  intro Hwf. pose proof (wf_db_parts db Hwf) as [Hid [_ [_ Htitles]]].
  unfold stored, run, update_user_role.
  destruct (validate_telegram_data init_data BOT_TOKEN) as [tg_user|e];
    [rewrite bind_lift_Ok | exact Hwf].
  destruct (negb (TgUser.id tg_user =? OWNER_ID)); [exact Hwf|].
  unfold bind at 1 2, select_users, lift. cbn [pending].
  rewrite (scalar_by_key User.id) by exact Hid.
  destruct (find (fun u => User.id u =? user_id) (users db)) as [target|] eqn:Hfind;
    [|exact Hwf].
  destruct (User.telegram_id target =? OWNER_ID); [exact Hwf|].
  unfold bind, store_user, commit, ret.
  cbn [fst snd committed pending outbox users tasks]. rewrite Htitles.
  cbn [fst snd committed].
  apply find_some in Hfind.
  apply (wf_replace_user db target); try reflexivity; [exact Hwf | exact (proj1 Hfind)].
Qed.

Lemma create_task_wf db task_data init_data now :
  wf_db db = true -> wf_db (stored (create_task task_data init_data now) db) = true.
Proof.
  intro Hwf. pose proof (wf_db_parts db Hwf) as [H1 [H2 [H3 H4]]].
  unfold stored, run, create_task.
  destruct (validate_telegram_data init_data BOT_TOKEN) as [tg_user|e];
    [rewrite bind_lift_Ok | exact Hwf].
  unfold bind at 1 2, select_users, lift. cbn [pending].
  destruct (scalar_one_or_none (filter _ (users db))) as [[creator|]|e];
    try exact Hwf.
  destruct (negb _); [exact Hwf|].
  unfold bind at 1 2, add_task, commit.
  cbn [fst snd committed pending outbox users tasks].
  destruct (forallb title_not_null (tasks db ++ _)) eqn:Htitles; [|exact Hwf].
  assert (wf_db (mkDB (users db)
                   (tasks db
                    ++ [Task.mk (next_id (map Task.id (tasks db)))
                          (Some (TaskCreate.title task_data))
                          (TaskCreate.description task_data) (Some TODO) None false
                          (User.id creator) (TaskCreate.assignee_id task_data)
                          (TaskCreate.deadline task_data) now])) = true) as Hnew.
  { apply wf_db_intro; cbn [users tasks]; try assumption.
    rewrite map_app. apply distinct_snoc; [exact H3 | apply next_id_fresh]. }
  unfold bind, select_users, lift, create_task_send_notify, ret.
  cbn [fst snd committed pending outbox users tasks].
  branch; exact Hnew.
Qed.

Lemma update_task_wf db task_id task_data init_data :
  wf_db db = true -> wf_db (stored (update_task task_id task_data init_data) db) = true.
Proof.
  intro Hwf. pose proof (wf_db_parts db Hwf) as [H1 [H2 [H3 H4]]].
  unfold stored, run, update_task.
  destruct (validate_telegram_data init_data BOT_TOKEN) as [tg_user|e];
    [rewrite bind_lift_Ok | exact Hwf].
  unfold bind at 1 2 3 4, select_users, select_tasks, lift.
  cbn [pending].
  destruct (scalar_one_or_none (filter _ (users db))) as [user|e]; [|exact Hwf].
  destruct (scalar_one_or_none (filter _ (tasks db))) as [[task|]|e];
    try exact Hwf.
  unfold bind at 1 2 3 4, select_users, lift. cbn [pending].
  destruct (scalar_one_or_none
              (filter (fun u => User.id u =? Task.creator_id task) (users db)))
    as [creator|e]; [|exact Hwf].
  destruct (scalar_one_or_none
              (filter (fun u => User.id u =? Task.assignee_id task) (users db)))
    as [assignee|e]; [|exact Hwf].
  destruct user as [user|]; [|exact Hwf].
  pose proof (apply_rules_shape user task creator assignee task_data
                (mkSession db db [])) as [Hc [Hu Hp]].
  unfold bind at 1.
  destruct (apply_rules user task creator assignee task_data (mkSession db db []))
    as [[u|e] s']; cbn [snd committed pending] in Hc, Hu, Hp;
    [|cbn [fst snd]; rewrite Hc; exact Hwf].
  unfold bind, commit, ret.
  destruct (forallb title_not_null (tasks (pending s'))) eqn:Htitles;
    cbn [fst snd committed]; [|rewrite Hc; exact Hwf].
  apply wf_db_intro; try exact Htitles; rewrite ?Hu; try assumption.
  destruct Hp as [Hp|[task' Hp]]; rewrite Hp; [exact H3|].
  rewrite map_id_replace_task. exact H3.
Qed.

(** X30. Every stored state reached from the empty tables satisfies the
    constraints of the schema, which the theorems above assume: the keys of
    the users and of the tasks are distinct, no two users share an external
    identity, and every task has a title. *)
Theorem reachable_wf_db (allowed : Request -> bool) db :
  reachable_by allowed db -> wf_db db = true.
Proof.
  intro Hreach. induction Hreach as [|db r Hreach IH _]; [reflexivity|].
  destruct r; cbn [step].
  - apply auth_user_wf. exact IH.
  - apply update_user_role_wf. exact IH.
  - rewrite get_tasks_stored. exact IH.
  - apply create_task_wf. exact IH.
  - apply update_task_wf. exact IH.
  - apply cmd_start_wf. exact IH.
Qed.

End StoredConstraints.

(* ------------------------------------------------------------------ *)
(** * The other rules of [update_task] *)

Lemma fold_items_task (d : TaskUpdate.t) (t : Task.t) :
  fold_left setattr_unless_dispute_reason (dict_exclude_unset d) t
  = Task.mk (Task.id t)
      (supplied (TaskUpdate.title d) (Task.title t))
      (supplied (TaskUpdate.description d) (Task.description t))
      (supplied (TaskUpdate.status d) (Task.status t))
      (Task.dispute_reason t) (Task.is_locked t)
      (Task.creator_id t) (Task.assignee_id t)
      (supplied (TaskUpdate.deadline d) (Task.deadline t))
      (Task.created_at t).
Proof.
  destruct t, d as [[|s] [|ti] [|de] [|dl] [|dr]]; reflexivity.
Qed.

Lemma replace_task_null_title task task' k rows :
  filter (fun t => Task.id t =? k) rows = [task] ->
  Task.id task' = Task.id task ->
  Task.title task' = None ->
  forallb title_not_null (replace_task task' rows) = false.
Proof.
  intros Hf Hid Hnull. apply filter_singleton_in in Hf. destruct Hf as [Hin _].
  destruct (forallb title_not_null (replace_task task' rows)) eqn:E; [|reflexivity].
  rewrite forallb_forall in E.
  assert (In task' (replace_task task' rows)) as Hin'.
  { unfold replace_task. apply in_map_iff. exists task. split; [|exact Hin].
    rewrite Hid, Z.eqb_refl. reflexivity. }
  apply E in Hin'. unfold title_not_null in Hin'. rewrite Hnull in Hin'. discriminate.
Qed.

Lemma commit_titled db task' out :
  wf_db db = true ->
  title_not_null task' = true ->
  commit (mkSession db (mkDB (users db) (replace_task task' (tasks db))) out)
  = (Ok tt, mkSession (mkDB (users db) (replace_task task' (tasks db)))
              (mkDB (users db) (replace_task task' (tasks db))) out).
Proof.
  intros Hwf Ht. apply wf_db_parts in Hwf. destruct Hwf as [_ [_ [_ Htitles]]].
  unfold commit. cbn [pending tasks].
  rewrite replace_task_titles; [reflexivity | exact Htitles | exact Ht].
Qed.

Section UpdateTaskRules.
Context {L : PyLib} {C : Config}.


(** X2. A worker and a task assigned to someone else: every update request,
    whatever its body and whatever the task's status, fails with
    [HTTPException(403)]; nothing is stored and nobody is notified. *)
Theorem worker_cannot_touch_others_task db task_id task_data init_data tg_user user task :
  wf_db db = true ->
  validate_telegram_data init_data BOT_TOKEN = Ok tg_user ->
  user_by_telegram_id db (TgUser.id tg_user) = Ok (Some user) ->
  task_by_id db task_id = Ok (Some task) ->
  User.role user = WORKER ->
  Task.assignee_id task <> User.id user ->
  run (update_task task_id task_data init_data) db = (Raise Forbidden, db, []).
Proof.
  intros Hwf Hv Hu Ht Hrole Hne.
  rewrite (update_task_loaded _ _ _ _ _ _ _ Hwf Hv Hu Ht).
  unfold apply_rules. rewrite Hrole. apply Z.eqb_neq in Hne. rewrite Hne.
  cbn [UserRole_eqb negb].
  destruct (opt_status_eqb (attr (TaskUpdate.status task_data)) DISPUTED);
    [reflexivity|].
  destruct (opt_status_eqb (Task.status task) DISPUTED);
    destruct (attr (TaskUpdate.status task_data)); reflexivity.
Qed.

(** X3. Only the owner rules on a dispute: on a disputed task, a request by a
    user whose role is not owner for a status other than disputed fails with
    [HTTPException(403)], also when the user is an administrator or the
    task's assignee; nothing is stored and nobody is notified. *)
Theorem resolve_dispute_owner_only db task_id task_data init_data tg_user user task
  new_status :
  wf_db db = true ->
  validate_telegram_data init_data BOT_TOKEN = Ok tg_user ->
  user_by_telegram_id db (TgUser.id tg_user) = Ok (Some user) ->
  task_by_id db task_id = Ok (Some task) ->
  Task.status task = Some DISPUTED ->
  attr (TaskUpdate.status task_data) = Some new_status ->
  new_status <> DISPUTED ->
  User.role user <> OWNER ->
  run (update_task task_id task_data init_data) db = (Raise Forbidden, db, []).
Proof.
  intros Hwf Hv Hu Ht Hst Hreq Hnd Hrole.
  rewrite (update_task_loaded _ _ _ _ _ _ _ Hwf Hv Hu Ht).
  unfold apply_rules. rewrite Hreq, Hst.
  assert (TaskStatus_eqb new_status DISPUTED = false) as E.
  { destruct new_status; try reflexivity. congruence. }
  assert (UserRole_eqb (User.role user) OWNER = false) as E'.
  { destruct (User.role user); try reflexivity. congruence. }
  cbn [opt_status_eqb TaskStatus_eqb]. rewrite E, E'. reflexivity.
Qed.



(** X6. A request for a task that is not stored, the task id and the
    verified identity being integers of the signed 64-bit range, fails with
    [HTTPException(404)] before any rule is looked at: whatever the body,
    and whether or not the verified identity has a row; nothing is stored. *)
Theorem update_task_not_found db task_id task_data init_data tg_user :
  wf_db db = true ->
  validate_telegram_data init_data BOT_TOKEN = Ok tg_user ->
  int64 (TgUser.id tg_user) = true ->
  int64 task_id = true ->
  task_by_id db task_id = Ok None ->
  run (update_task task_id task_data init_data) db = (Raise NotFound, db, []).
Proof.
  intros Hwf Hv _ _ Ht. pose proof (wf_db_parts db Hwf) as [_ [Htg _]].
  unfold task_by_id in Ht.
  unfold run, update_task. rewrite Hv, bind_lift_Ok.
  unfold bind, select_users, select_tasks, lift. cbn [pending].
  rewrite (scalar_by_key User.telegram_id) by exact Htg. rewrite Ht. reflexivity.
Qed.

End UpdateTaskRules.


Lemma worker_cannot_touch_others_task_witness :
  run (update_task (L := ref_lib) (C := ref_config) 1 (only_status DONE) (signed "9"))
    (ex_db IN_PROGRESS None false)
  = (Raise Forbidden, ex_db IN_PROGRESS None false, []).
Proof.
  refine (worker_cannot_touch_others_task (L := ref_lib) (C := ref_config)
            (ex_db IN_PROGRESS None false) 1 (only_status DONE) (signed "9")
            (TgUser.mk 9 None None) (User.mk 4 9 (str "Cy") WORKER)
            (ex_task IN_PROGRESS None false)
            eq_refl eq_refl eq_refl eq_refl eq_refl _).
  discriminate.
Defined.

Lemma resolve_dispute_owner_only_witness :
  run (update_task (L := ref_lib) (C := ref_config) 1 (only_status DONE) (signed "8"))
    (ex_db DISPUTED (Some (str "blocked")) false)
  = (Raise Forbidden, ex_db DISPUTED (Some (str "blocked")) false, []).
Proof.
  refine (resolve_dispute_owner_only (L := ref_lib) (C := ref_config)
            (ex_db DISPUTED (Some (str "blocked")) false) 1 (only_status DONE)
            (signed "8") (TgUser.mk 8 None None) (User.mk 3 8 (str "Bob") ADMIN)
            (ex_task DISPUTED (Some (str "blocked")) false) DONE
            eq_refl eq_refl eq_refl eq_refl eq_refl eq_refl _ _); discriminate.
Defined.



Lemma update_task_not_found_witness :
  run (update_task (L := ref_lib) (C := ref_config) 99 (only_status DONE) (signed "5"))
    (ex_db TODO None false)
  = (Raise NotFound, ex_db TODO None false, []).
Proof.
  exact (update_task_not_found (L := ref_lib) (C := ref_config)
           (ex_db TODO None false) 99 (only_status DONE) (signed "5")
           (TgUser.mk 5 None None) eq_refl eq_refl eq_refl eq_refl eq_refl).
Defined.

(* ------------------------------------------------------------------ *)
(** * Requests that are refused, and the creation of a task *)

Section Refusals.
Context {L : PyLib} {C : Config}.

(** X7. Data that does not verify: each handler that reads the signed data
    ([auth_user], [update_user_role], [get_tasks], [create_task],
    [update_task]) fails with [HTTPException(403, "Auth failed")] before it
    reads a row; nothing is stored and nobody is notified. *)
Theorem unverified_request_does_nothing db init_data e :
  validate_telegram_data init_data BOT_TOKEN = Raise e ->
  (forall initData, init_data = Some initData ->
     run (auth_user initData) db = (Raise AuthenticationFailure, db, []))
  /\ (forall user_id role_data,
        run (update_user_role user_id role_data init_data) db
        = (Raise AuthenticationFailure, db, []))
  /\ (forall filter_param,
        run (get_tasks init_data filter_param) db
        = (Raise AuthenticationFailure, db, []))
  /\ (forall task_data now,
        run (create_task task_data init_data now) db
        = (Raise AuthenticationFailure, db, []))
  /\ (forall task_id task_data,
        run (update_task task_id task_data init_data) db
        = (Raise AuthenticationFailure, db, [])).
Proof.
  intro Hv.
  assert (validate_telegram_data init_data BOT_TOKEN = Raise AuthenticationFailure)
    as Hv'.
  { rewrite validate_cases in Hv |- *.
    destruct (validate_try init_data BOT_TOKEN); [discriminate | reflexivity]. }
  repeat split; intros.
  - subst init_data. unfold run, auth_user. rewrite Hv'. reflexivity.
  - unfold run, update_user_role. rewrite Hv'. reflexivity.
  - unfold run, get_tasks. rewrite Hv'. reflexivity.
  - unfold run, create_task. rewrite Hv'. reflexivity.
  - unfold run, update_task. rewrite Hv'. reflexivity.
Qed.

(** X8. Creating a task is for administrators and the owner: the request of
    a user whose role is worker fails with [HTTPException(403)]; nothing is
    stored and nobody is notified. *)
Theorem create_task_worker_forbidden db task_data init_data now tg_user user :
  validate_telegram_data init_data BOT_TOKEN = Ok tg_user ->
  user_by_telegram_id db (TgUser.id tg_user) = Ok (Some user) ->
  User.role user = WORKER ->
  run (create_task task_data init_data now) db = (Raise Forbidden, db, []).
Proof.
  intros Hv Hu Hrole. unfold user_by_telegram_id in Hu.
  unfold run, create_task. rewrite Hv, bind_lift_Ok.
  unfold bind, select_users, lift. cbn [pending]. rewrite Hu, Hrole. reflexivity.
Qed.


(** X10. The target of a role change: when the owner's request names a user
    id (an integer of the signed 64-bit range) that is not stored, or the row
    of the configured owner identity itself, it fails with
    [HTTPException(400)]; nothing is stored.  The owner's role cannot be
    changed through this handler. *)
Theorem update_user_role_invalid_target db user_id role_data init_data tg_user :
  validate_telegram_data init_data BOT_TOKEN = Ok tg_user ->
  TgUser.id tg_user = OWNER_ID ->
  int64 user_id = true ->
  (user_by_id db user_id = Ok None
   \/ exists target,
        user_by_id db user_id = Ok (Some target)
        /\ User.telegram_id target = OWNER_ID) ->
  run (update_user_role user_id role_data init_data) db
  = (Raise (HTTPException 400 None), db, []).
Proof.
  intros Hv Hown _ Htarget. unfold user_by_id in Htarget.
  unfold run, update_user_role. rewrite Hv, bind_lift_Ok.
  apply Z.eqb_eq in Hown. rewrite Hown. cbn [negb].
  unfold bind, select_users, lift. cbn [pending].
  destruct Htarget as [Hnone|[target [Hsome Htg]]].
  - rewrite Hnone. reflexivity.
  - rewrite Hsome. apply Z.eqb_eq in Htg. rewrite Htg. reflexivity.
Qed.

End Refusals.

Lemma unverified_request_does_nothing_witness :
  (forall initData, Some (str "user=7&hash=ff") = Some initData ->
     run (auth_user (L := ref_lib) (C := ref_config) initData) (ex_db TODO None false)
     = (Raise AuthenticationFailure, ex_db TODO None false, []))
  /\ (forall user_id role_data,
        run (update_user_role (L := ref_lib) (C := ref_config) user_id role_data
               (Some (str "user=7&hash=ff"))) (ex_db TODO None false)
        = (Raise AuthenticationFailure, ex_db TODO None false, []))
  /\ (forall filter_param,
        run (get_tasks (L := ref_lib) (C := ref_config)
               (Some (str "user=7&hash=ff")) filter_param) (ex_db TODO None false)
        = (Raise AuthenticationFailure, ex_db TODO None false, []))
  /\ (forall task_data now,
        run (create_task (L := ref_lib) (C := ref_config) task_data
               (Some (str "user=7&hash=ff")) now) (ex_db TODO None false)
        = (Raise AuthenticationFailure, ex_db TODO None false, []))
  /\ (forall task_id task_data,
        run (update_task (L := ref_lib) (C := ref_config) task_id task_data
               (Some (str "user=7&hash=ff"))) (ex_db TODO None false)
        = (Raise AuthenticationFailure, ex_db TODO None false, [])).
Proof.
  exact (unverified_request_does_nothing (L := ref_lib) (C := ref_config)
           (ex_db TODO None false) (Some (str "user=7&hash=ff"))
           AuthenticationFailure eq_refl).
Defined.

Lemma create_task_worker_forbidden_witness :
  run (create_task (L := ref_lib) (C := ref_config)
         (TaskCreate.mk (str "T2") (Some []) 4 None) (signed "7") 10)
    (ex_db TODO None false)
  = (Raise Forbidden, ex_db TODO None false, []).
Proof.
  exact (create_task_worker_forbidden (L := ref_lib) (C := ref_config)
           (ex_db TODO None false) (TaskCreate.mk (str "T2") (Some []) 4 None)
           (signed "7") 10 (TgUser.mk 7 None None)
           (User.mk 2 7 (str "Ann Lee") WORKER) eq_refl eq_refl eq_refl).
Defined.


Lemma update_user_role_invalid_target_witness :
  run (update_user_role (L := ref_lib) (C := ref_config) 1 WORKER (signed "1"))
    (ex_db TODO None false)
  = (Raise (HTTPException 400 None), ex_db TODO None false, []).
Proof.
  refine (update_user_role_invalid_target (L := ref_lib) (C := ref_config)
            (ex_db TODO None false) 1 WORKER (signed "1") (TgUser.mk 1 None None)
            eq_refl eq_refl eq_refl _).
  right. exists (User.mk 1 1 (str "Olga") OWNER). split; reflexivity.
Defined.

(* ------------------------------------------------------------------ *)
(** * One request, row by row *)

Lemma Forall2_map_in {A B : Type} (R : A -> B -> Prop) (f : A -> B) (l : list A) :
  (forall x, In x l -> R x (f x)) -> Forall2 R l (map f l).
Proof.
  induction l as [|x l IH]; intro H; simpl; constructor.
  - apply H. left. reflexivity.
  - apply IH. intros y Hy. apply H. right. exact Hy.
Qed.

Lemma Forall2_same {A : Type} (R : A -> A -> Prop) (l : list A) :
  (forall x, R x x) -> Forall2 R l l.
Proof. intro H. induction l; constructor; auto. Qed.

Lemma task_transition_frame t t' :
  task_transition t t' ->
  Task.id t' = Task.id t
  /\ Task.creator_id t' = Task.creator_id t
  /\ Task.assignee_id t' = Task.assignee_id t
  /\ Task.created_at t' = Task.created_at t
  /\ (Task.is_locked t = true -> Task.is_locked t' = true).
Proof.
  intro H. destruct H as [t r Hl|t s Hs Hn|t s Hn Hs|t d H1 H2].
  - repeat split. cbn. intro E. exact E.
  - destruct (negb (TaskStatus_eqb s DONE)); repeat split; cbn; auto.
  - repeat split. cbn. auto.
  - rewrite fold_items_task. repeat split. cbn. auto.
Qed.

(** The rules of [update_task], as a transition of the loaded row. *)
Lemma apply_rules_transition user task creator assignee task_data s :
  committed (snd (apply_rules user task creator assignee task_data s)) = committed s
  /\ users (pending (snd (apply_rules user task creator assignee task_data s)))
     = users (pending s)
  /\ (tasks (pending (snd (apply_rules user task creator assignee task_data s)))
      = tasks (pending s)
      \/ exists task',
           task_transition task task'
           /\ tasks (pending (snd (apply_rules user task creator assignee task_data s)))
              = replace_task task' (tasks (pending s))).
Proof.
  unfold apply_rules.
  destruct (opt_status_eqb (attr (TaskUpdate.status task_data)) DISPUTED) eqn:Hr1.
  - destruct (negb (Task.assignee_id task =? User.id user));
      [repeat split; left; reflexivity|].
    destruct (Task.is_locked task) eqn:Hl; [repeat split; left; reflexivity|].
    repeat split; try (destruct creator; reflexivity).
    right. eexists. split; [apply tr_raise; exact Hl|].
    destruct creator; reflexivity.
  - assert (attr (TaskUpdate.status task_data) <> Some DISPUTED) as Hnd.
    { intro E. rewrite E in Hr1. discriminate. }
    destruct (opt_status_eqb (Task.status task) DISPUTED) eqn:Hcur;
      destruct (attr (TaskUpdate.status task_data)) as [new_status|] eqn:Hreq.
    + destruct (negb (UserRole_eqb (User.role user) OWNER));
        [repeat split; left; reflexivity|].
      repeat split; try (destruct assignee; reflexivity).
      right. eexists. split.
      * apply (tr_resolve task new_status).
        -- destruct (Task.status task) as [[]|]; try discriminate. reflexivity.
        -- congruence.
      * destruct assignee; reflexivity.
    + destruct (UserRole_eqb (User.role user) WORKER).
      * destruct (negb (Task.assignee_id task =? User.id user));
          repeat split; left; reflexivity.
      * repeat split. right. eexists. split; [|reflexivity].
        apply tr_privileged; [rewrite Hreq; discriminate | intros _; exact Hreq].
    + assert (Task.status task <> Some DISPUTED) as Hns.
      { intro E. rewrite E in Hcur. discriminate. }
      destruct (UserRole_eqb (User.role user) WORKER).
      * destruct (negb (Task.assignee_id task =? User.id user));
          [repeat split; left; reflexivity|].
        repeat split;
          try (destruct (TaskStatus_eqb new_status DONE); [destruct creator|];
               reflexivity).
        right. eexists. split; [apply (tr_worker task new_status); congruence|].
        destruct (TaskStatus_eqb new_status DONE); [destruct creator|]; reflexivity.
      * repeat split. right. eexists. split; [|reflexivity].
        apply tr_privileged; [rewrite Hreq; exact Hnd | intro E; contradiction].
    + destruct (UserRole_eqb (User.role user) WORKER).
      * destruct (negb (Task.assignee_id task =? User.id user));
          repeat split; left; reflexivity.
      * repeat split. right. eexists. split; [|reflexivity].
        apply tr_privileged; [rewrite Hreq; discriminate | intros _; exact Hreq].
Qed.

Section RowByRow.
Context {L : PyLib} {C : Config}.

Lemma create_task_stored_created db task_data init_data now (P : DB -> Prop) :
  P db ->
  (forall creator,
     In creator (users db) ->
     User.role creator <> WORKER ->
     P (mkDB (users db)
          (tasks db
           ++ [Task.mk (next_id (map Task.id (tasks db)))
                 (Some (TaskCreate.title task_data))
                 (TaskCreate.description task_data) (Some TODO) None false
                 (User.id creator) (TaskCreate.assignee_id task_data)
                 (TaskCreate.deadline task_data) now]))) ->
  P (stored (create_task task_data init_data now) db).
Proof.
  intros Hsame Hnew. unfold stored, run, create_task.
  destruct (validate_telegram_data init_data BOT_TOKEN) as [tg_user|e];
    [rewrite bind_lift_Ok | exact Hsame].
  unfold bind at 1 2, select_users, lift. cbn [pending].
  destruct (scalar_one_or_none (filter _ (users db))) as [[creator|]|e] eqn:Hc;
    try exact Hsame.
  destruct (negb _) eqn:Hrole; [exact Hsame|].
  assert (In creator (users db)) as Hin.
  { apply scalar_some_inv in Hc. apply filter_singleton_in in Hc. exact (proj1 Hc). }
  assert (User.role creator <> WORKER) as Hnw.
  { intro E. rewrite E in Hrole. discriminate. }
  specialize (Hnew creator Hin Hnw).
  unfold bind at 1 2, add_task, commit.
  cbn [fst snd committed pending outbox users tasks].
  destruct (forallb title_not_null (tasks db ++ _)); [|exact Hsame].
  unfold bind, select_users, lift, create_task_send_notify, ret.
  cbn [fst snd committed pending outbox users tasks].
  branch; exact Hnew.
Qed.

Lemma update_task_stored_rows db task_id task_data init_data (P : DB -> Prop) :
  P db ->
  (forall task task',
     filter (fun t => Task.id t =? task_id) (tasks db) = [task] ->
     task_transition task task' ->
     P (mkDB (users db) (replace_task task' (tasks db)))) ->
  P (stored (update_task task_id task_data init_data) db).
Proof.
  intros Hsame Hnew. unfold stored, run, update_task.
  destruct (validate_telegram_data init_data BOT_TOKEN) as [tg_user|e];
    [rewrite bind_lift_Ok | exact Hsame].
  unfold bind at 1 2 3 4, select_users, select_tasks, lift.
  cbn [pending].
  destruct (scalar_one_or_none (filter _ (users db))) as [user|e]; [|exact Hsame].
  destruct (scalar_one_or_none (filter _ (tasks db))) as [[task|]|e] eqn:Ht;
    try exact Hsame.
  apply scalar_some_inv in Ht.
  unfold bind at 1 2 3 4, select_users, lift. cbn [pending].
  destruct (scalar_one_or_none
              (filter (fun u => User.id u =? Task.creator_id task) (users db)))
    as [creator|e]; [|exact Hsame].
  destruct (scalar_one_or_none
              (filter (fun u => User.id u =? Task.assignee_id task) (users db)))
    as [assignee|e]; [|exact Hsame].
  destruct user as [user|]; [|exact Hsame].
  pose proof (apply_rules_transition user task creator assignee task_data
                (mkSession db db [])) as [Hc [Hu Hp]].
  unfold bind at 1.
  destruct (apply_rules user task creator assignee task_data (mkSession db db []))
    as [[u|e] s']; cbn [snd committed pending] in Hc, Hu, Hp;
    [|cbn [fst snd]; rewrite Hc; exact Hsame].
  unfold bind, commit, ret.
  destruct (forallb title_not_null (tasks (pending s')));
    cbn [fst snd committed]; [|rewrite Hc; exact Hsame].
  destruct (pending s') as [us ts]. cbn [users tasks] in Hu, Hp. subst us.
  destruct Hp as [Hp|[task' [Htr Hp]]]; subst ts.
  - destruct db; exact Hsame.
  - exact (Hnew task task' Ht Htr).
Qed.

(** The tasks after one request: the rows before, each as it was or changed
    by a transition, and at most one created row after them. *)
Lemma step_tasks_shape db r :
  exists rows' created,
    tasks (step db r) = rows' ++ created
    /\ Forall2 (fun x y => y = x \/ task_transition x y) (tasks db) rows'
    /\ (created = []
        \/ exists t u,
             created = [t]
             /\ In u (users db) /\ User.role u <> WORKER
             /\ Task.creator_id t = User.id u
             /\ Task.id t = next_id (map Task.id (tasks db))
             /\ Task.status t = Some TODO
             /\ Task.dispute_reason t = None
             /\ Task.is_locked t = false).
Proof.
  assert (forall db', tasks db' = tasks db ->
            exists rows' created,
              tasks db' = rows' ++ created
              /\ Forall2 (fun x y => y = x \/ task_transition x y) (tasks db) rows'
              /\ (created = []
                  \/ exists t u,
                       created = [t]
                       /\ In u (users db) /\ User.role u <> WORKER
                       /\ Task.creator_id t = User.id u
                       /\ Task.id t = next_id (map Task.id (tasks db))
                       /\ Task.status t = Some TODO
                       /\ Task.dispute_reason t = None
                       /\ Task.is_locked t = false)) as Hsame.
  { intros db' E. exists (tasks db), []. rewrite E, app_nil_r.
    split; [reflexivity|]. split; [|left; reflexivity].
    apply Forall2_same. intro x. left. reflexivity. }
  destruct r as [i|u ro i|i f|d i now|tid d i|fu]; cbn [step].
  - apply Hsame. apply auth_user_tasks.
  - apply Hsame. apply update_user_role_tasks.
  - apply Hsame. rewrite get_tasks_stored. reflexivity.
  - apply create_task_stored_created; [apply Hsame; reflexivity|].
    intros creator Hin Hrole. eexists (tasks db), [_]. cbn [tasks].
    split; [reflexivity|]. split.
    + apply Forall2_same. intro x. left. reflexivity.
    + right. eexists _, creator. repeat split; assumption.
  - apply update_task_stored_rows; [apply Hsame; reflexivity|].
    intros task task' Hf Htr. exists (replace_task task' (tasks db)), [].
    cbn [tasks]. rewrite app_nil_r. split; [reflexivity|].
    split; [|left; reflexivity].
    unfold replace_task. apply Forall2_map_in. intros x Hx.
    destruct (Task.id x =? Task.id task') eqn:E; [|left; reflexivity].
    right. apply Z.eqb_eq in E.
    pose proof (task_transition_frame task task' Htr) as [Hid _].
    pose proof (filter_singleton_in _ _ _ Hf) as [_ Hk]. apply Z.eqb_eq in Hk.
    assert (In x (filter (fun t => Task.id t =? tid) (tasks db))) as Hin.
    { apply filter_In. split; [exact Hx|]. apply Z.eqb_eq. congruence. }
    rewrite Hf in Hin. destruct Hin as [<-|[]]. exact Htr.
  - apply Hsame. apply cmd_start_tasks.
Qed.

(** The constraints of the schema survive a request. *)
Lemma step_wf db r : wf_db db = true -> wf_db (step db r) = true.
Proof.
  intro Hwf. destruct r; cbn [step].
  - apply auth_user_wf. exact Hwf.
  - apply update_user_role_wf. exact Hwf.
  - rewrite get_tasks_stored. exact Hwf.
  - apply create_task_wf. exact Hwf.
  - apply update_task_wf. exact Hwf.
  - apply cmd_start_wf. exact Hwf.
Qed.

Lemma steps_wf db rs : wf_db db = true -> wf_db (steps db rs) = true.
Proof.
  revert db. induction rs as [|r rs IH]; intros db Hwf; [exact Hwf|].
  unfold steps. simpl. apply IH. apply step_wf. exact Hwf.
Qed.

(** Induction over the stored states that carries the constraints along. *)
Lemma reachable_by_wf_ind (allowed : Request -> bool) (P : DB -> Prop) :
  P empty_db ->
  (forall db r, wf_db db = true -> P db -> P (step db r)) ->
  forall db, reachable_by allowed db -> P db.
Proof.
  intros Hstart Hstep db Hreach.
  assert (wf_db db = true /\ P db) as [_ H]; [|exact H].
  induction Hreach as [|db r _ [Hwf IH] _]; [split; [reflexivity | exact Hstart]|].
  split; [apply step_wf; exact Hwf | apply Hstep; assumption].
Qed.

End RowByRow.

Lemma Forall2_in_left {A B : Type} (R : A -> B -> Prop) (l : list A) (l' : list B) x :
  Forall2 R l l' -> In x l -> exists y, In y l' /\ R x y.
Proof.
  intro H. induction H as [|a b l l' Hab _ IH]; intro Hin; [contradiction|].
  destruct Hin as [->|Hin].
  - exists b. split; [left; reflexivity | exact Hab].
  - destruct (IH Hin) as [y [Hy Hr]]. exists y. split; [right; exact Hy | exact Hr].
Qed.

Lemma Forall2_in_right {A B : Type} (R : A -> B -> Prop) (l : list A) (l' : list B) y :
  Forall2 R l l' -> In y l' -> exists x, In x l /\ R x y.
Proof.
  intro H. induction H as [|a b l l' Hab _ IH]; intro Hin; [contradiction|].
  destruct Hin as [->|Hin].
  - exists a. split; [left; reflexivity | exact Hab].
  - destruct (IH Hin) as [x [Hx Hr]]. exists x. split; [right; exact Hx | exact Hr].
Qed.

Lemma find_by_key {A : Type} (key : A -> Z) (l : list A) (y : A) :
  distinct (map key l) = true ->
  In y l ->
  find (fun x => key x =? key y) l = Some y.
Proof.
  intros Hd Hin.
  destruct (find (fun x => key x =? key y) l) as [z|] eqn:F.
  - apply find_some in F. destruct F as [Hz Ek]. apply Z.eqb_eq in Ek.
    f_equal. apply (key_inj_in key l); assumption.
  - apply (find_none _ _ F) in Hin. simpl in Hin. rewrite Z.eqb_refl in Hin.
    discriminate.
Qed.

Section TaskLifecycle.
Context {L : PyLib} {C : Config}.

(** X11. The lifecycle of a stored task: whatever the request, the task
    stored under a key before it is stored under that key after it, either
    as it was or changed by one of the four transitions of [update_task]
    (a dispute raised on an unlocked task, a dispute resolved to a status
    other than disputed, a worker's change of status on a task that is not
    disputed, a full update that does not ask for disputed). *)
Theorem task_changes_by_transitions db r task_id task :
  wf_db db = true ->
  task_by_id db task_id = Ok (Some task) ->
  exists task',
    task_by_id (step db r) task_id = Ok (Some task')
    /\ (task' = task \/ task_transition task task').
Proof.
  intros Hwf Ht. unfold task_by_id in Ht. apply scalar_some_inv in Ht.
  apply filter_singleton_in in Ht. destruct Ht as [Hin Hk]. apply Z.eqb_eq in Hk.
  destruct (step_tasks_shape db r) as [rows' [created [Hrows [Hall _]]]].
  destruct (Forall2_in_left _ _ _ _ Hall Hin) as [task' [Hin' Hr]].
  exists task'. split; [|exact Hr].
  assert (Task.id task' = task_id) as Hid.
  { destruct Hr as [->|Htr]; [exact Hk|].
    rewrite (proj1 (task_transition_frame _ _ Htr)). exact Hk. }
  pose proof (wf_db_parts _ (step_wf db r Hwf)) as [_ [_ [Htid _]]].
  unfold task_by_id. rewrite (scalar_by_key Task.id) by exact Htid.
  rewrite <- Hid. rewrite find_by_key; [reflexivity | exact Htid|].
  rewrite Hrows. apply in_or_app. left. exact Hin'.
Qed.

(** X12. In every stored state reached from the empty tables, a locked task
    is not disputed: the lock is set when a dispute is resolved, and a
    dispute is raised on an unlocked task only. *)
Theorem locked_task_is_not_disputed (allowed : Request -> bool) db :
  reachable_by allowed db ->
  forall t, In t (tasks db) ->
    Task.is_locked t = true -> Task.status t <> Some DISPUTED.
Proof.
  revert db.
  apply (reachable_by_wf_ind allowed
           (fun db => forall t, In t (tasks db) ->
                        Task.is_locked t = true -> Task.status t <> Some DISPUTED));
    [intros t []|].
  intros db r _ IH t Hin Hlock.
  destruct (step_tasks_shape db r) as [rows' [created [Hrows [Hall Hcreated]]]].
  rewrite Hrows in Hin. apply in_app_or in Hin. destruct Hin as [Hin|Hin].
  - destruct (Forall2_in_right _ _ _ _ Hall Hin) as [x [Hx [->|Htr]]];
      [exact (IH x Hx Hlock)|].
    specialize (IH x Hx).
    destruct Htr as [x reason Hl|x s Hs Hn|x s Hn Hs|x d H1 H2].
    + cbn in Hlock. congruence.
    + destruct (negb (TaskStatus_eqb s DONE)); cbn; congruence.
    + cbn. congruence.
    + rewrite fold_items_task in Hlock |- *. cbn in Hlock |- *.
      destruct (TaskUpdate.status d) as [|v]; cbn in H1 |- *;
        [exact (IH Hlock) | exact H1].
  - destruct Hcreated as [->|[t0 [u [-> [_ [_ [_ [_ [_ [_ Hl]]]]]]]]]];
      [contradiction|].
    destruct Hin as [<-|[]]. congruence.
Qed.

(** X13. Whatever requests follow, a stored task stays stored under its key
    with the same creator, the same assignee and the same creation time, and
    once it is locked it stays locked: no handler deletes or reassigns a
    task, and none clears the lock. *)
Theorem task_is_never_reassigned_or_unlocked db rs t :
  In t (tasks db) ->
  exists t',
    In t' (tasks (steps db rs))
    /\ Task.id t' = Task.id t
    /\ Task.creator_id t' = Task.creator_id t
    /\ Task.assignee_id t' = Task.assignee_id t
    /\ Task.created_at t' = Task.created_at t
    /\ (Task.is_locked t = true -> Task.is_locked t' = true).
Proof.
  revert db t. induction rs as [|r rs IH]; intros db t Hin.
  - exists t. repeat split; auto.
  - destruct (step_tasks_shape db r) as [rows' [created [Hrows [Hall _]]]].
    destruct (Forall2_in_left _ _ _ _ Hall Hin) as [t1 [Hin1 Hr]].
    assert (In t1 (tasks (step db r))) as Hin1'.
    { rewrite Hrows. apply in_or_app. left. exact Hin1. }
    destruct (IH (step db r) t1 Hin1') as [t' [Hin' [H1 [H2 [H3 [H4 H5]]]]]].
    exists t'. split; [exact Hin'|].
    destruct Hr as [->|Htr]; [repeat split; assumption|].
    pose proof (task_transition_frame t t1 Htr) as [F1 [F2 [F3 [F4 F5]]]].
    repeat split; try congruence. intro Hl. apply H5, F5, Hl.
Qed.

End TaskLifecycle.

(* ------------------------------------------------------------------ *)
(** * One request, user by user *)

Section UserRows.
Context {L : PyLib} {C : Config}.

Lemma user_transition_frame r u u' :
  user_transition r u u' ->
  User.id u' = User.id u /\ User.telegram_id u' = User.telegram_id u.
Proof. intro H. destruct H; split; reflexivity. Qed.

Lemma create_task_users db task_data init_data now :
  users (stored (create_task task_data init_data now) db) = users db.
Proof.
  apply (create_task_stored_created db task_data init_data now
           (fun d => users d = users db)); [reflexivity|].
  intros. reflexivity.
Qed.

Lemma update_task_users db task_id task_data init_data :
  users (stored (update_task task_id task_data init_data) db) = users db.
Proof.
  apply (update_task_stored_rows db task_id task_data init_data
           (fun d => users d = users db)); [reflexivity|].
  intros. reflexivity.
Qed.

Lemma replace_user_rows (P : User.t -> User.t -> Prop) (u u' : User.t)
  (rows : list User.t) :
  distinct (map User.id rows) = true ->
  In u rows ->
  User.id u' = User.id u ->
  P u u' ->
  Forall2 (fun x y => y = x \/ P x y) rows (replace_user u' rows).
Proof.
  intros Hd Hin Hid Hp. unfold replace_user. apply Forall2_map_in. intros x Hx.
  destruct (User.id x =? User.id u') eqn:E; [|left; reflexivity].
  apply Z.eqb_eq in E. right.
  assert (x = u) as -> by (apply (key_inj_in User.id rows); congruence).
  exact Hp.
Qed.

(** The users after one request: the rows before, each as it was or changed
    by a sign-in or by the owner's assignment of a role, and at most one
    created row after them. *)
Lemma step_users_shape db r :
  wf_db db = true ->
  exists rows' created,
    users (step db r) = rows' ++ created
    /\ Forall2 (fun x y => y = x \/ user_transition r x y) (users db) rows'
    /\ (created = []
        \/ exists u,
             created = [u]
             /\ ~ In (User.telegram_id u) (map User.telegram_id (users db))
             /\ User.role u = (if User.telegram_id u =? OWNER_ID then OWNER else WORKER)).
Proof.
  intro Hwf. pose proof (wf_db_parts db Hwf) as [Hid [Htg [_ Htitles]]].
  assert (forall db', users db' = users db ->
            exists rows' created,
              users db' = rows' ++ created
              /\ Forall2 (fun x y => y = x \/ user_transition r x y) (users db) rows'
              /\ (created = []
                  \/ exists u,
                       created = [u]
                       /\ ~ In (User.telegram_id u) (map User.telegram_id (users db))
                       /\ User.role u
                          = (if User.telegram_id u =? OWNER_ID then OWNER else WORKER)))
    as Hsame.
  { intros db' E. exists (users db), []. rewrite E, app_nil_r.
    split; [reflexivity|]. split; [|left; reflexivity].
    apply Forall2_same. intro x. left. reflexivity. }
  destruct r as [i|uid ro i|i f|d i now|tid d i|fu]; cbn [step].
  - destruct (validate_telegram_data (Some i) BOT_TOKEN) as [tg_user|e] eqn:Hv.
    + destruct (find (fun u => User.telegram_id u =? TgUser.id tg_user) (users db))
        as [user0|] eqn:Hfind.
      * pose proof (auth_user_returning db i tg_user user0 Hwf Hv Hfind) as Hrun.
        cbv zeta in Hrun. unfold stored. rewrite Hrun. cbn [fst snd users].
        apply find_some in Hfind. destruct Hfind as [Hin Hk]. apply Z.eqb_eq in Hk.
        eexists _, []. rewrite app_nil_r. split; [reflexivity|].
        split; [|left; reflexivity].
        apply (replace_user_rows _ user0); try assumption; [reflexivity|].
        rewrite <- Hk. apply ut_sign_in; assumption.
      * pose proof (auth_user_new db i tg_user Hwf Hv Hfind) as Hrun.
        cbv zeta in Hrun. unfold stored. rewrite Hrun. cbn [fst snd users].
        eexists (users db), [_]. split; [reflexivity|]. split.
        -- apply Forall2_same. intro x. left. reflexivity.
        -- right. eexists. split; [reflexivity|]. cbn [User.telegram_id User.role].
           split; [|reflexivity].
           exact (find_none_key User.telegram_id (users db) _ Hfind).
    + apply Hsame. unfold stored, run, auth_user. rewrite Hv. reflexivity.
  - unfold stored, run, update_user_role.
    destruct (validate_telegram_data i BOT_TOKEN) as [tg_user|e] eqn:Hv;
      [rewrite bind_lift_Ok | apply Hsame; reflexivity].
    destruct (TgUser.id tg_user =? OWNER_ID) eqn:Hown;
      [|apply Hsame; reflexivity].
    cbn [negb]. unfold bind at 1 2, select_users, lift. cbn [pending].
    rewrite (scalar_by_key User.id) by exact Hid.
    destruct (find (fun u => User.id u =? uid) (users db)) as [target|] eqn:Hfind;
      [|apply Hsame; reflexivity].
    destruct (User.telegram_id target =? OWNER_ID) eqn:Htarget;
      [apply Hsame; reflexivity|].
    unfold bind, store_user, commit, ret.
    cbn [fst snd committed pending outbox users tasks]. rewrite Htitles.
    cbn [fst snd committed users].
    apply find_some in Hfind. destruct Hfind as [Hin Hk]. apply Z.eqb_eq in Hk.
    eexists _, []. rewrite app_nil_r. split; [reflexivity|].
    split; [|left; reflexivity].
    apply (replace_user_rows _ target); try assumption; [reflexivity|].
    apply (ut_set_role uid ro i tg_user target); try assumption.
    + apply Z.eqb_eq. exact Hown.
    + apply Z.eqb_neq. exact Htarget.
  - apply Hsame. rewrite get_tasks_stored. reflexivity.
  - apply Hsame. apply create_task_users.
  - apply Hsame. apply update_task_users.
  - destruct (find (fun u => User.telegram_id u =? FromUser.id fu) (users db))
      as [user0|] eqn:Hfind.
    + apply Hsame.
      unfold stored, run, cmd_start, bind at 1 2 3, lift, select_users. simpl.
      rewrite (scalar_by_key User.telegram_id) by exact Htg. rewrite Hfind.
      reflexivity.
    + rewrite (cmd_start_new db fu Hwf Hfind). cbn [users].
      eexists (users db), [_]. split; [reflexivity|]. split.
      * apply Forall2_same. intro x. left. reflexivity.
      * right. eexists. split; [reflexivity|]. cbn [User.telegram_id User.role].
        split; [|reflexivity].
        exact (find_none_key User.telegram_id (users db) _ Hfind).
Qed.

Lemma user_identity_is_stable_step db r u :
  wf_db db = true ->
  In u (users db) ->
  exists u',
    In u' (users (step db r))
    /\ User.id u' = User.id u
    /\ User.telegram_id u' = User.telegram_id u.
Proof.
  intros Hwf Hin.
  destruct (step_users_shape db r Hwf) as [rows' [created [Hrows [Hall _]]]].
  destruct (Forall2_in_left _ _ _ _ Hall Hin) as [u1 [Hin1 Hr]].
  exists u1. split; [rewrite Hrows; apply in_or_app; left; exact Hin1|].
  destruct Hr as [->|Htr]; [split; reflexivity|].
  exact (user_transition_frame r u u1 Htr).
Qed.

(** X14. Whatever requests follow, a stored user stays stored with the same
    key and the same external identity: no handler deletes a user or moves a
    row to another identity. *)
Theorem user_identity_is_stable db rs u :
  wf_db db = true ->
  In u (users db) ->
  exists u',
    In u' (users (steps db rs))
    /\ User.id u' = User.id u
    /\ User.telegram_id u' = User.telegram_id u.
Proof.
  revert db u. induction rs as [|r rs IH]; intros db u Hwf Hin.
  - exists u. repeat split. exact Hin.
  - destruct (user_identity_is_stable_step db r u Hwf Hin) as [u1 [Hin1 [F1 F2]]].
    destruct (IH (step db r) u1 (step_wf db r Hwf) Hin1) as [u' [Hin' [H1 H2]]].
    exists u'. split; [exact Hin'|]. split; congruence.
Qed.

(** X15. In every stored state reached from the empty tables, the user
    whose external identity is the configured owner identity, if stored, has
    the role owner: it is given at creation, forced at each sign-in, and
    [update_user_role] refuses that row as a target. *)
Theorem owner_identity_has_owner_role (allowed : Request -> bool) db :
  reachable_by allowed db ->
  forall u, In u (users db) -> User.telegram_id u = OWNER_ID -> User.role u = OWNER.
Proof.
  revert db.
  apply (reachable_by_wf_ind allowed
           (fun db => forall u, In u (users db) ->
                        User.telegram_id u = OWNER_ID -> User.role u = OWNER));
    [intros u []|].
  intros db r Hwf IH u Hin Hown.
  destruct (step_users_shape db r Hwf) as [rows' [created [Hrows [Hall Hcreated]]]].
  rewrite Hrows in Hin. apply in_app_or in Hin. destruct Hin as [Hin|Hin].
  - destruct (Forall2_in_right _ _ _ _ Hall Hin) as [x [Hx [->|Htr]]];
      [exact (IH x Hx Hown)|].
    destruct Htr as [i c x Hv Hk|uid ro i c x Hv Hc Hid Hne].
    + cbn in Hown |- *. rewrite Hown, Z.eqb_refl. reflexivity.
    + cbn in Hown. contradiction.
  - destruct Hcreated as [->|[u0 [-> [_ Hrole]]]]; [contradiction|].
    destruct Hin as [<-|[]]. rewrite Hrole, Hown, Z.eqb_refl. reflexivity.
Qed.

(** X16. The role of a user other than the configured owner identity changes
    in one way only: by a [PATCH] of that user's role whose signed data
    verifies for the owner identity.  After any other request the user is
    stored with the role it had. *)
Theorem role_changes_only_by_owner db r u :
  wf_db db = true ->
  In u (users db) ->
  User.telegram_id u <> OWNER_ID ->
  exists u',
    In u' (users (step db r))
    /\ User.id u' = User.id u
    /\ User.telegram_id u' = User.telegram_id u
    /\ (User.role u' = User.role u
        \/ exists role_data init_data tg_user,
             r = PATCH_user_role (User.id u) role_data init_data
             /\ validate_telegram_data init_data BOT_TOKEN = Ok tg_user
             /\ TgUser.id tg_user = OWNER_ID
             /\ User.role u' = role_data).
Proof.
  intros Hwf Hin Hne.
  destruct (step_users_shape db r Hwf) as [rows' [created [Hrows [Hall _]]]].
  destruct (Forall2_in_left _ _ _ _ Hall Hin) as [u' [Hin' Hr]].
  exists u'. split; [rewrite Hrows; apply in_or_app; left; exact Hin'|].
  destruct Hr as [->|Htr]; [repeat split; left; reflexivity|].
  destruct Htr as [i c x Hv Hk|uid ro i c x Hv Hc Hid Hno].
  - repeat split. left. cbn. apply Z.eqb_neq in Hne. rewrite Hne. reflexivity.
  - repeat split. right. exists ro, i, c. subst uid. repeat split; assumption.
Qed.

(** X17. In every stored state reached from the empty tables, the creator
    of each task is a stored user.  (The assignee need not be: [create_task]
    does not look the assignee up before it stores the task.) *)
Theorem task_creator_is_stored (allowed : Request -> bool) db :
  reachable_by allowed db ->
  forall t, In t (tasks db) ->
    exists u, In u (users db) /\ User.id u = Task.creator_id t.
Proof.
  revert db.
  apply (reachable_by_wf_ind allowed
           (fun db => forall t, In t (tasks db) ->
                        exists u, In u (users db) /\ User.id u = Task.creator_id t));
    [intros t []|].
  intros db r Hwf IH t Hin.
  assert (forall u, In u (users db) ->
            exists u', In u' (users (step db r)) /\ User.id u' = User.id u) as Hkeep.
  { intros u Hu.
    destruct (user_identity_is_stable_step db r u Hwf Hu) as [u' [H1 [H2 _]]].
    exists u'. split; assumption. }
  destruct (step_tasks_shape db r) as [rows' [created [Hrows [Hall Hcreated]]]].
  rewrite Hrows in Hin. apply in_app_or in Hin. destruct Hin as [Hin|Hin].
  - destruct (Forall2_in_right _ _ _ _ Hall Hin) as [x [Hx Hr]].
    destruct (IH x Hx) as [u [Hu Hc]]. destruct (Hkeep u Hu) as [u' [Hu' Hid]].
    exists u'. split; [exact Hu'|].
    destruct Hr as [->|Htr]; [congruence|].
    pose proof (task_transition_frame x t Htr) as [_ [F _]]. congruence.
  - destruct Hcreated as [->|[t0 [u [-> [Hu [_ [Hc _]]]]]]]; [contradiction|].
    destruct Hin as [<-|[]]. destruct (Hkeep u Hu) as [u' [Hu' Hid]].
    exists u'. split; [exact Hu' | congruence].
Qed.

End UserRows.

Lemma task_changes_by_transitions_witness :
  exists task',
    task_by_id
      (step (L := ref_lib) (C := ref_config) (ex_db TODO None false)
         (PATCH_task 1 (only_status IN_PROGRESS) (signed "7"))) 1
    = Ok (Some task')
    /\ (task' = ex_task TODO None false
        \/ task_transition (ex_task TODO None false) task').
Proof.
  exact (task_changes_by_transitions (L := ref_lib) (C := ref_config)
           (ex_db TODO None false)
           (PATCH_task 1 (only_status IN_PROGRESS) (signed "7")) 1
           (ex_task TODO None false) eq_refl eq_refl).
Defined.

Lemma ex_history_locked_reachable :
  reachable_by (L := ref_lib) (C := ref_config) (fun _ => true)
    (ex_db IN_PROGRESS None true).
Proof.
  change (ex_db IN_PROGRESS None true)
    with (steps (L := ref_lib) (C := ref_config) empty_db ex_history_locked).
  apply reachable_by_steps; [apply reachable_start | reflexivity].
Qed.

Lemma locked_task_is_not_disputed_witness :
  Task.status (ex_task IN_PROGRESS None true) <> Some DISPUTED.
Proof.
  apply (locked_task_is_not_disputed (L := ref_lib) (C := ref_config) (fun _ => true)
           (ex_db IN_PROGRESS None true) ex_history_locked_reachable
           (ex_task IN_PROGRESS None true)).
  - left. reflexivity.
  - reflexivity.
Defined.

Lemma task_is_never_reassigned_or_unlocked_witness :
  exists t',
    In t' (tasks (steps (L := ref_lib) (C := ref_config) (ex_db IN_PROGRESS None true)
                    [ PATCH_task 1
                        (TaskUpdate.mk (Given (Some DONE)) (Given (Some (str "New")))
                           Unset Unset Unset)
                        (signed "8");
                      PATCH_task 1 (only_status DISPUTED) (signed "7") ]))
    /\ Task.id t' = 1
    /\ Task.creator_id t' = 1
    /\ Task.assignee_id t' = 2
    /\ Task.created_at t' = 0
    /\ (true = true -> Task.is_locked t' = true).
Proof.
  refine (task_is_never_reassigned_or_unlocked (L := ref_lib) (C := ref_config)
            (ex_db IN_PROGRESS None true) _ (ex_task IN_PROGRESS None true) _).
  left. reflexivity.
Defined.

Lemma user_identity_is_stable_witness :
  exists u',
    In u' (users (steps (L := ref_lib) (C := ref_config) (ex_db TODO None false)
                    [ POST_auth (signed_data "7,Anna,Lee");
                      PATCH_user_role 2 ADMIN (signed "1") ]))
    /\ User.id u' = 2
    /\ User.telegram_id u' = 7.
Proof.
  refine (user_identity_is_stable (L := ref_lib) (C := ref_config)
            (ex_db TODO None false) _ (User.mk 2 7 (str "Ann Lee") WORKER) eq_refl _).
  right. left. reflexivity.
Defined.

Lemma ex_history_reachable :
  reachable_by (L := ref_lib) (C := ref_config) (fun _ => true) (ex_db TODO None false).
Proof.
  change (ex_db TODO None false)
    with (steps (L := ref_lib) (C := ref_config) empty_db ex_history).
  apply reachable_by_steps; [apply reachable_start | reflexivity].
Qed.

Lemma owner_identity_has_owner_role_witness :
  User.role (User.mk 1 1 (str "Olga") OWNER) = OWNER.
Proof.
  apply (owner_identity_has_owner_role (L := ref_lib) (C := ref_config) (fun _ => true)
           (ex_db TODO None false) ex_history_reachable).
  - left. reflexivity.
  - reflexivity.
Defined.

Lemma role_changes_only_by_owner_witness :
  exists u',
    In u' (users (step (L := ref_lib) (C := ref_config) (ex_db TODO None false)
                    (PATCH_user_role 2 ADMIN (signed "1"))))
    /\ User.id u' = 2
    /\ User.telegram_id u' = 7
    /\ (User.role u' = WORKER
        \/ exists role_data init_data tg_user,
             PATCH_user_role 2 ADMIN (signed "1")
             = PATCH_user_role 2 role_data init_data
             /\ validate_telegram_data (L := ref_lib) init_data (str "123:abc")
                = Ok tg_user
             /\ TgUser.id tg_user = 1
             /\ User.role u' = role_data).
Proof.
  refine (role_changes_only_by_owner (L := ref_lib) (C := ref_config)
            (ex_db TODO None false) (PATCH_user_role 2 ADMIN (signed "1"))
            (User.mk 2 7 (str "Ann Lee") WORKER) eq_refl _ _).
  - right. left. reflexivity.
  - discriminate.
Defined.

Lemma task_creator_is_stored_witness :
  exists u, In u ex_users /\ User.id u = 1.
Proof.
  apply (task_creator_is_stored (L := ref_lib) (C := ref_config) (fun _ => true)
           (ex_db TODO None false) ex_history_reachable (ex_task TODO None false)).
  left. reflexivity.
Defined.

(** A task whose assignee is no stored user is created all the same. *)
Example create_task_unknown_assignee :
  tasks (step (L := ref_lib) (C := ref_config) (mkDB ex_users [])
           (POST_tasks (TaskCreate.mk (str "T") (Some []) 77 None) (signed "1") 0))
  = [Task.mk 1 (Some (str "T")) (Some []) (Some TODO) None false 1 77 None 0]
  /\ user_by_id (mkDB ex_users []) 77 = Ok None.
Proof. split; reflexivity. Qed.

(* ------------------------------------------------------------------ *)
(** * Sorting *)

Section SortedLists.
Context {A : Type} (leb : A -> A -> bool).
Hypothesis leb_total : forall x y, leb x y = true \/ leb y x = true.
Hypothesis leb_trans : forall x y z, leb x y = true -> leb y z = true -> leb x z = true.

Lemma insert_sorted_in (x y : A) (l : list A) :
  In y (insert_sorted leb x l) -> y = x \/ In y l.
Proof.
  intro H. apply (Permutation_in _ (insert_sorted_perm leb x l)) in H.
  destruct H as [<-|H]; [left; reflexivity | right; exact H].
Qed.

Lemma insert_sorted_sorted (x : A) (l : list A) :
  StronglySorted (fun a b => leb a b = true) l ->
  StronglySorted (fun a b => leb a b = true) (insert_sorted leb x l).
Proof.
  intro H. induction H as [|y l Hl IH Hy]; simpl.
  - constructor; constructor.
  - destruct (leb x y) eqn:E.
    + constructor; [constructor; assumption|].
      constructor; [exact E|].
      rewrite Forall_forall in Hy |- *. intros z Hz.
      apply (leb_trans x y z); [exact E | apply Hy; exact Hz].
    + constructor; [exact IH|].
      rewrite Forall_forall in Hy |- *. intros z Hz.
      apply insert_sorted_in in Hz. destruct Hz as [->|Hz]; [|apply Hy; exact Hz].
      destruct (leb_total x y) as [F|F]; [congruence | exact F].
Qed.

Lemma sorted_is_sorted (l : list A) :
  StronglySorted (fun a b => leb a b = true) (sorted leb l).
Proof.
  induction l as [|x l IH]; simpl; [constructor|].
  apply insert_sorted_sorted. exact IH.
Qed.

Hypothesis leb_antisym : forall x y, leb x y = true -> leb y x = true -> x = y.

Lemma sorted_lists_unique (l l' : list A) :
  StronglySorted (fun a b => leb a b = true) l ->
  StronglySorted (fun a b => leb a b = true) l' ->
  Permutation l l' ->
  l = l'.
Proof.
  intro H. revert l'. induction H as [|x l Hl IH Hx]; intros l' H' Hp.
  - apply Permutation_nil in Hp. symmetry. exact Hp.
  - destruct H' as [|y l' Hl' Hy].
    + apply Permutation_sym, Permutation_nil in Hp. discriminate.
    + assert (x = y) as ->.
      { rewrite Forall_forall in Hx, Hy.
        assert (In x (y :: l')) as Hxin
            by (apply (Permutation_in _ Hp); left; reflexivity).
        assert (In y (x :: l)) as Hyin
            by (apply (Permutation_in _ (Permutation_sym Hp)); left; reflexivity).
        destruct Hxin as [E|Hxin]; [symmetry; exact E|].
        destruct Hyin as [E|Hyin]; [exact E|].
        apply leb_antisym; [apply Hx; exact Hyin | apply Hy; exact Hxin]. }
      f_equal. apply IH; [exact Hl'|]. exact (Permutation_cons_inv Hp).
Qed.

(** Sorting forgets the order of its input. *)
Lemma sorted_of_permutation (l l' : list A) :
  Permutation l l' -> sorted leb l = sorted leb l'.
Proof.
  intro Hp. apply sorted_lists_unique; try apply sorted_is_sorted.
  apply Permutation_trans with l; [apply sorted_perm|].
  apply Permutation_trans with l'; [exact Hp|].
  apply Permutation_sym, sorted_perm.
Qed.

End SortedLists.

Section Comparisons.
Context {A : Type} (cmp : A -> A -> comparison).
Hypothesis cmp_eq : forall a b, cmp a b = Eq <-> a = b.
Hypothesis cmp_antisym : forall a b, cmp b a = CompOpp (cmp a b).
Hypothesis cmp_trans : forall a b c, cmp a b = Lt -> cmp b c = Lt -> cmp a c = Lt.

Lemma leb_of_total a b : leb_of cmp a b = true \/ leb_of cmp b a = true.
Proof.
  unfold leb_of. rewrite (cmp_antisym a b). destruct (cmp a b); simpl; auto.
Qed.

Lemma leb_of_antisym a b : leb_of cmp a b = true -> leb_of cmp b a = true -> a = b.
Proof.
  unfold leb_of. rewrite (cmp_antisym a b).
  destruct (cmp a b) eqn:E; simpl; intros H1 H2; try discriminate.
  apply cmp_eq. exact E.
Qed.

Lemma leb_of_trans a b c :
  leb_of cmp a b = true -> leb_of cmp b c = true -> leb_of cmp a c = true.
Proof.
  unfold leb_of.
  destruct (cmp a b) eqn:E1; intro H1; try discriminate;
    destruct (cmp b c) eqn:E2; intro H2; try discriminate.
  - apply cmp_eq in E1. subst b. rewrite E2. reflexivity.
  - apply cmp_eq in E1. subst b. rewrite E2. reflexivity.
  - apply cmp_eq in E2. subst c. rewrite E1. reflexivity.
  - rewrite (cmp_trans a b c E1 E2). reflexivity.
Qed.

End Comparisons.

Lemma pystr_compare_eq (a b : pystr) : pystr_compare a b = Eq <-> a = b.
Proof.
  revert b. induction a as [|x a IH]; destruct b as [|y b]; simpl;
    try (split; [discriminate | discriminate]); [split; reflexivity|].
  destruct (N.compare_spec x y) as [E|E|E].
  - subst y. rewrite IH. split; [intros ->; reflexivity | intro H; congruence].
  - split; [discriminate|]. intro H. injection H as -> _. lia.
  - split; [discriminate|]. intro H. injection H as -> _. lia.
Qed.

Lemma pystr_compare_antisym (a b : pystr) :
  pystr_compare b a = CompOpp (pystr_compare a b).
Proof.
  revert b. induction a as [|x a IH]; destruct b as [|y b]; simpl; try reflexivity.
  rewrite (N.compare_antisym x y).
  destruct (N.compare x y); simpl; [apply IH | reflexivity | reflexivity].
Qed.

Lemma pystr_compare_trans (a b c : pystr) :
  pystr_compare a b = Lt -> pystr_compare b c = Lt -> pystr_compare a c = Lt.
Proof.
  revert b c. induction a as [|x a IH]; destruct b as [|y b]; destruct c as [|z c];
    simpl; try discriminate; try reflexivity.
  destruct (N.compare_spec x y) as [E1|E1|E1]; try discriminate;
    destruct (N.compare_spec y z) as [E2|E2|E2]; try discriminate; intros H1 H2.
  - subst. rewrite N.compare_refl. exact (IH b c H1 H2).
  - subst. apply N.compare_lt_iff in E2. rewrite E2. reflexivity.
  - subst. apply N.compare_lt_iff in E1. rewrite E1. reflexivity.
  - assert (x < z)%N as E by lia. apply N.compare_lt_iff in E. rewrite E. reflexivity.
Qed.

Lemma item_compare_eq (p q : pystr * pystr) : item_compare p q = Eq <-> p = q.
Proof.
  unfold item_compare. destruct p as [k v], q as [k' v']. simpl.
  destruct (pystr_compare k k') eqn:E.
  - apply pystr_compare_eq in E. subst k'. rewrite pystr_compare_eq.
    split; [intros ->; reflexivity | intro H; congruence].
  - split; [discriminate|]. intro H. injection H as -> _.
    assert (pystr_compare k' k' = Eq) by (apply pystr_compare_eq; reflexivity).
    congruence.
  - split; [discriminate|]. intro H. injection H as -> _.
    assert (pystr_compare k' k' = Eq) by (apply pystr_compare_eq; reflexivity).
    congruence.
Qed.

Lemma item_compare_antisym (p q : pystr * pystr) :
  item_compare q p = CompOpp (item_compare p q).
Proof.
  unfold item_compare. rewrite (pystr_compare_antisym (fst p) (fst q)).
  destruct (pystr_compare (fst p) (fst q)); simpl;
    [apply pystr_compare_antisym | reflexivity | reflexivity].
Qed.

Lemma item_compare_trans (p q r : pystr * pystr) :
  item_compare p q = Lt -> item_compare q r = Lt -> item_compare p r = Lt.
Proof.
  unfold item_compare.
  destruct (pystr_compare (fst p) (fst q)) eqn:E1; try discriminate;
    destruct (pystr_compare (fst q) (fst r)) eqn:E2; try discriminate; intros H1 H2.
  - apply pystr_compare_eq in E1. apply pystr_compare_eq in E2.
    rewrite E1, E2.
    assert (pystr_compare (fst r) (fst r) = Eq) as -> by (apply pystr_compare_eq; reflexivity).
    exact (pystr_compare_trans _ _ _ H1 H2).
  - apply pystr_compare_eq in E1. rewrite E1, E2. reflexivity.
  - apply pystr_compare_eq in E2. rewrite <- E2, E1. reflexivity.
  - rewrite (pystr_compare_trans _ _ _ E1 E2). reflexivity.
Qed.

Lemma item_leb_leb_of (p q : pystr * pystr) : item_leb p q = leb_of item_compare p q.
Proof.
  unfold item_leb, leb_of, item_compare.
  destruct (pystr_compare (fst p) (fst q)); reflexivity.
Qed.

(** The items of a dictionary sort the same way in whatever order they were
    inserted. *)
Lemma sorted_items_of_permutation (d d' : pydict) :
  Permutation d d' -> sorted item_leb d = sorted item_leb d'.
Proof.
  apply sorted_of_permutation.
  - intros x y. rewrite !item_leb_leb_of.
    apply (leb_of_total item_compare item_compare_antisym).
  - intros x y z. rewrite !item_leb_leb_of.
    apply (leb_of_trans item_compare item_compare_eq item_compare_trans).
  - intros x y. rewrite !item_leb_leb_of.
    apply (leb_of_antisym item_compare item_compare_eq item_compare_antisym).
Qed.

(* ------------------------------------------------------------------ *)
(** * The parsed data as a dictionary *)

Lemma pystr_eqb_refl (k : pystr) : pystr_eqb k k = true.
Proof. apply pystr_eqb_eq. reflexivity. Qed.

Lemma pystr_eqb_neq (k k' : pystr) : k <> k' -> pystr_eqb k k' = false.
Proof.
  intro H. destruct (pystr_eqb k k') eqn:E; [|reflexivity].
  apply pystr_eqb_eq in E. contradiction.
Qed.

Lemma dict_get_set_same (d : pydict) (k v : pystr) :
  dict_get (dict_set d k v) k = Some v.
Proof.
  induction d as [|[k' v'] d IH]; simpl.
  - rewrite pystr_eqb_refl. reflexivity.
  - destruct (pystr_eqb k' k) eqn:E; simpl; rewrite E; [reflexivity | exact IH].
Qed.

Lemma dict_get_set_other (d : pydict) (k k' v : pystr) :
  k <> k' -> dict_get (dict_set d k v) k' = dict_get d k'.
Proof.
  intro Hne. induction d as [|[a b] d IH]; simpl.
  - rewrite (pystr_eqb_neq k k' Hne). reflexivity.
  - destruct (pystr_eqb a k) eqn:E; simpl.
    + apply pystr_eqb_eq in E. subst a. rewrite (pystr_eqb_neq k k' Hne). reflexivity.
    + rewrite IH. reflexivity.
Qed.

Lemma dict_get_fold_other (pairs : list (pystr * pystr)) (d : pydict) (k : pystr) :
  ~ In k (map fst pairs) ->
  dict_get (fold_left (fun d kv => dict_set d (fst kv) (snd kv)) pairs d) k
  = dict_get d k.
Proof.
  revert d. induction pairs as [|[a b] pairs IH]; intros d Hn; simpl; [reflexivity|].
  rewrite IH by (intro H; apply Hn; right; exact H).
  apply dict_get_set_other. intro E. apply Hn. left. exact E.
Qed.

Lemma dict_set_fresh (d : pydict) (k v : pystr) :
  ~ In k (map fst d) -> dict_set d k v = d ++ [(k, v)].
Proof.
  induction d as [|[a b] d IH]; simpl; intro Hn; [reflexivity|].
  rewrite pystr_eqb_neq by (intro E; apply Hn; left; exact E).
  rewrite IH by (intro H; apply Hn; right; exact H). reflexivity.
Qed.

Lemma dict_fold_nodup (pairs : list (pystr * pystr)) (d : pydict) :
  NoDup (map fst (d ++ pairs)) ->
  fold_left (fun d kv => dict_set d (fst kv) (snd kv)) pairs d = d ++ pairs.
Proof.
  revert d. induction pairs as [|[k v] pairs IH]; intros d Hnd; simpl.
  - rewrite app_nil_r. reflexivity.
  - assert (~ In k (map fst d)) as Hfresh.
    { rewrite map_app in Hnd. simpl in Hnd. apply NoDup_remove_2 in Hnd.
      intro H. apply Hnd. apply in_or_app. left. exact H. }
    rewrite (dict_set_fresh d k v Hfresh).
    rewrite IH; rewrite <- app_assoc; [reflexivity | exact Hnd].
Qed.

(** With no field repeated, the dictionary is the list of the fields. *)
Lemma dict_of_pairs_nodup (pairs : list (pystr * pystr)) :
  NoDup (map fst pairs) -> dict_of_pairs pairs = pairs.
Proof. intro H. exact (dict_fold_nodup pairs [] H). Qed.

Lemma dict_get_in (d : pydict) (k v : pystr) :
  dict_get d k = Some v -> In (k, v) d.
Proof.
  induction d as [|[a b] d IH]; simpl; [discriminate|].
  destruct (pystr_eqb a k) eqn:E.
  - apply pystr_eqb_eq in E. intro H. left. congruence.
  - intro H. right. exact (IH H).
Qed.

Lemma in_dict_get (d : pydict) (k v : pystr) :
  NoDup (map fst d) -> In (k, v) d -> dict_get d k = Some v.
Proof.
  induction d as [|[a b] d IH]; simpl; intros Hnd Hin; [contradiction|].
  inversion Hnd as [|? ? Ha Hd]; subst.
  destruct Hin as [E|Hin].
  - injection E as -> ->. rewrite pystr_eqb_refl. reflexivity.
  - destruct (pystr_eqb a k) eqn:E; [|exact (IH Hd Hin)].
    apply pystr_eqb_eq in E. subst a. exfalso. apply Ha.
    apply (in_map fst) in Hin. exact Hin.
Qed.

Lemma dict_get_of_permutation (d d' : pydict) (k : pystr) :
  NoDup (map fst d) -> Permutation d d' -> dict_get d k = dict_get d' k.
Proof.
  intros Hnd Hp.
  assert (NoDup (map fst d')) as Hnd'.
  { apply (Permutation_NoDup (Permutation_map fst Hp)). exact Hnd. }
  destruct (dict_get d k) as [v|] eqn:E.
  - symmetry. apply in_dict_get; [exact Hnd'|].
    apply (Permutation_in _ Hp). apply dict_get_in. exact E.
  - destruct (dict_get d' k) as [v'|] eqn:E'; [|reflexivity].
    apply dict_get_in in E'. apply (Permutation_in _ (Permutation_sym Hp)) in E'.
    rewrite (in_dict_get d k v' Hnd E') in E. discriminate.
Qed.

Lemma filter_of_permutation {A : Type} (p : A -> bool) (l l' : list A) :
  Permutation l l' -> Permutation (filter p l) (filter p l').
Proof.
  intro H. induction H as [|x l l' _ IH|x y l|l l' l'' _ IH1 _ IH2]; simpl.
  - constructor.
  - destruct (p x); [constructor|]; exact IH.
  - destruct (p x), (p y); try apply Permutation_refl. apply perm_swap.
  - exact (Permutation_trans IH1 IH2).
Qed.

Lemma dict_get_last_pair (before after : list (pystr * pystr)) (k v : pystr) :
  ~ In k (map fst after) ->
  dict_get (dict_of_pairs (before ++ (k, v) :: after)) k = Some v.
Proof.
  intro Hn. unfold dict_of_pairs. rewrite fold_left_app. simpl.
  rewrite dict_get_fold_other by exact Hn. apply dict_get_set_same.
Qed.

(** Two dictionaries with the same keys in the same order, and the same
    values but under the key [k]. *)
Lemma dict_set_agree (k : pystr) (d d' : pydict) (a v v' : pystr) :
  Forall2 (fun p q => fst p = fst q /\ (fst p <> k -> snd p = snd q)) d d' ->
  (a <> k -> v = v') ->
  Forall2 (fun p q => fst p = fst q /\ (fst p <> k -> snd p = snd q))
    (dict_set d a v) (dict_set d' a v').
Proof.
  intros H Hv. induction H as [|[k1 v1] [k2 v2] d d' [Hk Hval] Hrest IH]; simpl.
  - constructor; [|constructor]. split; [reflexivity | exact Hv].
  - simpl in Hk, Hval. subst k2. destruct (pystr_eqb k1 a) eqn:E.
    + constructor; [|exact Hrest]. split; [reflexivity|]. simpl. intro Hne.
      apply Hv. apply pystr_eqb_eq in E. congruence.
    + constructor; [|exact IH]. split; [reflexivity | exact Hval].
Qed.

Lemma dict_fold_agree (k : pystr) (pairs : list (pystr * pystr)) (d d' : pydict) :
  Forall2 (fun p q => fst p = fst q /\ (fst p <> k -> snd p = snd q)) d d' ->
  Forall2 (fun p q => fst p = fst q /\ (fst p <> k -> snd p = snd q))
    (fold_left (fun d kv => dict_set d (fst kv) (snd kv)) pairs d)
    (fold_left (fun d kv => dict_set d (fst kv) (snd kv)) pairs d').
Proof.
  revert d d'. induction pairs as [|[a v] pairs IH]; intros d d' H; simpl;
    [exact H|].
  apply IH. apply dict_set_agree; [exact H | reflexivity].
Qed.

Lemma dict_filter_agree (k : pystr) (d d' : pydict) :
  Forall2 (fun p q => fst p = fst q /\ (fst p <> k -> snd p = snd q)) d d' ->
  filter (fun kv => negb (pystr_eqb (fst kv) k)) d
  = filter (fun kv => negb (pystr_eqb (fst kv) k)) d'.
Proof.
  intro H. induction H as [|[k1 v1] [k2 v2] d d' [Hk Hval] _ IH]; simpl;
    [reflexivity|].
  simpl in Hk, Hval. subst k2. destruct (pystr_eqb k1 k) eqn:E; simpl; [exact IH|].
  rewrite IH, Hval; [reflexivity|]. intro Heq. subst k1.
  rewrite pystr_eqb_refl in E. discriminate.
Qed.

(** The fields other than [k] do not depend on the value given for [k]. *)
Lemma dict_other_fields (before after : list (pystr * pystr)) (k v v' : pystr) :
  filter (fun kv => negb (pystr_eqb (fst kv) k))
    (dict_of_pairs (before ++ (k, v) :: after))
  = filter (fun kv => negb (pystr_eqb (fst kv) k))
      (dict_of_pairs (before ++ (k, v') :: after)).
Proof.
  apply dict_filter_agree. unfold dict_of_pairs. rewrite !fold_left_app. simpl.
  apply dict_fold_agree. apply dict_set_agree.
  - apply Forall2_same. intro p. split; [reflexivity | intros _; reflexivity].
  - intro H. contradiction.
Qed.

Section VerifierProperties.
Context {L : PyLib}.

(** The steps of an accepted verification, in order. *)
Lemma validate_telegram_data_accepts (init_data : option pystr) (bot_token : pystr)
  (tg_user : TgUser.t) :
  validate_telegram_data init_data bot_token = Ok tg_user
  <-> exists pairs hash_val parsed_data token_bytes check_bytes user,
        parse_qsl init_data = Ok pairs
        /\ dict_pop (dict_of_pairs pairs) (str "hash") = Ok (hash_val, parsed_data)
        /\ encode bot_token = Ok token_bytes
        /\ encode (check_string parsed_data) = Ok check_bytes
        /\ hex (hmac_sha256 (hmac_sha256 (str "WebAppData") token_bytes) check_bytes)
           = hash_val
        /\ dict_get parsed_data (str "user") = Some user
        /\ json_loads user = Ok tg_user.
Proof.
  rewrite validate_cases. unfold validate_try. split.
  - destruct (parse_qsl init_data) as [pairs|e] eqn:Hp; simpl; [|discriminate].
    destruct (dict_pop (dict_of_pairs pairs) (str "hash")) as [[h pd]|e] eqn:Hpop;
      simpl; [|discriminate].
    destruct (encode bot_token) as [tb|e] eqn:Ht; simpl; [|discriminate].
    destruct (encode (check_string pd)) as [cb|e] eqn:Hc; simpl; [|discriminate].
    destruct (pystr_eqb _ h) eqn:E; simpl; [|discriminate].
    unfold dict_getitem.
    destruct (dict_get pd (str "user")) as [u|] eqn:Hu; simpl; [|discriminate].
    destruct (json_loads u) as [c|e] eqn:Hj; [|discriminate].
    intro H. injection H as <-. apply pystr_eqb_eq in E.
    exists pairs, h, pd, tb, cb, u. repeat split; assumption.
  - intros [pairs [h [pd [tb [cb [u [Hp [Hpop [Ht [Hc [Hh [Hu Hj]]]]]]]]]]]].
    rewrite Hp. simpl. rewrite Hpop. simpl. rewrite Ht. simpl. rewrite Hc. simpl.
    rewrite Hh, pystr_eqb_refl. simpl. unfold dict_getitem. rewrite Hu. simpl.
    rewrite Hj. reflexivity.
Qed.

(** X19. The order of the fields does not matter: two inputs whose parsed
    fields are the same up to order, no field repeated, are both accepted
    with the same claim or both refused. *)
Theorem validate_telegram_data_field_order (init_data init_data' : option pystr)
  (bot_token : pystr) (pairs pairs' : list (pystr * pystr)) :
  parse_qsl init_data = Ok pairs ->
  parse_qsl init_data' = Ok pairs' ->
  NoDup (map fst pairs) ->
  Permutation pairs pairs' ->
  validate_telegram_data init_data bot_token
  = validate_telegram_data init_data' bot_token.
Proof.
  intros Hp Hp' Hnd Hperm.
  assert (NoDup (map fst pairs')) as Hnd'.
  { apply (Permutation_NoDup (Permutation_map fst Hperm)). exact Hnd. }
  rewrite !validate_cases. unfold validate_try. rewrite Hp, Hp'. simpl.
  rewrite (dict_of_pairs_nodup pairs Hnd), (dict_of_pairs_nodup pairs' Hnd').
  unfold dict_pop. rewrite <- (dict_get_of_permutation pairs pairs' _ Hnd Hperm).
  destruct (dict_get pairs (str "hash")) as [h|]; simpl; [|reflexivity].
  unfold check_string.
  rewrite (sorted_items_of_permutation _ _
             (filter_of_permutation
                (fun kv => negb (pystr_eqb (fst kv) (str "hash"))) _ _ Hperm)).
  destruct (encode bot_token) as [tb|]; simpl; [|reflexivity].
  destruct (encode _) as [cb|]; simpl; [|reflexivity].
  destruct (negb _); simpl; [reflexivity|].
  unfold dict_getitem. rewrite !dict_get_filter_other by reflexivity.
  rewrite <- (dict_get_of_permutation pairs pairs' _ Hnd Hperm). reflexivity.
Qed.


End VerifierProperties.

(** X20. A field repeated in the signed data takes its last value: in the
    dictionary built from the parsed pairs, a key is bound to the value of
    its last pair (so of two ['hash'] fields the second is the one compared). *)
Theorem dict_of_pairs_last_wins (before after : list (pystr * pystr)) (k v : pystr) :
  ~ In k (map fst after) ->
  dict_get (dict_of_pairs (before ++ (k, v) :: after)) k = Some v.
Proof.
  intro Hn. unfold dict_of_pairs. rewrite fold_left_app. simpl.
  rewrite dict_get_fold_other by exact Hn. apply dict_get_set_same.
Qed.


Lemma validate_telegram_data_field_order_witness :
  validate_telegram_data (L := ref_lib) (Some (str "user=7,Ann,Lee&hash=00"))
    (str "123:abc")
  = validate_telegram_data (L := ref_lib) (Some (str "hash=00&user=7,Ann,Lee"))
      (str "123:abc").
Proof.
  refine (validate_telegram_data_field_order (L := ref_lib)
            (Some (str "user=7,Ann,Lee&hash=00")) (Some (str "hash=00&user=7,Ann,Lee"))
            (str "123:abc")
            [(str "user", str "7,Ann,Lee"); (str "hash", str "00")]
            [(str "hash", str "00"); (str "user", str "7,Ann,Lee")]
            eq_refl eq_refl _ _).
  - repeat constructor; simpl; intuition discriminate.
  - apply perm_swap.
Defined.

Lemma dict_of_pairs_last_wins_witness :
  dict_get
    (dict_of_pairs
       ([(str "hash", str "00")] ++ (str "hash", str "ff") :: [(str "user", str "7")]))
    (str "hash")
  = Some (str "ff").
Proof.
  refine (dict_of_pairs_last_wins [(str "hash", str "00")] [(str "user", str "7")]
            (str "hash") (str "ff") _).
  simpl. intros [H|[]]. discriminate.
Defined.

(* ------------------------------------------------------------------ *)
(** * The display name *)

Lemma lstrip_head (s : pystr) (c : N) :
  hd_error (lstrip s) = Some c -> py_isspace c = false.
Proof.
  induction s as [|x s IH]; simpl; [discriminate|].
  destruct (py_isspace x) eqn:E; [exact IH|]. simpl. intro H. congruence.
Qed.

Lemma lstrip_suffix (s : pystr) : exists p, s = p ++ lstrip s.
Proof.
  induction s as [|x s [p IH]]; simpl; [exists []; reflexivity|].
  destruct (py_isspace x).
  - exists (x :: p). simpl. f_equal. exact IH.
  - exists []. reflexivity.
Qed.

Lemma strip_ends (s : pystr) (c : N) :
  hd_error (strip s) = Some c \/ hd_error (rev (strip s)) = Some c ->
  py_isspace c = false.
Proof.
  unfold strip. rewrite rev_involutive.
  intros [H|H]; [|exact (lstrip_head _ _ H)].
  destruct (lstrip_suffix (rev (lstrip s))) as [p Hp].
  assert (lstrip s = rev (lstrip (rev (lstrip s))) ++ rev p) as E.
  { rewrite <- rev_app_distr, <- Hp, rev_involutive. reflexivity. }
  apply (lstrip_head s). rewrite E.
  destruct (rev (lstrip (rev (lstrip s)))); [discriminate | exact H].
Qed.

Section DisplayName.
Context {L : PyLib} {C : Config}.

Lemma auth_user_returns_name db initData user :
  outcome (auth_user initData) db = Ok user ->
  exists tg_user,
    validate_telegram_data (Some initData) BOT_TOKEN = Ok tg_user
    /\ User.full_name user = full_name_of tg_user.
Proof.
  unfold outcome, run, auth_user.
  destruct (validate_telegram_data (Some initData) BOT_TOKEN) as [tg_user|e];
    [rewrite bind_lift_Ok | discriminate].
  intro H. exists tg_user. split; [reflexivity|]. revert H.
  unfold bind, select_users, lift, add_user, store_user, commit, ret.
  cbn [fst snd committed pending outbox users tasks].
  branch; intro H; try discriminate; injection H as <-; reflexivity.
Qed.

(** X21. The display name [auth_user] stores and returns is the first and
    last name of the claim joined by a space and stripped: it neither begins
    nor ends with a white-space character (a missing last name leaves no
    trailing space). *)
Theorem auth_user_name_is_stripped db initData user c :
  outcome (auth_user initData) db = Ok user ->
  hd_error (User.full_name user) = Some c
  \/ hd_error (rev (User.full_name user)) = Some c ->
  py_isspace c = false.
Proof.
  intros Hok Hc. destruct (auth_user_returns_name db initData user Hok) as [tg [_ E]].
  rewrite E in Hc. unfold full_name_of in Hc. exact (strip_ends _ c Hc).
Qed.

End DisplayName.

Lemma auth_user_name_is_stripped_witness : py_isspace 65 = false.
Proof.
  refine (auth_user_name_is_stripped (L := ref_lib) (C := ref_config)
            (ex_db TODO None false) (signed_data "7,Ann")
            (User.mk 2 7 (str "Ann") WORKER) 65 eq_refl _).
  left. reflexivity.
Defined.

(* ------------------------------------------------------------------ *)
(** * The listing, for every role *)

Lemma filter_all {A : Type} (l : list A) : filter (fun _ => true) l = l.
Proof. induction l as [|x l IH]; simpl; [reflexivity | rewrite IH; reflexivity]. Qed.

Lemma deadline_leb_total (a b : Task.t) :
  deadline_leb a b = true \/ deadline_leb b a = true.
Proof.
  unfold deadline_leb. destruct (Task.deadline a), (Task.deadline b); auto.
  destruct (Z.leb_spec z z0); [left; reflexivity | right; apply Z.leb_le; lia].
Qed.

Lemma deadline_leb_trans (a b c : Task.t) :
  deadline_leb a b = true -> deadline_leb b c = true -> deadline_leb a c = true.
Proof.
  unfold deadline_leb.
  destruct (Task.deadline a), (Task.deadline b), (Task.deadline c);
    try discriminate; try reflexivity.
  rewrite !Z.leb_le. lia.
Qed.

Lemma deadline_leb_le (a b : Task.t) :
  deadline_leb a b = true -> deadline_le (Task.deadline a) (Task.deadline b).
Proof.
  unfold deadline_leb, deadline_le.
  destruct (Task.deadline a), (Task.deadline b); try discriminate; auto.
  apply Z.leb_le.
Qed.

Lemma StronglySorted_map {A B : Type} (R : B -> B -> Prop) (f : A -> B) (l : list A) :
  StronglySorted (fun x y => R (f x) (f y)) l -> StronglySorted R (map f l).
Proof.
  intro H. induction H as [|x l Hl IH Hx]; simpl; constructor; [exact IH|].
  rewrite Forall_forall in Hx |- *. intros y Hy. apply in_map_iff in Hy.
  destruct Hy as [z [<- Hz]]. apply Hx. exact Hz.
Qed.

Lemma StronglySorted_weaken {A : Type} (R R' : A -> A -> Prop) (l : list A) :
  (forall x y, R x y -> R' x y) -> StronglySorted R l -> StronglySorted R' l.
Proof.
  intros Himp H. induction H as [|x l Hl IH Hx]; constructor; [exact IH|].
  rewrite Forall_forall in Hx |- *. intros y Hy. apply Himp, Hx, Hy.
Qed.

Section ListingAll.
Context {L : PyLib} {C : Config}.

(** The listing, once the requester's row is loaded. *)
Lemma get_tasks_loaded db init_data filter_param tg_user user :
  wf_db db = true ->
  validate_telegram_data init_data BOT_TOKEN = Ok tg_user ->
  user_by_telegram_id db (TgUser.id tg_user) = Ok (Some user) ->
  run (get_tasks init_data filter_param) db
  = (Ok (map (entry_of (users db) user)
           (sorted deadline_leb (filter (listed_for user filter_param) (tasks db)))),
     db, []).
Proof.
  intros Hwf Hv Hu. pose proof (wf_db_parts db Hwf) as [Hid _].
  unfold user_by_telegram_id in Hu.
  unfold run, get_tasks. rewrite Hv, bind_lift_Ok.
  unfold bind at 1 2, select_users, lift. cbn [pending]. rewrite Hu.
  unfold listed_for.
  destruct (UserRole_eqb (User.role user) WORKER
            || opt_pystr_eqb filter_param (str "mine"));
    unfold bind, select_tasks; cbn [pending];
    rewrite task_entries_run by exact Hid; reflexivity.
Qed.

Lemma get_tasks_ok_inv db init_data filter_param entries :
  outcome (get_tasks init_data filter_param) db = Ok entries ->
  exists tg_user user,
    validate_telegram_data init_data BOT_TOKEN = Ok tg_user
    /\ user_by_telegram_id db (TgUser.id tg_user) = Ok (Some user).
Proof.
  unfold outcome, run, get_tasks, user_by_telegram_id.
  destruct (validate_telegram_data init_data BOT_TOKEN) as [tg_user|e];
    [rewrite bind_lift_Ok | discriminate].
  unfold bind at 1 2, select_users, lift. cbn [pending].
  destruct (scalar_one_or_none _) as [[user|]|e] eqn:Hs; try discriminate.
  intros _. exists tg_user, user. split; [reflexivity | exact Hs].
Qed.

(** X22. The listing for an administrator or the owner: without
    [filter=mine] it has an entry for every stored task, with [filter=mine]
    for the tasks assigned to the requester only; [is_mine] tells the
    requester's tasks apart and every entry shows the dispute reason. *)
Theorem get_tasks_privileged_listing db init_data filter_param tg_user user :
  wf_db db = true ->
  validate_telegram_data init_data BOT_TOKEN = Ok tg_user ->
  user_by_telegram_id db (TgUser.id tg_user) = Ok (Some user) ->
  User.role user <> WORKER ->
  exists entries,
    outcome (get_tasks init_data filter_param) db = Ok entries
    /\ Permutation (map TaskView.id entries)
         (map Task.id
            (if opt_pystr_eqb filter_param (str "mine")
             then filter (fun t => Task.assignee_id t =? User.id user) (tasks db)
             else tasks db))
    /\ (forall e, In e entries ->
          exists t, In t (tasks db)
                    /\ TaskView.id e = Task.id t
                    /\ TaskView.is_mine e = (Task.assignee_id t =? User.id user)
                    /\ TaskView.dispute_reason e = Task.dispute_reason t).
Proof.
  intros Hwf Hv Hu Hrole.
  pose proof (get_tasks_loaded db init_data filter_param tg_user user Hwf Hv Hu) as Hrun.
  eexists. split; [unfold outcome; rewrite Hrun; reflexivity|].
  assert (UserRole_eqb (User.role user) WORKER = false) as E.
  { destruct (User.role user); try reflexivity. congruence. }
  split.
  - rewrite map_map. cbn [entry_of TaskView.id].
    apply Permutation_map.
    apply Permutation_trans with (filter (listed_for user filter_param) (tasks db));
      [apply sorted_perm|].
    unfold listed_for. rewrite E. cbn [orb].
    destruct (opt_pystr_eqb filter_param (str "mine"));
      [|rewrite filter_all]; apply Permutation_refl.
  - intros e He. apply in_map_iff in He. destruct He as [t [<- Hin]].
    apply (Permutation_in _ (sorted_perm _ _)) in Hin. apply filter_In in Hin.
    exists t. split; [exact (proj1 Hin)|]. cbn [entry_of TaskView.id
      TaskView.is_mine TaskView.dispute_reason]. rewrite E. repeat split.
Qed.

(** X23. The listing never hides a dispute reason: in every listing that is
    returned, each entry is the entry of a stored task and carries that
    task's dispute reason (a worker is shown that worker's tasks only, so
    the redaction for other people's tasks has nothing to apply to). *)
Theorem get_tasks_shows_dispute_reason db init_data filter_param entries :
  wf_db db = true ->
  outcome (get_tasks init_data filter_param) db = Ok entries ->
  forall e, In e entries ->
    exists t, In t (tasks db)
              /\ TaskView.id e = Task.id t
              /\ TaskView.title e = Task.title t
              /\ TaskView.status e = Task.status t
              /\ TaskView.dispute_reason e = Task.dispute_reason t.
Proof.
  intros Hwf Hok e He.
  destruct (get_tasks_ok_inv db init_data filter_param entries Hok)
    as [tg_user [user [Hv Hu]]].
  pose proof (get_tasks_loaded db init_data filter_param tg_user user Hwf Hv Hu) as Hrun.
  unfold outcome in Hok. rewrite Hrun in Hok. cbn [fst] in Hok. injection Hok as <-.
  apply in_map_iff in He. destruct He as [t [<- Hin]].
  apply (Permutation_in _ (sorted_perm _ _)) in Hin. apply filter_In in Hin.
  destruct Hin as [Hin Hsel]. exists t. split; [exact Hin|].
  cbn [entry_of TaskView.id TaskView.title TaskView.status TaskView.dispute_reason].
  repeat split. unfold listed_for in Hsel.
  destruct (UserRole_eqb (User.role user) WORKER); cbn [orb negb] in Hsel |- *;
    [rewrite Hsel|]; reflexivity.
Qed.

(** X24. The listing is in the order of the deadlines, earliest first, the
    tasks without a deadline before the others. *)
Theorem get_tasks_ordered_by_deadline db init_data filter_param entries :
  wf_db db = true ->
  outcome (get_tasks init_data filter_param) db = Ok entries ->
  StronglySorted (fun a b => deadline_le (TaskView.deadline a) (TaskView.deadline b))
    entries.
Proof.
  intros Hwf Hok.
  destruct (get_tasks_ok_inv db init_data filter_param entries Hok)
    as [tg_user [user [Hv Hu]]].
  pose proof (get_tasks_loaded db init_data filter_param tg_user user Hwf Hv Hu) as Hrun.
  unfold outcome in Hok. rewrite Hrun in Hok. cbn [fst] in Hok. injection Hok as <-.
  apply StronglySorted_map. cbn [entry_of TaskView.deadline].
  apply (StronglySorted_weaken (fun a b => deadline_leb a b = true));
    [exact deadline_leb_le|].
  apply sorted_is_sorted; [exact deadline_leb_total | exact deadline_leb_trans].
Qed.

End ListingAll.

Lemma get_tasks_privileged_listing_witness :
  exists entries,
    outcome (get_tasks (L := ref_lib) (C := ref_config) (signed "8") None)
      three_tasks_db = Ok entries
    /\ Permutation (map TaskView.id entries) (map Task.id (tasks three_tasks_db))
    /\ (forall e, In e entries ->
          exists t, In t (tasks three_tasks_db)
                    /\ TaskView.id e = Task.id t
                    /\ TaskView.is_mine e = (Task.assignee_id t =? 3)
                    /\ TaskView.dispute_reason e = Task.dispute_reason t).
Proof.
  refine (get_tasks_privileged_listing (L := ref_lib) (C := ref_config) three_tasks_db
            (signed "8") None (TgUser.mk 8 None None) (User.mk 3 8 (str "Bob") ADMIN)
            eq_refl eq_refl eq_refl _).
  discriminate.
Defined.

Lemma get_tasks_shows_dispute_reason_witness :
  exists t,
    In t (tasks (ex_db DISPUTED (Some (str "blocked")) false))
    /\ 1 = Task.id t
    /\ Some (str "T1") = Task.title t
    /\ Some DISPUTED = Task.status t
    /\ Some (str "blocked") = Task.dispute_reason t.
Proof.
  refine (get_tasks_shows_dispute_reason (L := ref_lib) (C := ref_config)
            (ex_db DISPUTED (Some (str "blocked")) false) (signed "7") None _
            eq_refl eq_refl
            (TaskView.mk 1 (Some (str "T1")) (Some []) (Some DISPUTED) None
               (str "Ann Lee") true false (Some (str "blocked"))) _).
  left. reflexivity.
Defined.

Lemma get_tasks_ordered_by_deadline_witness :
  StronglySorted (fun a b => deadline_le (TaskView.deadline a) (TaskView.deadline b))
    [ TaskView.mk 2 (Some (str "T2")) (Some []) (Some TODO) (Some 10)
        (str "Cy") false false None;
      TaskView.mk 3 (Some (str "T3")) (Some []) (Some DONE) (Some 20)
        (str "Ann Lee") false false None;
      TaskView.mk 1 (Some (str "T1")) (Some []) (Some TODO) (Some 30)
        (str "Ann Lee") false false None ].
Proof.
  exact (get_tasks_ordered_by_deadline (L := ref_lib) (C := ref_config) three_tasks_db
           (signed "1") None _ eq_refl eq_refl).
Defined.

(* ------------------------------------------------------------------ *)
(** * Requests one after the other *)

Lemma replace_user_same (u : User.t) (rows : list User.t) :
  distinct (map User.id rows) = true ->
  In u rows ->
  replace_user u rows = rows.
Proof.
  intros Hd Hin. unfold replace_user.
  rewrite <- (map_id rows) at 2. apply map_ext_in. intros x Hx.
  destruct (User.id x =? User.id u) eqn:E; [|reflexivity].
  apply Z.eqb_eq in E. symmetry. apply (key_inj_in User.id rows); assumption.
Qed.

Lemma replace_user_last (u u' : User.t) (rows : list User.t) :
  ~ In (User.id u) (map User.id rows) ->
  User.id u' = User.id u ->
  replace_user u' (rows ++ [u]) = rows ++ [u'].
Proof.
  intros Hfresh Hid. unfold replace_user. rewrite map_app. simpl.
  rewrite Hid, Z.eqb_refl. f_equal.
  rewrite <- (map_id rows) at 2. apply map_ext_in. intros x Hx.
  destruct (User.id x =? User.id u) eqn:E; [|reflexivity].
  apply Z.eqb_eq in E. exfalso. apply Hfresh. rewrite <- E. apply in_map. exact Hx.
Qed.

Lemma find_app_last {A : Type} (p : A -> bool) (l : list A) (x : A) :
  find p l = None -> p x = true -> find p (l ++ [x]) = Some x.
Proof.
  induction l as [|y l IH]; simpl; intros Hn Hx; [rewrite Hx; reflexivity|].
  destruct (p y); [discriminate | exact (IH Hn Hx)].
Qed.

Section Sequences.
Context {L : PyLib} {C : Config}.

(** The stored rows after [auth_user] on verified data, in both cases. *)
Lemma auth_user_stored db initData tg_user :
  wf_db db = true ->
  validate_telegram_data (Some initData) BOT_TOKEN = Ok tg_user ->
  exists user,
    run (auth_user initData) db = (Ok user, stored (auth_user initData) db, [])
    /\ In user (users (stored (auth_user initData) db))
    /\ User.telegram_id user = TgUser.id tg_user
    /\ User.full_name user = full_name_of tg_user
    /\ (TgUser.id tg_user = OWNER_ID -> User.role user = OWNER).
Proof.
  intros Hwf Hv.
  destruct (find (fun u => User.telegram_id u =? TgUser.id tg_user) (users db))
    as [user0|] eqn:Hfind.
  - pose proof (auth_user_returning db initData tg_user user0 Hwf Hv Hfind) as Hrun.
    cbv zeta in Hrun. unfold stored. rewrite Hrun. cbn [fst snd users].
    apply find_some in Hfind. destruct Hfind as [Hin Hk]. apply Z.eqb_eq in Hk.
    eexists. split; [reflexivity|]. cbn [User.telegram_id User.full_name User.role].
    repeat split; [|exact Hk|].
    + unfold replace_user. apply in_map_iff. exists user0.
      split; [|exact Hin]. cbn [User.id]. rewrite Z.eqb_refl. reflexivity.
    + intro E. apply Z.eqb_eq in E. rewrite E. reflexivity.
  - pose proof (auth_user_new db initData tg_user Hwf Hv Hfind) as Hrun.
    cbv zeta in Hrun. unfold stored. rewrite Hrun. cbn [fst snd users].
    eexists. split; [reflexivity|]. cbn [User.telegram_id User.full_name User.role].
    repeat split.
    + apply in_or_app. right. left. reflexivity.
    + intro E. apply Z.eqb_eq in E. rewrite E. reflexivity.
Qed.

(** X25. Signing in twice is signing in once: a second [auth_user] with the
    same data returns the row the first one returned and leaves the stored
    rows as the first one left them. *)
Theorem auth_user_idempotent db initData tg_user :
  wf_db db = true ->
  validate_telegram_data (Some initData) BOT_TOKEN = Ok tg_user ->
  outcome (auth_user initData) (stored (auth_user initData) db)
  = outcome (auth_user initData) db
  /\ stored (auth_user initData) (stored (auth_user initData) db)
     = stored (auth_user initData) db.
Proof.
  intros Hwf Hv.
  destruct (auth_user_stored db initData tg_user Hwf Hv)
    as [user [Hrun [Hin [Htg [Hname Hrole]]]]].
  pose proof (auth_user_wf db initData Hwf) as Hwf1.
  pose proof (wf_db_parts _ Hwf1) as [Hid1 [Htg1 _]].
  set (db1 := stored (auth_user initData) db) in *.
  assert (find (fun u => User.telegram_id u =? TgUser.id tg_user) (users db1)
          = Some user) as Hfind.
  { rewrite <- Htg. apply (find_by_key User.telegram_id); assumption. }
  pose proof (auth_user_returning db1 initData tg_user user Hwf1 Hv Hfind) as Hrun1.
  cbv zeta in Hrun1.
  assert (User.mk (User.id user) (User.telegram_id user) (full_name_of tg_user)
            (if TgUser.id tg_user =? OWNER_ID then OWNER else User.role user) = user)
    as Hsame.
  { destruct user as [i t n r]. cbn in *. subst n.
    destruct (TgUser.id tg_user =? OWNER_ID) eqn:E; [|reflexivity].
    apply Z.eqb_eq in E. rewrite (Hrole E). reflexivity. }
  rewrite Hsame in Hrun1.
  rewrite (replace_user_same user (users db1) Hid1 Hin) in Hrun1.
  assert (mkDB (users db1) (tasks db1) = db1) as Heta by (destruct db1; reflexivity).
  rewrite Heta in Hrun1. split.
  - unfold outcome. rewrite Hrun1, Hrun. reflexivity.
  - change (stored (auth_user initData) db1)
      with (snd (fst (run (auth_user initData) db1))).
    rewrite Hrun1. reflexivity.
Qed.

(** X26. After a sign-in the listing works: once [auth_user] has run on
    verified data whose identity is an integer of the signed 64-bit range,
    [get_tasks] with the same data returns a list, where before it could end
    in [AttributeError] for want of a row. *)
Theorem get_tasks_after_auth_user db initData filter_param tg_user :
  wf_db db = true ->
  validate_telegram_data (Some initData) BOT_TOKEN = Ok tg_user ->
  int64 (TgUser.id tg_user) = true ->
  exists entries,
    outcome (get_tasks (Some initData) filter_param) (stored (auth_user initData) db)
    = Ok entries.
Proof.
  intros Hwf Hv _.
  destruct (auth_user_stored db initData tg_user Hwf Hv)
    as [user [_ [Hin [Htg _]]]].
  pose proof (auth_user_wf db initData Hwf) as Hwf1.
  pose proof (wf_db_parts _ Hwf1) as [_ [Htg1 _]].
  assert (user_by_telegram_id (stored (auth_user initData) db) (TgUser.id tg_user)
          = Ok (Some user)) as Hu.
  { unfold user_by_telegram_id. rewrite (scalar_by_key User.telegram_id) by exact Htg1.
    rewrite <- Htg. rewrite find_by_key; [reflexivity | exact Htg1 | exact Hin]. }
  pose proof (get_tasks_loaded _ (Some initData) filter_param tg_user user Hwf1 Hv Hu)
    as Hrun.
  eexists. unfold outcome. rewrite Hrun. reflexivity.
Qed.

(** X27. The start command before a sign-in changes nothing in the end:
    [auth_user] after [cmd_start] for the same identity leaves the rows that
    [auth_user] alone leaves, whatever name the bot library gave. *)
Theorem auth_user_after_cmd_start db initData tg_user from_user :
  wf_db db = true ->
  validate_telegram_data (Some initData) BOT_TOKEN = Ok tg_user ->
  FromUser.id from_user = TgUser.id tg_user ->
  stored (auth_user initData) (stored (cmd_start from_user) db)
  = stored (auth_user initData) db.
Proof.
  intros Hwf Hv Hid. pose proof (wf_db_parts db Hwf) as [Hids [Htg _]].
  destruct (find (fun u => User.telegram_id u =? FromUser.id from_user) (users db))
    as [user0|] eqn:Hfind.
  - replace (stored (cmd_start from_user) db) with db; [reflexivity|].
    unfold stored, run, cmd_start, bind at 1 2 3, lift, select_users. simpl.
    rewrite (scalar_by_key User.telegram_id) by exact Htg. rewrite Hfind. reflexivity.
  - pose proof (cmd_start_wf db from_user Hwf) as Hwf1.
    rewrite (cmd_start_new db from_user Hwf Hfind) in Hwf1 |- *.
    set (u1 := User.mk (next_id (map User.id (users db))) (FromUser.id from_user)
                 (FromUser.full_name from_user)
                 (if FromUser.id from_user =? OWNER_ID then OWNER else WORKER)) in *.
    assert (find (fun u => User.telegram_id u =? TgUser.id tg_user) (users db ++ [u1])
            = Some u1) as Hfind1.
    { apply find_app_last; [rewrite <- Hid; exact Hfind|].
      unfold u1. cbn. rewrite Hid. apply Z.eqb_refl. }
    pose proof (auth_user_returning _ initData tg_user u1 Hwf1 Hv Hfind1) as Hrun1.
    cbv zeta in Hrun1. cbn [users tasks] in Hrun1.
    rewrite Hid in Hfind.
    pose proof (auth_user_new db initData tg_user Hwf Hv Hfind) as Hrun0.
    cbv zeta in Hrun0.
    unfold stored. rewrite Hrun1, Hrun0. cbn [fst snd]. f_equal.
    rewrite (replace_user_last u1); [|apply next_id_fresh | reflexivity].
    unfold u1. cbn [User.id User.telegram_id User.role]. rewrite Hid.
    destruct (TgUser.id tg_user =? OWNER_ID); reflexivity.
Qed.

End Sequences.

Lemma auth_user_idempotent_witness :
  outcome (auth_user (L := ref_lib) (C := ref_config) (signed_data "7,Anna,Lee"))
    (stored (auth_user (L := ref_lib) (C := ref_config) (signed_data "7,Anna,Lee"))
       (ex_db TODO None false))
  = outcome (auth_user (L := ref_lib) (C := ref_config) (signed_data "7,Anna,Lee"))
      (ex_db TODO None false)
  /\ stored (auth_user (L := ref_lib) (C := ref_config) (signed_data "7,Anna,Lee"))
       (stored (auth_user (L := ref_lib) (C := ref_config) (signed_data "7,Anna,Lee"))
          (ex_db TODO None false))
     = stored (auth_user (L := ref_lib) (C := ref_config) (signed_data "7,Anna,Lee"))
         (ex_db TODO None false).
Proof.
  exact (auth_user_idempotent (L := ref_lib) (C := ref_config) (ex_db TODO None false)
           (signed_data "7,Anna,Lee")
           (TgUser.mk 7 (Some (str "Anna")) (Some (str "Lee"))) eq_refl eq_refl).
Defined.

Lemma get_tasks_after_auth_user_witness :
  exists entries,
    outcome (get_tasks (L := ref_lib) (C := ref_config) (Some (signed_data "5,Eve")) None)
      (stored (auth_user (L := ref_lib) (C := ref_config) (signed_data "5,Eve"))
         three_tasks_db)
    = Ok entries.
Proof.
  exact (get_tasks_after_auth_user (L := ref_lib) (C := ref_config) three_tasks_db
           (signed_data "5,Eve") None (TgUser.mk 5 (Some (str "Eve")) None)
           eq_refl eq_refl eq_refl).
Defined.

Lemma auth_user_after_cmd_start_witness :
  stored (auth_user (L := ref_lib) (C := ref_config) (signed_data "5,Eve,Fox"))
    (stored (cmd_start (C := ref_config) (FromUser.mk 5 (str "eve")))
       (ex_db TODO None false))
  = stored (auth_user (L := ref_lib) (C := ref_config) (signed_data "5,Eve,Fox"))
      (ex_db TODO None false).
Proof.
  exact (auth_user_after_cmd_start (L := ref_lib) (C := ref_config)
           (ex_db TODO None false) (signed_data "5,Eve,Fox")
           (TgUser.mk 5 (Some (str "Eve")) (Some (str "Fox")))
           (FromUser.mk 5 (str "eve")) eq_refl eq_refl eq_refl).
Defined.

(* ------------------------------------------------------------------ *)
(** * Announcements *)

Lemma newer_first_total (a b : Announcement.t) :
  newer_first a b = true \/ newer_first b a = true.
Proof.
  unfold newer_first.
  destruct (Z.leb_spec (Announcement.created_at b) (Announcement.created_at a));
    [left; reflexivity | right; apply Z.leb_le; lia].
Qed.

Lemma newer_first_trans (a b c : Announcement.t) :
  newer_first a b = true -> newer_first b c = true -> newer_first a c = true.
Proof. unfold newer_first. rewrite !Z.leb_le. lia. Qed.

Lemma StronglySorted_split {A : Type} (R : A -> A -> Prop) (l1 l2 : list A) :
  StronglySorted R (l1 ++ l2) ->
  StronglySorted R l1 /\ (forall x y, In x l1 -> In y l2 -> R x y).
Proof.
  induction l1 as [|a l1 IH]; simpl; intro H.
  - split; [constructor | intros x y []].
  - inversion H as [|? ? Hl Ha]; subst. destruct (IH Hl) as [Hs Hc]. split.
    + constructor; [exact Hs|]. rewrite Forall_forall in Ha |- *.
      intros x Hx. apply Ha. apply in_or_app. left. exact Hx.
    + intros x y [<-|Hx] Hy; [|exact (Hc x y Hx Hy)].
      rewrite Forall_forall in Ha. apply Ha. apply in_or_app. right. exact Hy.
Qed.

Section AnnouncementProperties.
Context {L : PyLib} {C : Config}.


(** X29. The announcements returned are the twenty most recent, newest
    first: at most twenty, each of them stored, in descending order of
    creation time, every stored announcement that is left out being no newer
    than any returned one; with twenty or fewer stored, all are returned. *)
Theorem get_announcements_most_recent st :
  (List.length (get_announcements st) <= 20)%nat
  /\ (forall a, In a (get_announcements st) -> In a (announcements st))
  /\ StronglySorted
       (fun a b => Announcement.created_at b <= Announcement.created_at a)
       (get_announcements st)
  /\ (forall a e,
        In a (announcements st) -> ~ In a (get_announcements st) ->
        In e (get_announcements st) ->
        Announcement.created_at a <= Announcement.created_at e)
  /\ ((List.length (announcements st) <= 20)%nat ->
      Permutation (get_announcements st) (announcements st)).
Proof.
  unfold get_announcements.
  set (l := sorted newer_first (announcements st)).
  assert (Permutation l (announcements st)) as Hperm by apply sorted_perm.
  assert (StronglySorted (fun a b => newer_first a b = true) l) as Hsorted.
  { apply sorted_is_sorted; [exact newer_first_total | exact newer_first_trans]. }
  rewrite <- (firstn_skipn 20 l) in Hsorted.
  apply StronglySorted_split in Hsorted. destruct Hsorted as [Hfirst Hcross].
  split; [apply firstn_le_length|].
  split.
  { intros a Ha. apply (Permutation_in _ Hperm).
    rewrite <- (firstn_skipn 20 l). apply in_or_app. left. exact Ha. }
  split.
  { apply (StronglySorted_weaken (fun a b => newer_first a b = true)); [|exact Hfirst].
    intros x y H. apply Z.leb_le. exact H. }
  split.
  { intros a e Ha Hout He.
    apply (Permutation_in _ (Permutation_sym Hperm)) in Ha.
    rewrite <- (firstn_skipn 20 l) in Ha. apply in_app_or in Ha.
    destruct Ha as [Ha|Ha]; [contradiction|].
    apply Z.leb_le. exact (Hcross e a He Ha). }
  intro Hlen. rewrite firstn_all2; [exact Hperm|].
  rewrite (Permutation_length Hperm). exact Hlen.
Qed.

End AnnouncementProperties.


(** The broadcast of the example: the identities in ascending order, where the
    rows are stored the other way round. *)
Example create_announcement_order :
  snd (create_announcement (L := ref_lib) (C := ref_config) (str "Hello") (signed "7") 5
         (mkStore unordered_db []))
  = [(1, AnnouncementText (str "Hello")); (7, AnnouncementText (str "Hello"))].
Proof. reflexivity. Qed.

Lemma reachable_wf_db_witness : wf_db (ex_db IN_PROGRESS None true) = true.
Proof.
  exact (reachable_wf_db (L := ref_lib) (C := ref_config) (fun _ => true)
           (ex_db IN_PROGRESS None true) ex_history_locked_reachable).
Defined.
